(** * Grid-trading bot: order store, order lifecycle and wave batching

    A shallow embedding of the JavaScript sources
    ([cache-manager.js], [order-manager.js], [websocket-manager.js],
    [grid-strategy.js]) and the properties of the order lifecycle that are
    checked against them.

    [order-manager.js] exists in two revisions.  The one with the
    insufficient-balance recovery, which cancels the orders that are off
    the ladder, is embedded at top level; of the one with optimized
    waves, which cancels by count, module [Waves] holds
    [generateOptimizedWaves] and [enforceMaxOrders].

    Conventions of the embedding.
    - A JavaScript number that the bot handles (price, size) is a decimal
      with at most eight fractional digits, kept as its integer mantissa:
      [Num z] stands for [z / 10^8].  [NaN] is what [parseFloat] yields for
      a missing or non-numeric field.  The sums, differences and
      quotients of the code are those of binary floating point, which
      agree with the decimal ones on whole numbers below [2^52] and need
      not on fractions: a property that depends on such an identity (a
      subtraction that gives back the price a sum started from, a
      quotient rounded down) is stated for whole numbers below [2^52].
    - A JavaScript [Map] is an association list in insertion order: [set]
      on a key that is present replaces the value in place, [set] on a new
      key appends, [delete] removes the entry.
    - [Date.now()] and the random part of a client identifier are inputs of
      the functions that read them.
    - An [async] function is cut at its [await]s, and a listener that
      [emit] calls runs inside the function that emits.
    - [priceStep] is a positive number; a [send] on a socket that is
      ready does not throw.
    - [console.log] output is not part of the state. *)

From Stdlib Require Import Ascii String ZArith List Bool Lia Arith PeanoNat.
From Stdlib Require Import Sorting.Sorted Sorting.Permutation.
Import ListNotations.

Set Implicit Arguments.

(* ================================================================== *)
(** * JavaScript numbers *)

Module JS.

Inductive num : Type :=
  | NaN
  | Num (z : Z).

(** Eight fractional digits: [SCALE] is the mantissa of [1]. *)
Definition SCALE : Z := 100000000%Z.

(** [!x] is false exactly for a number that is neither [NaN] nor zero. *)
Definition truthy (x : num) : bool :=
  match x with
  | NaN => false
  | Num z => negb (z =? 0)%Z
  end.

(** [SameValueZero], the key equality of [Map]: [NaN] equals [NaN]. *)
Definition same (x y : num) : bool :=
  match x, y with
  | NaN, NaN => true
  | Num a, Num b => (a =? b)%Z
  | _, _ => false
  end.

(** [x + y] and [x - y]; [NaN] is absorbing. *)
Definition add (x y : num) : num :=
  match x, y with
  | Num a, Num b => Num (a + b)
  | _, _ => NaN
  end.

Definition sub (x y : num) : num :=
  match x, y with
  | Num a, Num b => Num (a - b)
  | _, _ => NaN
  end.

(** [a || b] on numbers. *)
Definition or_else (a b : num) : num := if truthy a then a else b.

(** [parseFloat(x.toFixed(d))]: the decimal with [d] fractional digits
    nearest to [x], the larger one in magnitude on a tie. *)
Definition toFixed (x : num) (d : nat) : num :=
  match x with
  | NaN => NaN
  | Num z =>
      if (8 <=? d)%nat then Num z
      else
        let m := (10 ^ Z.of_nat (8 - d))%Z in
        Num (Z.sgn z * ((2 * Z.abs z + m) / (2 * m)) * m)
  end.

End JS.

(* ================================================================== *)
(** * Insertion-ordered maps *)

Module JSMap.

Section Ops.
Variables K V : Type.
Variable eqb : K -> K -> bool.

Definition t := list (K * V).

Fixpoint get (m : t) (k : K) : option V :=
  match m with
  | [] => None
  | (k', v) :: r => if eqb k' k then Some v else get r k
  end.

Definition has (m : t) (k : K) : bool :=
  match get m k with Some _ => true | None => false end.

Fixpoint set (m : t) (k : K) (v : V) : t :=
  match m with
  | [] => [(k, v)]
  | (k', v') :: r =>
      if eqb k' k then (k', v) :: r else (k', v') :: set r k v
  end.

Fixpoint delete (m : t) (k : K) : t :=
  match m with
  | [] => []
  | (k', v') :: r =>
      if eqb k' k then r else (k', v') :: delete r k
  end.

Definition size (m : t) : nat := length m.
Definition keys (m : t) : list K := map fst m.
Definition values (m : t) : list V := map snd m.

(** The list of the projections [f] of the values, in map order. *)
Definition proj (B : Type) (f : V -> B) (m : t) : list B :=
  map (fun e => f (snd e)) m.

End Ops.

End JSMap.

(* ================================================================== *)
(** * [Array.prototype.sort] with a comparator

    The sort of the engine is stable: [x] stays in front of [y] when the
    comparator does not put [y] first.  It is an insertion sort here. *)

Section Sort.
Variable A : Type.
Variable cmp : A -> A -> Z.

Fixpoint insert (x : A) (l : list A) : list A :=
  match l with
  | [] => [x]
  | y :: r => if (cmp x y <=? 0)%Z then x :: l else y :: insert x r
  end.

Fixpoint sort (l : list A) : list A :=
    match l with
    | [] => []
    | x :: r => insert x (sort r)
    end.
(** The order of a list sorted by an integer key. *)
Definition key_le (key : A -> Z) (a b : A) : Prop := (key a <= key b)%Z.

End Sort.

(* ================================================================== *)
(** * Data model *)

Definition STATUS_PENDING : string := "pending".
Definition STATUS_LIVE : string := "live".
Definition STATUS_FILLED : string := "filled".
Definition STATUS_CANCELLED : string := "cancelled".
Definition STATUS_CANCELED : string := "canceled".

(** The [side] argument: a string spelled [buy] or [sell] in any case, or
    any other string. *)
Inductive Side : Type := Buy | Sell | OtherSide.

(** A value of [buyCurrentOrders].  The price of a buy order is a finite
    number (a ladder level, or the price the venue echoes back), kept as
    its mantissa. *)
Record BuyOrder : Type := mkBuyOrder {
  price : Z;
  size : JS.num;
  status : string;
  timestamp : Z
}.

(** An object value of [sellCurrentOrders]; [price] and [size] are absent
    from the object that [addSellOrder] builds out of a bare string. *)
Record SellOrder : Type := mkSellOrder {
  s_clientOid : string;
  s_price : option JS.num;
  s_size : option JS.num;
  s_status : string;
  s_timestamp : Z
}.

(** A value of [sellCurrentOrders]: the bare client identifier of the old
    file format, or an object. *)
Inductive SellInfo : Type :=
| SellString (clientOid : string)
| SellObject (o : SellOrder).

(** A value of [buyFilledOrders]. *)
Record FilledBuy : Type := mkFilledBuy {
  f_orderId : string;
  f_clientOid : string;
  f_price : JS.num;
  f_size : JS.num;
  f_timestamp : Z
}.

(** The fields of [config] that the modelled functions read. *)
Record Config : Type := mkConfig {
  priceStep : Z;
  maxOrders : nat;
  pricePrecision : nat;
  orderAmountUSDT : Z;
  sizePrecision : nat
}.

(* ================================================================== *)
(** * CacheManager *)

Record CacheManager : Type := mkCache {
  buyCurrentOrders : JSMap.t string BuyOrder;
  sellCurrentOrders : JSMap.t JS.num SellInfo;
  buyFilledOrders : JSMap.t JS.num FilledBuy;
  lastPrice : option Z;
  lastPriceTimestamp : option Z
}.

Definition emptyCache : CacheManager := mkCache [] [] [] None None.

Definition with_buys (c : CacheManager) m : CacheManager :=
  mkCache m (sellCurrentOrders c) (buyFilledOrders c) (lastPrice c) (lastPriceTimestamp c).
Definition with_sells (c : CacheManager) m : CacheManager :=
  mkCache (buyCurrentOrders c) m (buyFilledOrders c) (lastPrice c) (lastPriceTimestamp c).
Definition with_filled (c : CacheManager) m : CacheManager :=
  mkCache (buyCurrentOrders c) (sellCurrentOrders c) m (lastPrice c) (lastPriceTimestamp c).

Abbreviation bget := (JSMap.get String.eqb).
Abbreviation bset := (JSMap.set String.eqb).
Abbreviation bdelete := (JSMap.delete String.eqb).
Abbreviation nget := (JSMap.get JS.same).
Abbreviation nhas := (JSMap.has JS.same).
Abbreviation nset := (JSMap.set JS.same).
Abbreviation ndelete := (JSMap.delete JS.same).

Definition updatePrice (c : CacheManager) (p : Z) (now : Z) : CacheManager :=
  mkCache (buyCurrentOrders c) (sellCurrentOrders c) (buyFilledOrders c) (Some p) (Some now).

Definition getLastPrice (c : CacheManager) : option Z := lastPrice c.

Definition addBuyOrder (c : CacheManager) (clientOid : string) (p : Z) (sz : JS.num)
    (now : Z) : CacheManager :=
  with_buys c (bset (buyCurrentOrders c) clientOid (mkBuyOrder p sz STATUS_PENDING now)).

Definition set_status (o : BuyOrder) (st : string) : BuyOrder :=
  mkBuyOrder (price o) (size o) st (timestamp o).

Definition updateBuyOrderStatus (c : CacheManager) (clientOid st : string) : CacheManager :=
  match bget (buyCurrentOrders c) clientOid with
  | Some order => with_buys c (bset (buyCurrentOrders c) clientOid (set_status order st))
  | None => c
  end.

(** Returns the removed record, or [None] for [null]. *)
Definition removeBuyOrder (c : CacheManager) (clientOid : string)
    : CacheManager * option BuyOrder :=
  match bget (buyCurrentOrders c) clientOid with
  | Some order => (with_buys c (bdelete (buyCurrentOrders c) clientOid), Some order)
  | None => (c, None)
  end.

Definition addSellOrder (c : CacheManager) (p : JS.num) (orderInfo : SellInfo) (now : Z)
    : CacheManager :=
  let orderDetails :=
    match orderInfo with
    | SellString id => SellObject (mkSellOrder id None None STATUS_PENDING now)
    | SellObject o => SellObject o
    end in
  with_sells c (nset (sellCurrentOrders c) p orderDetails).

Definition removeSellOrder (c : CacheManager) (p : JS.num) : CacheManager * option SellInfo :=
  match nget (sellCurrentOrders c) p with
  | Some orderInfo => (with_sells c (ndelete (sellCurrentOrders c) p), Some orderInfo)
  | None => (c, None)
  end.

Definition addFilledBuyOrder (c : CacheManager) (p : JS.num) (details : FilledBuy)
    : CacheManager :=
  with_filled c (nset (buyFilledOrders c) p details).

Definition removeFilledBuyOrder (c : CacheManager) (p : JS.num)
    : CacheManager * option FilledBuy :=
  match nget (buyFilledOrders c) p with
  | Some details => (with_filled c (ndelete (buyFilledOrders c) p), Some details)
  | None => (c, None)
  end.

(** The first loop of [canPlaceOrder]: some buy order has this price. *)
Definition buyAtPrice (c : CacheManager) (p : Z) : bool :=
  existsb (fun order => (price order =? p)%Z) (JSMap.values (buyCurrentOrders c)).

Definition canPlaceOrder (c : CacheManager) (p step : Z) : bool :=
  if buyAtPrice c p then false
  else
    let sellPrice := JS.Num (p + step) in
    if nhas (sellCurrentOrders c) sellPrice then false
    else if nhas (buyFilledOrders c) (JS.Num p) then false
    else true.

Definition byPriceAsc (a b : string * BuyOrder) : Z := (price (snd a) - price (snd b))%Z.

Definition getOrdersToCancel (c : CacheManager) (maxOrders : nat) : list string :=
  if (JSMap.size (buyCurrentOrders c) <=? maxOrders)%nat then []
  else
    let sortedOrders := sort byPriceAsc (buyCurrentOrders c) in
    let excessOrders := (JSMap.size (buyCurrentOrders c) - maxOrders)%nat in
    map fst (firstn excessOrders sortedOrders).

Definition sellClientOid (orderInfo : SellInfo) : string :=
  match orderInfo with
  | SellString id => id
  | SellObject o => s_clientOid o
  end.

(** The entry that the loop over [sellCurrentOrders.entries()] stops at. *)
Definition findSellByOid (m : JSMap.t JS.num SellInfo) (clientOid : string)
    : option (JS.num * SellInfo) :=
  find (fun e => String.eqb (sellClientOid (snd e)) clientOid) m.

Definition updateOrderStatus (c : CacheManager) (clientOid st : string) (side : Side)
    (now : Z) : CacheManager * bool :=
  match side with
  | Buy =>
      match bget (buyCurrentOrders c) clientOid with
      | Some order =>
          (with_buys c (bset (buyCurrentOrders c) clientOid (set_status order st)), true)
      | None => (c, false)
      end
  | Sell =>
      match findSellByOid (sellCurrentOrders c) clientOid with
      | Some (p, SellString id) =>
          (with_sells c (nset (sellCurrentOrders c) p
                           (SellObject (mkSellOrder id (Some p) None st now))), true)
      | Some (p, SellObject o) =>
          (with_sells c (nset (sellCurrentOrders c) p
                           (SellObject (mkSellOrder (s_clientOid o) (s_price o) (s_size o)
                                          st (s_timestamp o)))), true)
      | None => (c, false)
      end
  | OtherSide => (c, false)
  end.

(** The test of [cleanPendingOrders] on a buy entry and on a sell entry. *)
Definition buyExpired (now maxPendingTimeMs : Z) (orderInfo : BuyOrder) : bool :=
  String.eqb (status orderInfo) STATUS_PENDING
  && (maxPendingTimeMs <? now - timestamp orderInfo)%Z.

Definition sellExpired (now maxPendingTimeMs : Z) (orderInfo : SellInfo) : bool :=
  match orderInfo with
  | SellString _ => false
  | SellObject o =>
      String.eqb (s_status o) STATUS_PENDING
      && (maxPendingTimeMs <? now - s_timestamp o)%Z
  end.

(** One [for (... of map.entries())] loop that deletes the entry it is at
    when [expired] holds: [todo] is what the iterator has yet to visit, [m]
    the map, [removedCount] the counter. *)
Section CleanLoop.
Variables K V : Type.
Variable eqb : K -> K -> bool.
Variable expired : V -> bool.

Fixpoint cleanLoop (todo : list (K * V)) (m : JSMap.t K V) (removedCount : nat)
      : JSMap.t K V * nat :=
    match todo with
    | [] => (m, removedCount)
    | (k, v) :: r =>
        if expired v then cleanLoop r (JSMap.delete eqb m k) (S removedCount)
        else cleanLoop r m removedCount
    end.
End CleanLoop.

Definition cleanPendingOrders (c : CacheManager) (maxPendingTimeMs : Z) (now : Z)
    : CacheManager * nat :=
  let '(buys, n1) :=
    cleanLoop String.eqb (buyExpired now maxPendingTimeMs)
      (buyCurrentOrders c) (buyCurrentOrders c) 0 in
  let '(sells, n2) :=
    cleanLoop JS.same (sellExpired now maxPendingTimeMs)
      (sellCurrentOrders c) (sellCurrentOrders c) n1 in
  (mkCache buys sells (buyFilledOrders c) (lastPrice c) (lastPriceTimestamp c), n2).

(** The comparator of [getActiveBuyOrdersSortedByDistance]; an element of
    its array is kept as the pair of the client identifier and the order. *)
Definition byDistanceDesc (targetPrice : Z) (a b : string * BuyOrder) : Z :=
  (Z.abs (price (snd b) - targetPrice) - Z.abs (price (snd a) - targetPrice))%Z.

(** The key the comparator sorts by, ascending: the distance, negated. *)
Definition negDistance (targetPrice : Z) (e : string * BuyOrder) : Z :=
  (- Z.abs (price (snd e) - targetPrice))%Z.

Definition getActiveBuyOrdersSortedByDistance (c : CacheManager) (targetPrice : Z)
    : list (string * BuyOrder) :=
  sort (byDistanceDesc targetPrice)
    (filter (fun e => String.eqb (status (snd e)) STATUS_LIVE) (buyCurrentOrders c)).

(* ================================================================== *)
(** * WebSocketManager: the command surface *)

Inductive Message : Type :=
| PlaceOrderMsg (clientOid : string) (side : Side) (p sz : JS.num)
| CancelOrderMsg (clientOid : string).

Module WS.

(** [sent] lists what was written to the private socket, oldest first;
    [messageQueue] is the throttled queue. *)
Record t : Type := mk {
  privateConnected : bool;
  isAuthenticated : bool;
  sent : list Message;
  messageQueue : list Message
}.

Definition ready (w : t) : bool := privateConnected w && isAuthenticated w.

Definition send (w : t) (msg : Message) : t :=
  mk (privateConnected w) (isAuthenticated w) (sent w ++ [msg]) (messageQueue w).

Definition queueMessage (w : t) (msg : Message) : t :=
  mk (privateConnected w) (isAuthenticated w) (sent w) (messageQueue w ++ [msg]).

Definition placeOrder (w : t) (clientOid : string) (side : Side) (p sz : JS.num)
    : t * option string :=
  if negb (ready w) then (w, None)
  else (send w (PlaceOrderMsg clientOid side p sz), Some clientOid).

Definition cancelOrder (w : t) (clientOid : string) : t * bool :=
  if negb (ready w) then (w, false)
  else (queueMessage w (CancelOrderMsg clientOid), true).

Definition placeBulkOrders (w : t) (orders : list (string * Side * JS.num * JS.num))
    : t * nat :=
  if negb (ready w) then (w, 0%nat)
  else
    fold_left
      (fun acc order =>
         let '(clientOid, side, p, sz) := order in
         (send (fst acc) (PlaceOrderMsg clientOid side p sz), S (snd acc)))
      orders (w, 0%nat).

Definition cancelBulkOrders (w : t) (clientOids : list string) : t * nat :=
  if negb (ready w) then (w, 0%nat)
  else
    fold_left
      (fun acc clientOid => (send (fst acc) (CancelOrderMsg clientOid), S (snd acc)))
      clientOids (w, 0%nat).

End WS.

(* ================================================================== *)
(** * OrderManager *)

Record Stats : Type := mkStats {
  ordersPlaced : nat;
  ordersCancelled : nat;
  buyOrdersFilled : nat;
  sellOrdersFilled : nat
}.

(** Where [handleInsufficientBalance] stands.  [isHandlingInsufficientBalance]
    is true in every state but [Idle]. *)
Inductive Recovery : Type :=
| Idle
| AwaitingCancel (clientOid : string) (failedOrderPrice : Z) (timeoutMs : Z)
| CancelConfirmed (failedOrderPrice : Z).

Record Bot : Type := mkBot {
  cache : CacheManager;
  ws : WS.t;
  stats : Stats;
  recovery : Recovery
}.

Definition isHandlingInsufficientBalance (b : Bot) : bool :=
  match recovery b with Idle => false | _ => true end.

(** The payload of [buy_order_filled] and [sell_order_filled]. *)
Record FillData : Type := mkFillData {
  d_price : JS.num;
  d_clientOid : string;
  d_size : JS.num;
  d_orderId : string
}.

(** An element of [data.data] on the [orders] channel, with [price] and
    [size] already through [parseFloat]; [u_newSize] is [None] when the
    field is absent or empty. *)
Record OrderUpdate : Type := mkOrderUpdate {
  u_clientOid : string;
  u_status : string;
  u_price : JS.num;
  u_size : JS.num;
  u_newSize : option JS.num;
  u_orderId : string
}.

Section OrderManager.
Variable config : Config.

(** [parseFloat((orderAmountUSDT / price).toFixed(sizePrecision || 6))];
    a quotient that is not finite is [NaN] here, and a precision above
    eight digits is eight. *)
Definition calculateOrderSize (p : JS.num) : JS.num :=
  match p with
  | JS.NaN => JS.NaN
  | JS.Num z =>
      if (z =? 0)%Z then JS.NaN
      else
        let precision := if (sizePrecision config =? 0)%nat then 6%nat
                         else Nat.min (sizePrecision config) 8 in
        let a := orderAmountUSDT config in
        let n := ((2 * Z.abs a * 10 ^ Z.of_nat precision + Z.abs z) / (2 * Z.abs z))%Z in
        JS.Num (Z.sgn a * Z.sgn z * n * 10 ^ Z.of_nat (8 - precision))
  end.

(** [tag] is the text of [${Date.now()}_${Math.floor(Math.random() * 10000)}]. *)
Definition placeBuyOrder (b : Bot) (p : Z) (now : Z) (tag : string)
    : Bot * option string :=
  if negb (canPlaceOrder (cache b) p (priceStep config)) then (b, None)
  else
    let orderSize := calculateOrderSize (JS.Num p) in
    let clientOid := ("buy_" ++ tag)%string in
    let c := addBuyOrder (cache b) clientOid p orderSize now in
    let w := fst (WS.placeOrder (ws b) clientOid Buy (JS.Num p) orderSize) in
    let st := mkStats (S (ordersPlaced (stats b))) (ordersCancelled (stats b))
                (buyOrdersFilled (stats b)) (sellOrdersFilled (stats b)) in
    (mkBot c w st (recovery b), Some clientOid).

Definition placeSellOrder (b : Bot) (p : JS.num) (sz : option JS.num) (now : Z)
    (tag : string) : Bot * string :=
  let orderSize := match sz with Some s => s | None => calculateOrderSize p end in
  let clientOid := ("sell_" ++ tag)%string in
  let w := fst (WS.placeOrder (ws b) clientOid Sell p orderSize) in
  let c := addSellOrder (cache b) p
             (SellObject (mkSellOrder clientOid (Some p) (Some orderSize)
                            STATUS_PENDING now)) now in
  let st := mkStats (S (ordersPlaced (stats b))) (ordersCancelled (stats b))
              (buyOrdersFilled (stats b)) (sellOrdersFilled (stats b)) in
  (mkBot c w st (recovery b), clientOid).

Definition cancelOrder (b : Bot) (clientOid : string) : Bot * bool :=
  let '(w, success) := WS.cancelOrder (ws b) clientOid in
  if success then
    (mkBot (cache b) w
       (mkStats (ordersPlaced (stats b)) (S (ordersCancelled (stats b)))
          (buyOrdersFilled (stats b)) (sellOrdersFilled (stats b)))
       (recovery b), true)
  else (mkBot (cache b) w (stats b) (recovery b), false).

(** [Math.floor(currentPrice / priceStep) * priceStep]. *)
Definition basePriceOf (currentPrice : Z) : Z :=
  (currentPrice / priceStep config * priceStep config)%Z.

(** The set [desiredPrices], in the order the loop adds its levels. *)
Definition desiredPricesOf (basePrice : Z) : list Z :=
  map (fun i => (basePrice - Z.of_nat i * priceStep config)%Z) (seq 0 (maxOrders config)).

Definition liveOrPending (orderInfo : BuyOrder) : bool :=
  String.eqb (status orderInfo) STATUS_LIVE || String.eqb (status orderInfo) STATUS_PENDING.

Definition inGrid (desiredPrices : list Z) (p : Z) : bool :=
  existsb (Z.eqb p) desiredPrices.

Definition enforceMaxOrders (b : Bot) : Bot * nat :=
  match getLastPrice (cache b) with
  | None => (b, 0%nat)
  | Some currentPrice =>
      if (currentPrice =? 0)%Z then (b, 0%nat)
      else
        let basePrice := basePriceOf currentPrice in
        let desiredPrices := desiredPricesOf basePrice in
        let ordersToCancel :=
          map fst
            (filter (fun e => liveOrPending (snd e)
                              && negb (inGrid desiredPrices (price (snd e))))
               (buyCurrentOrders (cache b))) in
        match ordersToCancel with
        | [] => (b, 0%nat)
        | _ =>
            let '(w, cancelledCount) := WS.cancelBulkOrders (ws b) ordersToCancel in
            (mkBot (cache b) w
               (mkStats (ordersPlaced (stats b))
                  (ordersCancelled (stats b) + cancelledCount)
                  (buyOrdersFilled (stats b)) (sellOrdersFilled (stats b)))
               (recovery b), cancelledCount)
        end
  end.

Definition handleBuyOrderFilled (b : Bot) (data : FillData) (now : Z) (tag : string)
    : Bot :=
  if negb (JS.truthy (d_price data)) then b
  else if negb (JS.truthy (d_size data)) then b
  else
    let st := mkStats (ordersPlaced (stats b)) (ordersCancelled (stats b))
                (S (buyOrdersFilled (stats b))) (sellOrdersFilled (stats b)) in
    let b1 := mkBot (cache b) (ws b) st (recovery b) in
    let sellPrice :=
      JS.toFixed (JS.add (d_price data) (JS.Num (priceStep config)))
        (pricePrecision config) in
    fst (placeSellOrder b1 sellPrice (Some (d_size data)) now tag).

Definition handleSellOrderFilled (b : Bot) (data : FillData) : Bot :=
  mkBot (cache b) (ws b)
    (mkStats (ordersPlaced (stats b)) (ordersCancelled (stats b))
       (buyOrdersFilled (stats b)) (S (sellOrdersFilled (stats b))))
    (recovery b).

(** One iteration of the loop of [placeBulkBuyOrders]: [acc] is the state,
    the array [orders] and [orderCount]. *)
Definition bulkBuyStep (now : Z)
    (acc : Bot * list (string * Side * JS.num * JS.num) * nat) (pt : Z * string)
    : Bot * list (string * Side * JS.num * JS.num) * nat :=
  let '(b, orders, orderCount) := acc in
  let '(p, tag) := pt in
  if negb (canPlaceOrder (cache b) p (priceStep config)) then acc
  else
    let orderSize := calculateOrderSize (JS.Num p) in
    let clientOid := ("buy_" ++ tag)%string in
    let c := addBuyOrder (cache b) clientOid p orderSize now in
    let st := mkStats (S (ordersPlaced (stats b))) (ordersCancelled (stats b))
                (buyOrdersFilled (stats b)) (sellOrdersFilled (stats b)) in
    (mkBot c (ws b) st (recovery b),
     orders ++ [(clientOid, Buy, JS.Num p, orderSize)], S orderCount).

(** [pricesData] pairs each price with the text of
    [${Date.now()}_${random}_${orderCount}] its identifier would get. *)
Definition placeBulkBuyOrders (b : Bot) (pricesData : list (Z * string)) (now : Z)
    : Bot * nat :=
  let '(b1, orders, _) := fold_left (bulkBuyStep now) pricesData (b, [], 0%nat) in
  match orders with
  | [] => (b1, 0%nat)
  | _ =>
      let '(w, placedCount) := WS.placeBulkOrders (ws b1) orders in
      (mkBot (cache b1) w (stats b1) (recovery b1), placedCount)
  end.

(** The bound of the wait for the [cancelled] confirmation, in ms. *)
Definition CANCEL_TIMEOUT_MS : Z := 2000.

(** [handleInsufficientBalance] up to its first suspension: the early
    exits leave through [finally], which clears the flag. *)
Definition handleInsufficientBalance (b : Bot) (failedOrderPrice : Z) : Bot :=
  match recovery b with
  | Idle =>
      let activeBuyOrders :=
        getActiveBuyOrdersSortedByDistance (cache b) failedOrderPrice in
      match activeBuyOrders with
      | [] => b
      | _ =>
          let eligibleOrders :=
            filter (fun order => (price (snd order) <? failedOrderPrice)%Z)
              activeBuyOrders in
          match eligibleOrders with
          | [] => b
          | furthestOrder :: _ =>
              let b1 := fst (cancelOrder b (fst furthestOrder)) in
              mkBot (cache b1) (ws b1) (stats b1)
                (AwaitingCancel (fst furthestOrder) failedOrderPrice CANCEL_TIMEOUT_MS)
          end
      end
  | _ => b
  end.

(** The listener [onOrderCancelled] that the recovery registers. *)
Definition onOrderCancelled (b : Bot) (clientOid : string) : Bot :=
  match recovery b with
  | AwaitingCancel awaited failedOrderPrice _ =>
      if String.eqb clientOid awaited
      then mkBot (cache b) (ws b) (stats b) (CancelConfirmed failedOrderPrice)
      else b
  | _ => b
  end.

(** The timer of the recovery fires: the promise is rejected, [catch]
    logs, [finally] clears the flag. *)
Definition onCancelTimeout (b : Bot) : Bot :=
  match recovery b with
  | AwaitingCancel _ _ _ => mkBot (cache b) (ws b) (stats b) Idle
  | _ => b
  end.

(** [handleInsufficientBalance] after [await cancelPromise]. *)
Definition resumeAfterCancel (b : Bot) (now : Z) (tag : string) : Bot :=
  match recovery b with
  | CancelConfirmed failedOrderPrice =>
      let b1 := fst (placeBuyOrder b failedOrderPrice now tag) in
      mkBot (cache b1) (ws b1) (stats b1) Idle
  | _ => b
  end.

(* ---------------------------------------------------------------- *)
  (** ** WebSocketManager.handleOrderUpdate

      [emit] runs the listeners of the OrderManager before it returns. *)

Definition filledSizeOf (order : OrderUpdate) : JS.num :=
  match u_newSize order with
  | Some newSizeValue => JS.or_else newSizeValue (u_size order)
  | None => u_size order
  end.

Definition isCancelled (st : string) : bool :=
  String.eqb st STATUS_CANCELLED || String.eqb st STATUS_CANCELED.

Definition with_cache (b : Bot) (c : CacheManager) : Bot :=
  mkBot c (ws b) (stats b) (recovery b).

Definition handleOrderUpdate (b : Bot) (order : OrderUpdate) (now : Z) (tag : string)
    : Bot :=
  let clientOid := u_clientOid order in
  if String.eqb clientOid "" then b
  else
    let priceValue := u_price order in
    let sizeValue := u_size order in
    if String.prefix "buy_" clientOid then
      if String.eqb (u_status order) STATUS_LIVE then
        with_cache b (fst (updateOrderStatus (cache b) clientOid STATUS_LIVE Buy now))
      else if String.eqb (u_status order) STATUS_FILLED then
        let filledSize := filledSizeOf order in
        let c1 := fst (removeBuyOrder (cache b) clientOid) in
        let c2 := addFilledBuyOrder c1 priceValue
                    (mkFilledBuy (u_orderId order) clientOid priceValue filledSize now) in
        handleBuyOrderFilled (with_cache b c2)
          (mkFillData priceValue clientOid filledSize (u_orderId order)) now tag
      else if isCancelled (u_status order) then
        let c1 := fst (removeBuyOrder (cache b) clientOid) in
        onOrderCancelled (with_cache b c1) clientOid
      else b
    else if String.prefix "sell_" clientOid then
      if String.eqb (u_status order) STATUS_FILLED then
        let buyPrice := JS.sub priceValue (JS.Num (priceStep config)) in
        let soldSize := filledSizeOf order in
        let c1 := fst (removeFilledBuyOrder (cache b) buyPrice) in
        let c2 := fst (removeSellOrder c1 priceValue) in
        handleSellOrderFilled (with_cache b c2)
          (mkFillData priceValue clientOid soldSize (u_orderId order))
      else if isCancelled (u_status order) then
        match findSellByOid (sellCurrentOrders (cache b)) clientOid with
        | Some (sellPrice, _) => with_cache b (fst (removeSellOrder (cache b) sellPrice))
        | None => b
        end
      else b
    else b.

End OrderManager.

(* ================================================================== *)
(** * order-manager.js, the revision with optimized waves

    This revision of the OrderManager cancels by count and splits a batch
    with [generateOptimizedWaves]. *)

Module Waves.

(** [ordersData.slice(i, j)]. *)
Definition slice (A : Type) (ordersData : list A) (i j : nat) : list A :=
  firstn (j - i) (skipn i ordersData).

(** [for (let i = start; i < totalOrders; i += step) waves.push(slice)].
    The loop does not end when [step] is [0]; [fuel] bounds the number
    of iterations and [None] stands for a loop that is still running. *)
Fixpoint sliceLoop (A : Type) (fuel : nat) (ordersData : list A)
    (i step totalOrders : nat) : option (list (list A)) :=
  if (totalOrders <=? i)%nat then Some []
  else
    match fuel with
    | O => None
    | S fuel' =>
        match sliceLoop fuel' ordersData (i + step) step totalOrders with
        | Some waves =>
            Some (slice ordersData i (Nat.min (i + step) totalOrders) :: waves)
        | None => None
        end
    end.

Definition generateOptimizedWaves (A : Type) (ordersData : list A) (maxPerWave : nat)
    : option (list (list A)) :=
  let totalOrders := length ordersData in
  let safeMaxPerWave := Nat.min maxPerWave 49 in
  if (totalOrders <=? safeMaxPerWave)%nat then Some [ordersData]
  else
    let lastWaveSize := (totalOrders mod safeMaxPerWave)%nat in
    let redistributeLastWave :=
      (0 <? lastWaveSize)%nat && (4 * lastWaveSize <? safeMaxPerWave)%nat in
    let standard := sliceLoop totalOrders ordersData 0 safeMaxPerWave totalOrders in
    if redistributeLastWave then
      let fullWaves := (totalOrders / safeMaxPerWave)%nat in
      if (1 <=? fullWaves)%nat then
        let ordersPerWave := ((totalOrders + fullWaves - 1) / fullWaves)%nat in
        let safeOrdersPerWave := Nat.min ordersPerWave safeMaxPerWave in
        sliceLoop totalOrders ordersData 0 safeOrdersPerWave totalOrders
      else standard
    else standard.

(** [enforceMaxOrders] of this revision. *)
Definition enforceMaxOrders (config : Config) (b : Bot) : Bot * nat :=
  let ordersToCancel := getOrdersToCancel (cache b) (maxOrders config) in
  match ordersToCancel with
  | [] => (b, 0%nat)
  | _ =>
      let '(w, cancelledCount) := WS.cancelBulkOrders (ws b) ordersToCancel in
      (mkBot (cache b) w
         (mkStats (ordersPlaced (stats b)) (ordersCancelled (stats b) + cancelledCount)
            (buyOrdersFilled (stats b)) (sellOrdersFilled (stats b)))
         (recovery b), cancelledCount)
  end.

End Waves.

(* ================================================================== *)
(** * The error branch of the private message handler *)

(** Code 429 on [place-order]: the order never reached the venue and its
    optimistic record is dropped. *)
Definition handleTooManyRequests (b : Bot) (clientOid : string) : Bot :=
  if String.prefix "buy_" clientOid then
    with_cache b (fst (removeBuyOrder (cache b) clientOid))
  else if String.prefix "sell_" clientOid then
    match findSellByOid (sellCurrentOrders (cache b)) clientOid with
    | Some (p, _) => with_cache b (fst (removeSellOrder (cache b) p))
    | None => b
    end
  else b.

(** Code 43001 on [cancel-order]: the order is gone at the venue. *)
Definition handleUnknownOrder (b : Bot) (clientOid : string) : Bot :=
  with_cache b (fst (removeBuyOrder (cache b) clientOid)).

(* ================================================================== *)
(** * The event loop

    Every turn of the event loop that touches the store, the statistics or
    the recovery, as one event. *)

Inductive Event : Type :=
| EPlaceBuy (p now : Z) (tag : string)
| EPlaceBulkBuy (pricesData : list (Z * string)) (now : Z)
| EOrderUpdate (order : OrderUpdate) (now : Z) (tag : string)
| EInsufficientBalance (failedOrderPrice : Z)
| ECancelTimeout
| EResumeAfterCancel (now : Z) (tag : string)
| EEnforceMaxOrders
| ECleanPending (maxPendingTimeMs now : Z)
| EPriceUpdate (p now : Z)
| ETooManyRequests (clientOid : string)
| EUnknownOrder (clientOid : string)
| EConnection (connected authenticated : bool).

Definition step (config : Config) (b : Bot) (e : Event) : Bot :=
  match e with
  | EPlaceBuy p now tag => fst (placeBuyOrder config b p now tag)
  | EPlaceBulkBuy pricesData now => fst (placeBulkBuyOrders config b pricesData now)
  | EOrderUpdate order now tag => handleOrderUpdate config b order now tag
  | EInsufficientBalance failedOrderPrice => handleInsufficientBalance b failedOrderPrice
  | ECancelTimeout => onCancelTimeout b
  | EResumeAfterCancel now tag => resumeAfterCancel config b now tag
  | EEnforceMaxOrders => fst (enforceMaxOrders config b)
  | ECleanPending maxPendingTimeMs now =>
      with_cache b (fst (cleanPendingOrders (cache b) maxPendingTimeMs now))
  | EPriceUpdate p now => with_cache b (updatePrice (cache b) p now)
  | ETooManyRequests clientOid => handleTooManyRequests b clientOid
  | EUnknownOrder clientOid => handleUnknownOrder b clientOid
  | EConnection connected authenticated =>
      mkBot (cache b)
        (WS.mk connected authenticated (WS.sent (ws b)) (WS.messageQueue (ws b)))
        (stats b) (recovery b)
  end.

Definition run (config : Config) (b : Bot) (events : list Event) : Bot :=
  fold_left (step config) events b.

(** The bot as its constructors leave it. *)
Definition initialBot : Bot :=
  mkBot emptyCache (WS.mk false false [] []) (mkStats 0 0 0 0) Idle.

(* ================================================================== *)
(** * Predicates on the store *)

(** The keys of a [Map] are pairwise distinct. *)
Fixpoint distinctb (K : Type) (eqb : K -> K -> bool) (l : list K) : bool :=
  match l with
  | [] => true
  | k :: r => negb (existsb (eqb k) r) && distinctb eqb r
  end.

Definition wellFormed (c : CacheManager) : bool :=
  distinctb String.eqb (JSMap.keys (buyCurrentOrders c))
  && distinctb JS.same (JSMap.keys (sellCurrentOrders c))
  && distinctb JS.same (JSMap.keys (buyFilledOrders c)).

(** The prices of the active buy orders, in map order. *)
Definition buyPrices (c : CacheManager) : list Z :=
  map (fun e => price (snd e)) (buyCurrentOrders c).

(** No two active buy orders share a price. *)
Definition noSharedBuyPrice (c : CacheManager) : Prop := NoDup (buyPrices c).

(** No active buy order sits at the price of an active sell order. *)
Definition noBuyAtSellPrice (c : CacheManager) : Prop :=
  forall clientOid order,
    bget (buyCurrentOrders c) clientOid = Some order ->
    nhas (sellCurrentOrders c) (JS.Num (price order)) = false.

(* ================================================================== *)
(** * WebSocketManager: reconnection and the throttled queue *)

(** [this.maxReconnectAttempts], set by the constructor. *)
Definition maxReconnectAttempts : nat := 5.

(** What [reconnectPublic] and [reconnectPrivate] hand to [setTimeout]:
    connect again after [delay] ms, or reset the counter and connect
    after [delay] ms. *)
Inductive ReconnectAction : Type :=
| ConnectAfter (delay : Z)
| ResetAndConnectAfter (delay : Z).

Definition reconnectPublic (publicReconnectAttempts : nat) (scheduled : bool)
    : nat * ReconnectAction :=
  let attempts := if scheduled then 0%nat else publicReconnectAttempts in
  if (attempts <? maxReconnectAttempts)%nat then
    let attempts' := S attempts in
    (attempts', ConnectAfter (Z.min (1000 * 2 ^ Z.of_nat attempts') 30000))
  else (attempts, ResetAndConnectAfter 60000).

Definition reconnectPrivate (privateReconnectAttempts : nat) (scheduled : bool)
    : nat * ReconnectAction :=
  let attempts := if scheduled then 0%nat else privateReconnectAttempts in
  if (attempts <? maxReconnectAttempts)%nat then
    let attempts' := S attempts in
    (attempts', ConnectAfter (Z.min (1000 * 2 ^ Z.of_nat attempts') 30000))
  else (attempts, ResetAndConnectAfter 60000).

Definition delayOf (action : ReconnectAction) : Z :=
  match action with
  | ConnectAfter delay => delay
  | ResetAndConnectAfter delay => delay
  end.

(** The counter once the timer of [action] has run its callback. *)
Definition attemptsAfterTimer (attempts : nat) (action : ReconnectAction) : nat :=
  match action with
  | ConnectAfter _ => attempts
  | ResetAndConnectAfter _ => 0%nat
  end.

(** The waits of [n] [close] events in a row on the private socket, none
    of the connections in between reaching [open]. *)
Fixpoint closeDelays (n : nat) (privateReconnectAttempts : nat) : list Z :=
  match n with
  | O => []
  | S n' =>
      let '(attempts, action) := reconnectPrivate privateReconnectAttempts false in
      delayOf action :: closeDelays n' (attemptsAfterTimer attempts action)
  end.

(** What [privateWs.send] does in [processMessageQueue]: it returns, or it
    throws an error with the given [code]. *)
Inductive SendOutcome : Type :=
| SendReturns
| SendThrows (code : string).

(** [error.code !== 'EPIPE' && error.code !== 'ECONNRESET']. *)
Definition isTemporaryError (code : string) : bool :=
  negb (String.eqb code "EPIPE") && negb (String.eqb code "ECONNRESET").

Definition processMessageQueue (w : WS.t) (outcome : SendOutcome) : WS.t :=
  match WS.messageQueue w with
  | [] => w
  | message :: rest =>
      if negb (WS.privateConnected w) then w
      else
        match outcome with
        | SendReturns =>
            WS.mk (WS.privateConnected w) (WS.isAuthenticated w)
              (WS.sent w ++ [message]) rest
        | SendThrows code =>
            if isTemporaryError code then
              WS.mk (WS.privateConnected w) (WS.isAuthenticated w)
                (WS.sent w) (message :: rest)
            else
              WS.mk (WS.privateConnected w) (WS.isAuthenticated w) (WS.sent w) rest
        end
  end.

(** An outcome that loses no message: the send returns, or it throws an
    error that is neither [EPIPE] nor [ECONNRESET]. *)
Definition lossless (outcome : SendOutcome) : bool :=
  match outcome with
  | SendReturns => true
  | SendThrows code => isTemporaryError code
  end.

(** One firing of the ticker of [startMessageProcessing] per outcome. *)
Definition drainQueue (w : WS.t) (outcomes : list SendOutcome) : WS.t :=
  fold_left processMessageQueue outcomes w.

(* ================================================================== *)
(** * OrderManager: bulk sells and waves *)

(** [config.massOrders]; a field that is absent is [0]. *)
Record MassOrders : Type := mkMassOrders {
  waveSize : nat;
  waveInterval : Z
}.

(** [this.config.massOrders?.waveSize || 49]. *)
Definition waveSizeOf (massOrders : option MassOrders) : nat :=
  match massOrders with
  | Some m => if (waveSize m =? 0)%nat then 49%nat else waveSize m
  | None => 49%nat
  end.

(** [this.config.massOrders?.waveInterval || 1001]. *)
Definition waveIntervalOf (massOrders : option MassOrders) : Z :=
  match massOrders with
  | Some m => if (waveInterval m =? 0)%Z then 1001%Z else waveInterval m
  | None => 1001%Z
  end.

(** The closure of [placeOrdersInWaves] between two firings of its
    interval. *)
Record WaveJob : Type := mkWaveJob {
  jobSide : Side;
  waves : list (list (Z * string));
  currentWaveIndex : nat;
  totalOrdersPlaced : nat
}.

(** The promise of [placeOrdersInWaves]: resolved with a total, or still
    pending with its closure. *)
Inductive WaveOutcome : Type :=
| Resolved (total : nat)
| Pending (job : WaveJob).

Section WaveSending.
Variable config : Config.

(** One iteration of the loop of [placeBulkSellOrders]. *)
Definition bulkSellStep (now : Z)
    (acc : Bot * list (string * Side * JS.num * JS.num) * nat) (pt : Z * string)
    : Bot * list (string * Side * JS.num * JS.num) * nat :=
  let '(b, orders, orderCount) := acc in
  let '(p, tag) := pt in
  let orderSize := calculateOrderSize config (JS.Num p) in
  let clientOid := ("sell_" ++ tag)%string in
  let c := addSellOrder (cache b) (JS.Num p)
             (SellObject (mkSellOrder clientOid (Some (JS.Num p)) (Some orderSize)
                            STATUS_PENDING now)) now in
  let st := mkStats (S (ordersPlaced (stats b))) (ordersCancelled (stats b))
              (buyOrdersFilled (stats b)) (sellOrdersFilled (stats b)) in
  (mkBot c (ws b) st (recovery b),
   orders ++ [(clientOid, Sell, JS.Num p, orderSize)], S orderCount).

Definition placeBulkSellOrders (b : Bot) (pricesData : list (Z * string)) (now : Z)
    : Bot * nat :=
  let '(b1, orders, _) := fold_left (bulkSellStep now) pricesData (b, [], 0%nat) in
  match orders with
  | [] => (b1, 0%nat)
  | _ =>
      let '(w, placedCount) := WS.placeBulkOrders (ws b1) orders in
      (mkBot (cache b1) w (stats b1) (recovery b1), placedCount)
  end.

(** [sendWave]: the wave at [currentWaveIndex] goes out and its count is
    added to the total. *)
Definition sendWave (b : Bot) (job : WaveJob) (now : Z) : Bot * WaveJob :=
  let currentWave := nth (currentWaveIndex job) (waves job) [] in
  let '(b1, placed) :=
    match jobSide job with
    | Buy => placeBulkBuyOrders config b currentWave now
    | Sell => placeBulkSellOrders b currentWave now
    | OtherSide => (b, 0%nat)
    end in
  (b1, mkWaveJob (jobSide job) (waves job) (currentWaveIndex job)
         (totalOrdersPlaced job + placed)).

(** [placeOrdersInWaves] up to the return of its executor: nothing to do
    for an empty list, else the waves are cut, the first one is sent and
    the interval is armed.  [None] stands for a cutting loop that does
    not end. *)
Definition placeOrdersInWaves (b : Bot) (side : Side) (ordersData : list (Z * string))
    (massOrders : option MassOrders) (now : Z) : option (Bot * WaveOutcome) :=
  match ordersData with
  | [] => Some (b, Resolved 0)
  | _ =>
      match Waves.sliceLoop (length ordersData) ordersData 0 (waveSizeOf massOrders)
              (length ordersData) with
      | Some theWaves =>
          let '(b1, job) := sendWave b (mkWaveJob side theWaves 0 0) now in
          Some (b1, Pending job)
      | None => None
      end
  end.

(** One firing of the interval of [placeOrdersInWaves]. *)
Definition waveTick (b : Bot) (job : WaveJob) (now : Z) : Bot * WaveOutcome :=
  let job1 := mkWaveJob (jobSide job) (waves job) (S (currentWaveIndex job))
                (totalOrdersPlaced job) in
  if (currentWaveIndex job1 <? length (waves job1))%nat then
    let '(b1, job2) := sendWave b job1 now in (b1, Pending job2)
  else (b, Resolved (totalOrdersPlaced job1)).

(** The interval fires once per time of [clock], until the promise is
    resolved. *)
Fixpoint runWaves (b : Bot) (job : WaveJob) (clock : list Z) : Bot * WaveOutcome :=
  match clock with
  | [] => (b, Pending job)
  | now :: rest =>
      match waveTick b job now with
      | (b1, Resolved total) => (b1, Resolved total)
      | (b1, Pending job1) => runWaves b1 job1 rest
      end
  end.

End WaveSending.

(* ================================================================== *)
(** * GridStrategy *)

Record GridStrategy : Type := mkGridStrategy {
  running : bool;
  lastProcessedPrice : option Z;
  lastUpdateTime : option Z;
  lastBasePrice : option Z;
  isPlacingOrders : bool
}.

Section Grid.
Variable config : Config.
Variable massOrders : option MassOrders.

(** The text of [${Date.now()}_${random}_${orderCount}] that the order
    placed at a price gets. *)
Variable tagFor : Z -> string.

(** [updateGridOrders] up to its return; the third component is the
    promise of the placement it started, if it started one. *)
Definition updateGridOrders (b : Bot) (g : GridStrategy) (currentPrice : Z) (now : Z)
    : option (Bot * GridStrategy * option WaveOutcome) :=
  let b1 := with_cache b (fst (cleanPendingOrders (cache b) 1500 now)) in
  let basePrice := basePriceOf config currentPrice in
  let g1 := mkGridStrategy (running g) (lastProcessedPrice g) (lastUpdateTime g)
              (Some basePrice) (isPlacingOrders g) in
  let desiredLevels := desiredPricesOf config basePrice in
  let b2 := fst (enforceMaxOrders config b1) in
  let newPriceLevels :=
    filter (fun p => canPlaceOrder (cache b2) p (priceStep config)) desiredLevels in
  match newPriceLevels with
  | [] => Some (b2, g1, None)
  | _ =>
      if isPlacingOrders g1 then Some (b2, g1, None)
      else
        let g2 := mkGridStrategy (running g1) (lastProcessedPrice g1) (lastUpdateTime g1)
                    (lastBasePrice g1) true in
        match placeOrdersInWaves config b2 Buy
                (map (fun p => (p, tagFor p)) newPriceLevels) massOrders now with
        | Some (b3, outcome) => Some (b3, g2, Some outcome)
        | None => None
        end
  end.

Definition updateOrders (b : Bot) (g : GridStrategy) (now : Z)
    : option (Bot * GridStrategy * option WaveOutcome) :=
  match getLastPrice (cache b) with
  | None => Some (b, g, None)
  | Some currentPrice =>
      if (currentPrice =? 0)%Z then Some (b, g, None)
      else
        let recent :=
          match lastProcessedPrice g, lastUpdateTime g with
          | Some processed, Some updated =>
              (processed =? currentPrice)%Z && negb (updated =? 0)%Z
              && (now - updated <? 1000)%Z
          | _, _ => false
          end in
        if recent then Some (b, g, None)
        else
          match updateGridOrders b g currentPrice now with
          | Some (b1, g1, outcome) =>
              Some (b1,
                    mkGridStrategy (running g1) (Some currentPrice) (Some now)
                      (lastBasePrice g1) (isPlacingOrders g1),
                    outcome)
          | None => None
          end
  end.

End Grid.

(** The identifiers that [placeBulkBuyOrders] gives the orders of a
    batch. *)
Definition buyIdsOf (pricesData : list (Z * string)) : list string :=
  map (fun pt => ("buy_" ++ snd pt)%string) pricesData.

(** The record that [placeBulkBuyOrders] stores for an order of a batch
    and the order it hands to [placeBulkOrders]. *)
Definition buyRecordOf (config : Config) (now : Z) (pt : Z * string) : string * BuyOrder :=
  (("buy_" ++ snd pt)%string,
   mkBuyOrder (fst pt) (calculateOrderSize config (JS.Num (fst pt))) STATUS_PENDING now).

Definition buyRequestOf (config : Config) (pt : Z * string)
    : string * Side * JS.num * JS.num :=
  (("buy_" ++ snd pt)%string, Buy, JS.Num (fst pt),
   calculateOrderSize config (JS.Num (fst pt))).

(** The waves [todo] sent one after the other by [sendWave], the first
    at the first time of [clock], the counts added to [total]: what a
    run of the interval of [placeOrdersInWaves] is compared with. *)
Fixpoint sendInTurn (config : Config) (side : Side) (b : Bot)
    (todo : list (list (Z * string))) (clock : list Z) (total : nat) : Bot * nat :=
  match todo, clock with
  | wave :: todo', now :: clock' =>
      let '(b1, job) := sendWave config b (mkWaveJob side [wave] 0 total) now in
      sendInTurn config side b1 todo' clock' (totalOrdersPlaced job)
  | _, _ => (b, total)
  end.

(** The message that places the buy order of a batch. *)
Definition buyMessageOf (config : Config) (pt : Z * string) : Message :=
  PlaceOrderMsg ("buy_" ++ snd pt) Buy (JS.Num (fst pt))
    (calculateOrderSize config (JS.Num (fst pt))).

(** The record that [placeBulkSellOrders] stores for an order of a
    batch and the message that places it. *)
Definition sellRecordOf (config : Config) (now : Z) (pt : Z * string) : SellInfo :=
  SellObject (mkSellOrder ("sell_" ++ snd pt) (Some (JS.Num (fst pt)))
                (Some (calculateOrderSize config (JS.Num (fst pt)))) STATUS_PENDING now).

Definition sellMessageOf (config : Config) (pt : Z * string) : Message :=
  PlaceOrderMsg ("sell_" ++ snd pt) Sell (JS.Num (fst pt))
    (calculateOrderSize config (JS.Num (fst pt))).

(** A ladder level is covered: a buy order stands at it, or a sell order
    one step above it, or its filled buy is on record. *)
Definition covered (config : Config) (c : CacheManager) (p : Z) : Prop :=
  buyAtPrice c p = true
  \/ nhas (sellCurrentOrders c) (JS.Num (p + priceStep config)) = true
  \/ nhas (buyFilledOrders c) (JS.Num p) = true.

(* ================================================================== *)
(** * Sample configuration, states and traces *)

Open Scope string_scope.

(** Step 50, five levels, prices to the unit, 100 USDT per order. *)
Definition sampleConfig : Config :=
  mkConfig (50 * JS.SCALE) 5 0 (100 * JS.SCALE) 6.

(** The mantissa of an integer price. *)
Definition usd (n : Z) : Z := (n * JS.SCALE)%Z.

Definition readyWS : WS.t := WS.mk true true [] [].

(** A buy at 10000 is placed and fills, its sell goes out at 10050, and
    the grid then places a buy at 10050. *)
Definition traceBuyAtSellPrice : list Event :=
  [ EConnection true true;
    EPlaceBuy (usd 10000) 1000 "1000_1";
    EOrderUpdate (mkOrderUpdate "buy_1000_1" "filled" (JS.Num (usd 10000))
                    (JS.Num 1000000) None "unknown") 2000 "2000_2";
    EPlaceBuy (usd 10050) 3000 "3000_3" ].

(** A buy at 10000 is placed, and the fill of an order that the store no
    longer holds is reported at 10000: its sell goes out at 10050 while
    the buy at 10000 is active. *)
Definition traceBuyBelowSell : list Event :=
  [ EConnection true true;
    EPlaceBuy (usd 10000) 1000 "1000_1";
    EOrderUpdate (mkOrderUpdate "buy_900_0" "filled" (JS.Num (usd 10000))
                    (JS.Num 1000000) None "unknown") 2000 "2000_2" ].

(** One live buy at 5000 while the market is at 10020. *)
Definition botWithFarOrder : Bot :=
  mkBot
    (mkCache [("buy_1", mkBuyOrder (usd 5000) (JS.Num 2000000) "live" 10)] [] []
       (Some (usd 10020)) (Some 20%Z))
    readyWS (mkStats 1 0 0 0) Idle.

(** Live buys at 9700, 9750 and 9900. *)
Definition botWithThreeBuys : Bot :=
  mkBot
    (mkCache
       [ ("buy_a", mkBuyOrder (usd 9900) (JS.Num 1010100) "live" 10);
         ("buy_b", mkBuyOrder (usd 9700) (JS.Num 1030900) "live" 11);
         ("buy_c", mkBuyOrder (usd 9750) (JS.Num 1025600) "live" 12) ]
       [] [] (Some (usd 9950)) (Some 20%Z))
    readyWS (mkStats 3 0 0 0) Idle.

(** [botWithThreeBuys] with the record of the buy at 9800 that the venue
    has just rejected still pending in the store. *)
Definition botAfterRejectedBuy : Bot :=
  mkBot
    (mkCache
       [ ("buy_a", mkBuyOrder (usd 9900) (JS.Num 1010100) "live" 10);
         ("buy_b", mkBuyOrder (usd 9700) (JS.Num 1030900) "live" 11);
         ("buy_c", mkBuyOrder (usd 9750) (JS.Num 1025600) "live" 12);
         ("buy_d", mkBuyOrder (usd 9800) (JS.Num 1020400) "pending" 2900) ]
       [] [] (Some (usd 9950)) (Some 20%Z))
    readyWS (mkStats 4 0 0 0) Idle.

(** [botWithThreeBuys] once a buy at 9800 has been placed with
    [placeBuyOrder]: the order that the venue rejects for insufficient
    balance. *)
Definition botWithRejectedBuy : Bot :=
  fst (placeBuyOrder sampleConfig botWithThreeBuys (usd 9800) 2900 "2900_4").

(** One pending buy at 10000. *)
Definition botWithPendingBuy : Bot :=
  mkBot
    (mkCache [("buy_1", mkBuyOrder (usd 10000) (JS.Num 1000000) "pending" 10)] [] []
       (Some (usd 10020)) (Some 20%Z))
    readyWS (mkStats 1 0 0 0) Idle.

(** The report of the fill of [buy_1] at 10000 for 0.01, and the report of
    the fill of the sell at 10050 that answers it. *)
Definition fillOfBuy1 : OrderUpdate :=
  mkOrderUpdate "buy_1" "filled" (JS.Num (usd 10000)) (JS.Num 1000000) None "unknown".

Definition fillOfSell : OrderUpdate :=
  mkOrderUpdate "sell_2000_2" "filled" (JS.Num (usd 10050)) (JS.Num 1000000) None "unknown".

(** The report of the fill of [buy_1] with [newSize]: 0.0099 of the 0.01
    ordered was bought. *)
Definition fillOfBuy1WithNewSize : OrderUpdate :=
  mkOrderUpdate "buy_1" "filled" (JS.Num (usd 10000)) (JS.Num 1000000)
    (Some (JS.Num 990000)) "unknown".

(** The report of the fill of [buy_1] without a price. *)
Definition fillWithoutPrice : OrderUpdate :=
  mkOrderUpdate "buy_1" "filled" JS.NaN (JS.Num 1000000) None "unknown".

(** A store at time 5000: a buy pending since 1000, a buy pending since
    4000, a live buy from 1000; a sell pending since 1000, a sell in the
    old string format and a live sell. *)
Definition cacheWithStaleOrders : CacheManager :=
  mkCache
    [ ("buy_old", mkBuyOrder (usd 10000) (JS.Num 1000000) "pending" 1000);
      ("buy_new", mkBuyOrder (usd 9950) (JS.Num 1005000) "pending" 4000);
      ("buy_live", mkBuyOrder (usd 9900) (JS.Num 1010100) "live" 1000) ]
    [ (JS.Num (usd 10100),
       SellObject (mkSellOrder "sell_old" (Some (JS.Num (usd 10100)))
                     (Some (JS.Num 1000000)) "pending" 1000));
      (JS.Num (usd 10150), SellString "sell_legacy");
      (JS.Num (usd 10200),
       SellObject (mkSellOrder "sell_live" (Some (JS.Num (usd 10200)))
                     (Some (JS.Num 1000000)) "live" 1000)) ]
    [] (Some (usd 10020)) (Some 4990%Z).

(** [botWithPendingBuy] with a cancellation waiting in the throttled
    queue. *)
Definition botWithQueuedCancel : Bot :=
  mkBot (cache botWithPendingBuy) (WS.mk true true [] [CancelOrderMsg "buy_0"])
    (mkStats 1 1 0 0) Idle.

(** [botWithPendingBuy] once [buy_1] has filled: the filled buy at 10000
    is on record and its sell stands at 10050. *)
Definition botWithOpenSell : Bot :=
  handleOrderUpdate sampleConfig botWithPendingBuy fillOfBuy1 2000 "2000_2".

(** The report of the cancellation of that sell. *)
Definition cancelOfSell : OrderUpdate :=
  mkOrderUpdate "sell_2000_2" "cancelled" (JS.Num (usd 10050)) (JS.Num 1000000) None
    "unknown".

(** An empty store, the market at 10020, the socket ready. *)
Definition readyBot : Bot :=
  mkBot (mkCache [] [] [] (Some (usd 10020)) (Some 20%Z)) readyWS (mkStats 0 0 0 0) Idle.

(** The same store with the socket down. *)
Definition offlineBot : Bot :=
  mkBot (mkCache [] [] [] (Some (usd 10020)) (Some 20%Z)) (WS.mk false false [] [])
    (mkStats 0 0 0 0) Idle.

(** Three levels with the identifier texts of one batch. *)
Definition sampleBatch : list (Z * string) :=
  [ (usd 10000, "5000_11_0"); (usd 9950, "5000_22_1"); (usd 9900, "5000_33_2") ].

(** A strategy that has not run yet. *)
Definition sampleGrid : GridStrategy := mkGridStrategy true None None None false.

(** Identifier texts for the levels of the sample ladder. *)
Definition sampleTagFor (p : Z) : string :=
  if (p =? usd 10000)%Z then "5000_11_0"
  else if (p =? usd 9950)%Z then "5000_22_1"
  else if (p =? usd 9900)%Z then "5000_33_2"
  else if (p =? usd 9850)%Z then "5000_44_3"
  else "5000_55_4".

Close Scope string_scope.

(* ================================================================== *)
(** * Facts about numbers and maps *)

Module JSFacts.

Lemma same_eq (x y : JS.num) : JS.same x y = true <-> x = y.
Proof.
  destruct x as [|a], y as [|b]; simpl; split; intro H;
    try reflexivity; try discriminate.
  - apply Z.eqb_eq in H. now subst.
  - inversion H. apply Z.eqb_refl.
Qed.

Lemma same_refl (x : JS.num) : JS.same x x = true.
Proof. now apply same_eq. Qed.

End JSFacts.

Module JSMapFacts.
Import JSMap.

Section Facts.
Variables K V : Type.
Variable eqb : K -> K -> bool.
Implicit Types (m : t K V) (k : K) (v : V).
Abbreviation get := (JSMap.get eqb).
Abbreviation has := (JSMap.has eqb).
Abbreviation set := (JSMap.set eqb).
Abbreviation delete := (JSMap.delete eqb).

Hypothesis eqb_eq : forall a b, eqb a b = true <-> a = b.

Lemma eqb_refl a : eqb a a = true.
Proof. now apply eqb_eq. Qed.

Lemma eqb_neq a b : eqb a b = false <-> a <> b.
Proof.
  split; intro H.
  - intro E. apply eqb_eq in E. congruence.
  - destruct (eqb a b) eqn:E; [apply eqb_eq in E; contradiction | reflexivity].
Qed.

Lemma get_In m k v : get m k = Some v -> In (k, v) m.
Proof.
  induction m as [|[k' v'] r IH]; simpl; [discriminate|].
  destruct (eqb k' k) eqn:E.
  - intro H. inversion H; subst. apply eqb_eq in E. subst. now left.
  - intro H. right. auto.
Qed.

Lemma In_get m k v : NoDup (keys m) -> In (k, v) m -> get m k = Some v.
Proof.
  induction m as [|[k' v'] r IH]; simpl; [contradiction|].
  intros ND [H|H].
  - inversion H; subst. now rewrite eqb_refl.
  - inversion ND as [|? ? Hn ND']; subst.
    destruct (eqb k' k) eqn:E.
    + apply eqb_eq in E. subst. exfalso. apply Hn.
      change k with (fst (k, v)). now apply in_map.
    + auto.
Qed.

Lemma get_None_keys m k : get m k = None <-> ~ In k (keys m).
Proof.
  induction m as [|[k' v'] r IH]; simpl.
  - split; [intros _ []| reflexivity].
  - destruct (eqb k' k) eqn:E.
    + apply eqb_eq in E. subst. split; [discriminate|]. intro H. exfalso. apply H. now left.
    + apply eqb_neq in E. rewrite IH. split; intro H.
      * intros [H'|H']; [contradiction | now apply H].
      * intro H'. apply H. now right.
Qed.

Lemma get_set_same m k v : get (set m k v) k = Some v.
Proof.
  induction m as [|[k' v'] r IH]; simpl.
  - now rewrite eqb_refl.
  - destruct (eqb k' k) eqn:E; simpl; rewrite E; auto.
Qed.

Lemma get_set_other m k k' v : k' <> k -> get (set m k v) k' = get m k'.
Proof.
  intro N. induction m as [|[k0 v0] r IH]; simpl.
  - destruct (eqb k k') eqn:E; [apply eqb_eq in E; congruence | reflexivity].
  - destruct (eqb k0 k) eqn:E; simpl.
    + apply eqb_eq in E. subst k0.
      destruct (eqb k k') eqn:E'; [apply eqb_eq in E'; congruence | reflexivity].
    + destruct (eqb k0 k'); auto.
Qed.

Lemma keys_set m k v :
  keys (set m k v) = if has m k then keys m else keys m ++ [k].
Proof.
  unfold has. induction m as [|[k0 v0] r IH]; simpl; [reflexivity|].
  destruct (eqb k0 k) eqn:E; simpl; [reflexivity|].
  rewrite IH. now destruct (get r k).
Qed.

Lemma size_set m k v :
  size (set m k v) = if has m k then size m else S (size m).
Proof.
  unfold size. rewrite <- !(length_map fst). fold (keys (set m k v)). fold (keys m).
  rewrite keys_set. destruct (has m k); [reflexivity|].
  rewrite length_app. simpl. lia.
Qed.

Lemma NoDup_keys_set m k v : NoDup (keys m) -> NoDup (keys (set m k v)).
Proof.
  intro ND. rewrite keys_set. unfold has.
  destruct (get m k) eqn:G; [assumption|].
  apply get_None_keys in G.
  apply NoDup_rev in ND. rewrite <- (rev_involutive (keys m ++ [k])).
  apply NoDup_rev. rewrite rev_app_distr. simpl. constructor; [|assumption].
  now rewrite <- in_rev.
Qed.

Lemma In_set m k v e : In e (set m k v) -> e = (k, v) \/ In e m.
Proof.
  induction m as [|[k0 v0] r IH]; simpl.
  - intros [H|[]]; now left.
  - destruct (eqb k0 k) eqn:E; simpl.
    + apply eqb_eq in E. subst. intros [H|H]; [now left | right; now right].
    + intros [H|H]; [right; now left|].
      destruct (IH H); [now left | right; now right].
Qed.

Lemma In_delete m k e : In e (delete m k) -> In e m.
Proof.
  induction m as [|[k0 v0] r IH]; simpl; [tauto|].
  destruct (eqb k0 k); simpl; [tauto|]. intros [H|H]; auto.
Qed.

Lemma delete_absent m k : get m k = None -> delete m k = m.
Proof.
  induction m as [|[k0 v0] r IH]; simpl; [reflexivity|].
  destruct (eqb k0 k); [discriminate|]. intro H. f_equal. auto.
Qed.

Lemma get_delete_other m k k' : k' <> k -> get (delete m k) k' = get m k'.
Proof.
  intro N. induction m as [|[k0 v0] r IH]; simpl; [reflexivity|].
  destruct (eqb k0 k) eqn:E; simpl.
  - apply eqb_eq in E. subst.
    destruct (eqb k k') eqn:E'; [apply eqb_eq in E'; congruence | reflexivity].
  - destruct (eqb k0 k'); auto.
Qed.

Lemma NoDup_keys_delete m k : NoDup (keys m) -> NoDup (keys (delete m k)).
Proof.
  induction m as [|[k0 v0] r IH]; simpl; [auto|].
  intro ND. inversion ND as [|? ? Hn ND']; subst.
  destruct (eqb k0 k); simpl; [assumption|].
  constructor; [|auto].
  intro H. apply Hn. unfold keys in *. apply in_map_iff in H.
  destruct H as [[a b] [Ha Hb]]. simpl in Ha. subst a.
  apply In_delete in Hb. change k0 with (fst (k0, b)). now apply in_map.
Qed.

Lemma get_delete_same m k : NoDup (keys m) -> get (delete m k) k = None.
Proof.
  induction m as [|[k0 v0] r IH]; simpl; [reflexivity|].
  intro ND. inversion ND as [|? ? Hn ND']; subst.
  destruct (eqb k0 k) eqn:E; simpl.
  - apply eqb_eq in E. subst. now apply get_None_keys.
  - rewrite E. auto.
Qed.

Lemma size_delete m k :
  size (delete m k) = if has m k then pred (size m) else size m.
Proof.
  unfold has, size. induction m as [|[k0 v0] r IH]; simpl; [reflexivity|].
  destruct (eqb k0 k); simpl; [reflexivity|].
  rewrite IH. destruct (get r k) eqn:G; [|reflexivity].
  destruct r; [discriminate| reflexivity].
Qed.

Section Projection.
Variable B : Type.
Variable f : V -> B.

Abbreviation proj := (JSMap.proj f).

Lemma proj_set_fresh m k v :
  NoDup (proj m) -> ~ In (f v) (proj m) -> NoDup (proj (set m k v)).
Proof.
  unfold JSMap.proj. induction m as [|[k0 v0] r IH]; simpl; intros ND Hn.
  - constructor; [intros []|constructor].
  - inversion ND as [|? ? Hn0 ND']; subst.
    destruct (eqb k0 k); simpl.
    + constructor; [|assumption]. intro H. apply Hn. now right.
    + constructor.
      * intro H. apply in_map_iff in H. destruct H as [e [He Hin]].
        apply In_set in Hin. destruct Hin as [->|Hin].
        -- simpl in He. apply Hn. left. now symmetry.
        -- apply Hn0. apply in_map_iff. now exists e.
      * apply IH; [assumption|]. intro H. apply Hn. now right.
Qed.

Lemma proj_set_same m k v v0 :
  get m k = Some v0 -> f v = f v0 -> proj (set m k v) = proj m.
Proof.
  unfold JSMap.proj. induction m as [|[k1 v1] r IH]; simpl; [discriminate|].
  destruct (eqb k1 k); simpl.
  - intros H E. inversion H; subst. now rewrite E.
  - intros H E. f_equal. now apply IH.
Qed.

Lemma proj_delete m k : NoDup (proj m) -> NoDup (proj (delete m k)).
Proof.
  unfold JSMap.proj. induction m as [|[k0 v0] r IH]; simpl; [auto|].
  intro ND. inversion ND as [|? ? Hn ND']; subst.
  destruct (eqb k0 k); simpl; [assumption|].
  constructor; [|auto].
  intro H. apply Hn. apply in_map_iff in H. destruct H as [e [He Hin]].
  apply In_delete in Hin. apply in_map_iff. now exists e.
Qed.

Lemma proj_cleanLoop expired todo m n :
  NoDup (proj m) -> NoDup (proj (fst (cleanLoop eqb expired todo m n))).
Proof.
  revert m n. induction todo as [|[k v] r IH]; simpl; intros m n ND; [assumption|].
  destruct (expired v); apply IH; [now apply proj_delete | assumption].
Qed.

End Projection.

(** [distinctb] decides [NoDup]. *)
Lemma distinctb_NoDup (l : list K) : distinctb eqb l = true <-> NoDup l.
Proof.
  induction l as [|k r IH]; simpl.
  - split; [constructor | reflexivity].
  - rewrite andb_true_iff, negb_true_iff, IH. split.
    + intros [Hn ND]. constructor; [|assumption].
      intro Hin. assert (E : existsb (eqb k) r = true).
      { apply existsb_exists. exists k. split; [assumption | apply eqb_refl]. }
      congruence.
    + intro ND. inversion ND as [|? ? Hn ND']; subst. split; [|assumption].
      destruct (existsb (eqb k) r) eqn:E; [|reflexivity].
      apply existsb_exists in E. destruct E as [x [Hx Hk]].
      apply eqb_eq in Hk. subst. contradiction.
Qed.

(** A deletion in front of what the iterator has yet to visit. *)
Lemma delete_app_here (pre : t K V) k v r :
  ~ In k (keys pre) -> delete (pre ++ (k, v) :: r) k = pre ++ r.
Proof.
  induction pre as [|[k0 v0] p IH]; simpl; intro Hn.
  - now rewrite eqb_refl.
  - destruct (eqb k0 k) eqn:E.
    + apply eqb_eq in E. subst. exfalso. apply Hn. now left.
    + f_equal. apply IH. intro H. apply Hn. now right.
Qed.

(** On a map with distinct keys the cleaning loop is a filter, and the
    counter grows by the number of entries it drops. *)
Lemma cleanLoop_filter expired (pre todo : t K V) n :
  NoDup (keys (pre ++ todo)) ->
  cleanLoop eqb expired todo (pre ++ todo) n =
    (pre ++ filter (fun e => negb (expired (snd e))) todo,
     (n + length (filter (fun e => expired (snd e)) todo))%nat).
Proof.
  revert pre n. induction todo as [|[k v] r IH]; intros pre n ND; simpl.
  - f_equal. lia.
  - destruct (expired v) eqn:E; simpl.
    + assert (Hk : ~ In k (keys pre)).
      { unfold keys in *. rewrite map_app in ND. simpl in ND.
        apply NoDup_remove_2 in ND. intro H. apply ND. apply in_or_app. now left. }
      rewrite delete_app_here by assumption.
      rewrite IH.
      * f_equal. lia.
      * unfold keys in *. rewrite map_app in *. simpl in ND.
        now apply NoDup_remove_1 in ND.
    + specialize (IH (pre ++ [(k, v)]) n).
      rewrite <- !app_assoc in IH. simpl in IH. apply IH. exact ND.
Qed.

End Facts.

End JSMapFacts.

(* ================================================================== *)
(** * Properties of the wave split *)

Module WavesFacts.
Import Waves.

Section Chunks.
Variable A : Type.
Implicit Types (l : list A) (w : list A).

Lemma firstn_min_length n l : firstn (Nat.min n (length l)) l = firstn n l.
Proof.
  destruct (Nat.le_ge_cases n (length l)) as [H|H].
  - now rewrite Nat.min_l.
  - rewrite Nat.min_r by assumption.
    now rewrite !firstn_all2 by lia.
Qed.

(** A step of at least one ends the loop within [totalOrders - i]
    iterations; the waves are the rest of the list cut into non-empty
    pieces of at most [step] elements. *)
Lemma sliceLoop_chunks step l :
  (1 <= step)%nat ->
  forall fuel i,
    (length l - i <= fuel)%nat ->
    exists waves,
      sliceLoop fuel l i step (length l) = Some waves
      /\ concat waves = skipn i l
      /\ Forall (fun w => w <> [] /\ (length w <= step)%nat) waves.
Proof.
  intros Hstep fuel.
  induction fuel as [|fuel IH]; intros i Hfuel; simpl.
  - assert (E : (length l <=? i)%nat = true) by (apply Nat.leb_le; lia).
    rewrite E. exists []. repeat split; [|constructor].
    simpl. symmetry. apply skipn_all2. lia.
  - destruct (length l <=? i)%nat eqn:E.
    + apply Nat.leb_le in E. exists []. repeat split; [|constructor].
      simpl. symmetry. now apply skipn_all2.
    + apply Nat.leb_gt in E.
      destruct (IH (i + step)%nat) as [waves [Hw [Hc Hf]]]; [lia|].
      rewrite Hw. eexists. split; [reflexivity|].
      unfold slice.
      assert (Hk : (Nat.min (i + step) (length l) - i
                    = Nat.min step (length (skipn i l)))%nat)
        by (rewrite length_skipn; lia).
      rewrite Hk, firstn_min_length. split.
      * simpl. rewrite Hc.
        replace (i + step)%nat with (step + i)%nat by lia.
        rewrite <- skipn_skipn. apply firstn_skipn.
      * constructor; [|assumption]. split.
        -- intro H0. apply (f_equal (@length A)) in H0.
           rewrite length_firstn, length_skipn in H0. simpl in H0. lia.
        -- rewrite length_firstn. lia.
Qed.

(** The new wave size of the redistribution is the cap again: the
    total is divided by the number of full waves, which leaves a
    quotient above the cap whenever there is a remainder. *)
Lemma safeOrdersPerWave_is_cap total cap :
  (1 <= total / cap)%nat -> (1 <= cap)%nat ->
  Nat.min ((total + total / cap - 1) / (total / cap)) cap = cap.
Proof.
  intros Hfw Hcap. apply Nat.min_r.
  apply Nat.div_le_lower_bound; [lia|].
  pose proof (Nat.Div0.mul_div_le total cap). lia.
Qed.

(** Whatever the remainder, the result is the plain split by the cap. *)
Lemma generateOptimizedWaves_standard l maxPerWave :
  (1 <= maxPerWave)%nat ->
  generateOptimizedWaves l maxPerWave =
    if (length l <=? Nat.min maxPerWave 49)%nat then Some [l]
    else sliceLoop (length l) l 0 (Nat.min maxPerWave 49) (length l).
Proof.
  intro Hc. unfold generateOptimizedWaves.
  destruct (length l <=? Nat.min maxPerWave 49)%nat; [reflexivity|].
  destruct ((0 <? length l mod Nat.min maxPerWave 49)%nat
            && (4 * (length l mod Nat.min maxPerWave 49) <? Nat.min maxPerWave 49)%nat);
    [|reflexivity].
  destruct (1 <=? length l / Nat.min maxPerWave 49)%nat eqn:E; [|reflexivity].
  apply Nat.leb_le in E.
  rewrite safeOrdersPerWave_is_cap; [reflexivity | assumption | lia].
Qed.

(** C9, as it holds: for a non-empty list [l] and a cap [c >= 1] the call
    returns, its waves concatenate back to [l] in input order, every
    wave is non-empty and none is longer than [min c 49]. *)
Theorem generateOptimizedWaves_partition l c :
  l <> [] -> (1 <= c)%nat ->
  exists waves,
    generateOptimizedWaves l c = Some waves
    /\ concat waves = l
    /\ Forall (fun w => w <> [] /\ (length w <= Nat.min c 49)%nat) waves.
Proof.
  intros Hl Hc. rewrite generateOptimizedWaves_standard by assumption.
  destruct (length l <=? Nat.min c 49)%nat eqn:E.
  - apply Nat.leb_le in E. exists [l]. split; [reflexivity|]. split.
    + simpl. apply app_nil_r.
    + constructor; [now split | constructor].
  - destruct (@sliceLoop_chunks (Nat.min c 49) l ltac:(lia) (length l) 0%nat ltac:(lia))
      as [waves [Hw [Hcat Hall]]].
    exists waves. now repeat split.
Qed.

End Chunks.

(** The split of three orders with cap two, through the theorem. *)
Lemma generateOptimizedWaves_partition_witness :
  [10; 20; 30]%nat <> [] /\ (1 <= 2)%nat
  /\ exists waves,
       generateOptimizedWaves [10; 20; 30]%nat 2 = Some waves
       /\ concat waves = [10; 20; 30]%nat
       /\ Forall (fun w => w <> [] /\ (length w <= Nat.min 2 49)%nat) waves.
Proof.
  split; [discriminate|]. split; [lia|].
  apply (@generateOptimizedWaves_partition nat [10; 20; 30]%nat 2%nat); [discriminate | lia].
Defined.

(** C9 as stated fails on the empty list: the single wave returned for it
    is empty. *)
Lemma generateOptimizedWaves_empty_wave :
  ~ (forall (l : list nat) (c : nat),
        (1 <= c)%nat ->
        exists waves,
          generateOptimizedWaves l c = Some waves
          /\ concat waves = l
          /\ Forall (fun w => w <> []) waves
          /\ Forall (fun w => (length w <= Nat.min c 49)%nat) waves).
Proof.
  intro H. destruct (H [] 1%nat (le_n 1)) as [waves [Hw [_ [Hne _]]]].
  cbv in Hw. inversion Hw; subst.
  inversion Hne as [|w ws Hnil _]. now apply Hnil.
Qed.

(** C2, the code at its own example: any hundred orders with cap 49 come
    back as waves of 49, 49 and 2.  The last wave is below a quarter of
    the cap and nothing was redistributed. *)
Theorem generateOptimizedWaves_100_orders (A : Type) (l : list A) :
  length l = 100%nat ->
  exists waves,
    generateOptimizedWaves l 49 = Some waves
    /\ map (@length A) waves = [49; 49; 2]%nat.
Proof.
  intro Hlen.
  rewrite generateOptimizedWaves_standard by lia.
  rewrite Hlen. change (Nat.min 49 49) with 49%nat.
  change (100 <=? 49)%nat with false. cbv iota.
  do 100 (destruct l as [|? l]; [discriminate Hlen|]).
  destruct l; [|discriminate Hlen].
  eexists. split; reflexivity.
Qed.

Lemma generateOptimizedWaves_100_orders_witness :
  length (seq 0 100) = 100%nat
  /\ exists waves,
       generateOptimizedWaves (seq 0 100) 49 = Some waves
       /\ map (@length nat) waves = [49; 49; 2]%nat.
Proof.
  split; [reflexivity|].
  apply (@generateOptimizedWaves_100_orders nat (seq 0 100)). reflexivity.
Defined.

End WavesFacts.

(* ================================================================== *)
(** * Facts about the sort *)

Module SortFacts.

Section KeyedSort.
Variable A : Type.
Variable cmp : A -> A -> Z.
Variable key : A -> Z.
Hypothesis cmp_key : forall a b, cmp a b = (key a - key b)%Z.

Abbreviation le_key := (key_le key).

Lemma insert_perm x l : Permutation (insert cmp x l) (x :: l).
Proof.
  induction l as [|y r IH]; simpl; [reflexivity|].
  destruct (cmp x y <=? 0)%Z; [reflexivity|].
  rewrite IH. apply perm_swap.
Qed.

Lemma sort_perm l : Permutation (sort cmp l) l.
Proof.
  induction l as [|x r IH]; simpl; [reflexivity|].
  rewrite insert_perm. now constructor.
Qed.

Lemma sort_In x l : In x (sort cmp l) <-> In x l.
Proof.
  split; apply Permutation_in; [|symmetry]; apply sort_perm.
Qed.

Lemma sort_length l : length (sort cmp l) = length l.
Proof. apply Permutation_length, sort_perm. Qed.

Lemma insert_sorted x l :
  StronglySorted le_key l -> StronglySorted le_key (insert cmp x l).
Proof.
  induction l as [|y r IH]; simpl; intro S.
  - repeat constructor.
  - inversion S as [|? ? Sr Fy]; subst.
    destruct (cmp x y <=? 0)%Z eqn:E.
    + apply Z.leb_le in E. rewrite cmp_key in E.
      constructor; [assumption|].
      constructor; [unfold key_le; lia|].
      eapply Forall_impl; [|exact Fy]. unfold key_le. intros; lia.
    + apply Z.leb_gt in E. rewrite cmp_key in E.
      constructor; [now apply IH|].
      eapply Permutation_Forall; [symmetry; apply insert_perm|].
      constructor; [unfold key_le; lia | assumption].
Qed.

Lemma sort_sorted l : StronglySorted le_key (sort cmp l).
Proof.
  induction l as [|x r IH]; simpl; [constructor | now apply insert_sorted].
Qed.

Lemma sorted_app_le l1 l2 :
  StronglySorted le_key (l1 ++ l2) ->
  forall x y, In x l1 -> In y l2 -> (key x <= key y)%Z.
Proof.
  induction l1 as [|a r IH]; simpl; intros S x y Hx Hy; [contradiction|].
  inversion S as [|? ? Sr Fa]; subst.
  destruct Hx as [->|Hx].
  - rewrite Forall_forall in Fa. apply Fa. apply in_or_app. now right.
  - now apply IH.
Qed.

Lemma sorted_filter (f : A -> bool) l :
  StronglySorted le_key l -> StronglySorted le_key (filter f l).
Proof.
  induction 1 as [|a r Sr IH Fa]; simpl; [constructor|].
  destruct (f a); [|assumption].
  constructor; [assumption|].
  rewrite Forall_forall in *. intros x Hx. apply Fa.
  apply filter_In in Hx. tauto.
Qed.

Lemma sorted_head_le a r :
  StronglySorted le_key (a :: r) -> forall x, In x (a :: r) -> (key a <= key x)%Z.
Proof.
  intros S x [->|Hx]; [lia|].
  inversion S as [|? ? _ Fa]; subst.
  rewrite Forall_forall in Fa. now apply Fa.
Qed.

End KeyedSort.

End SortFacts.

(* ================================================================== *)
(** * The price invariant of the buy orders *)

Module InvariantFacts.
Import JSMapFacts.

Lemma buyPrices_proj c : buyPrices c = JSMap.proj price (buyCurrentOrders c).
Proof. reflexivity. Qed.

Lemma buyAtPrice_false c p : buyAtPrice c p = false -> ~ In p (buyPrices c).
Proof.
  unfold buyAtPrice, buyPrices, JSMap.values. intros H Hin.
  apply in_map_iff in Hin. destruct Hin as [e [He Hin]].
  assert (E : existsb (fun order => (price order =? p)%Z) (map snd (buyCurrentOrders c)) = true).
  { apply existsb_exists. exists (snd e). split; [now apply in_map | now apply Z.eqb_eq]. }
  congruence.
Qed.

Lemma buyAtPrice_true c p :
  buyAtPrice c p = true ->
  exists clientOid order, In (clientOid, order) (buyCurrentOrders c) /\ price order = p.
Proof.
  unfold buyAtPrice, JSMap.values. intro H.
  apply existsb_exists in H. destruct H as [o [Hin Hp]].
  apply in_map_iff in Hin. destruct Hin as [[k v] [Hv Hin]]. simpl in Hv. subst v.
  exists k, o. split; [assumption | now apply Z.eqb_eq].
Qed.

Lemma canPlaceOrder_true c p step :
  canPlaceOrder c p step = true <->
  buyAtPrice c p = false
  /\ nhas (sellCurrentOrders c) (JS.Num (p + step)) = false
  /\ nhas (buyFilledOrders c) (JS.Num p) = false.
Proof.
  unfold canPlaceOrder.
  destruct (buyAtPrice c p); [split; [discriminate | intros [? _]; discriminate]|].
  destruct (nhas (sellCurrentOrders c) (JS.Num (p + step)));
    [split; [discriminate | intros [_ [? _]]; discriminate]|].
  destruct (nhas (buyFilledOrders c) (JS.Num p));
    [split; [discriminate | intros [_ [_ ?]]; discriminate]|].
  now split.
Qed.

Lemma addBuyOrder_noShared c clientOid p sz now step :
  canPlaceOrder c p step = true ->
  noSharedBuyPrice c -> noSharedBuyPrice (addBuyOrder c clientOid p sz now).
Proof.
  intros Hcan ND. apply canPlaceOrder_true in Hcan. destruct Hcan as [Hb _].
  apply buyAtPrice_false in Hb.
  unfold noSharedBuyPrice in *. rewrite buyPrices_proj in *. simpl.
  apply (proj_set_fresh String.eqb String.eqb_eq); assumption.
Qed.

Lemma removeBuyOrder_buys c clientOid :
  buyCurrentOrders (fst (removeBuyOrder c clientOid)) = bdelete (buyCurrentOrders c) clientOid.
Proof.
  unfold removeBuyOrder.
  destruct (bget (buyCurrentOrders c) clientOid) eqn:G; simpl; [reflexivity|].
  symmetry. now apply delete_absent.
Qed.

Lemma removeBuyOrder_noShared c clientOid :
  noSharedBuyPrice c -> noSharedBuyPrice (fst (removeBuyOrder c clientOid)).
Proof.
  unfold noSharedBuyPrice. rewrite !buyPrices_proj, removeBuyOrder_buys.
  apply proj_delete.
Qed.

Lemma removeSellOrder_buys c p :
  buyCurrentOrders (fst (removeSellOrder c p)) = buyCurrentOrders c.
Proof. unfold removeSellOrder. now destruct (nget (sellCurrentOrders c) p). Qed.

Lemma removeFilledBuyOrder_buys c p :
  buyCurrentOrders (fst (removeFilledBuyOrder c p)) = buyCurrentOrders c.
Proof. unfold removeFilledBuyOrder. now destruct (nget (buyFilledOrders c) p). Qed.

Lemma updateOrderStatus_noShared c clientOid st side now :
  noSharedBuyPrice c -> noSharedBuyPrice (fst (updateOrderStatus c clientOid st side now)).
Proof.
  unfold noSharedBuyPrice. rewrite !buyPrices_proj. intro ND.
  unfold updateOrderStatus. destruct side.
  - destruct (bget (buyCurrentOrders c) clientOid) as [order|] eqn:G; [|assumption].
    cbn [fst with_buys buyCurrentOrders].
    now rewrite (proj_set_same String.eqb price _ _ (set_status order st) G eq_refl).
  - destruct (findSellByOid (sellCurrentOrders c) clientOid) as [[p [id|o]]|];
      simpl; assumption.
  - assumption.
Qed.

Lemma cleanPendingOrders_buys c maxPendingTimeMs now :
  buyCurrentOrders (fst (cleanPendingOrders c maxPendingTimeMs now)) =
    fst (cleanLoop String.eqb (buyExpired now maxPendingTimeMs)
           (buyCurrentOrders c) (buyCurrentOrders c) 0).
Proof.
  unfold cleanPendingOrders.
  destruct (cleanLoop String.eqb _ (buyCurrentOrders c) (buyCurrentOrders c) 0) as [buys n1].
  destruct (cleanLoop JS.same _ (sellCurrentOrders c) (sellCurrentOrders c) n1) as [sells n2].
  reflexivity.
Qed.

Lemma cleanPendingOrders_noShared c maxPendingTimeMs now :
  noSharedBuyPrice c -> noSharedBuyPrice (fst (cleanPendingOrders c maxPendingTimeMs now)).
Proof.
  unfold noSharedBuyPrice. rewrite !buyPrices_proj, cleanPendingOrders_buys.
  apply proj_cleanLoop.
Qed.

Section Steps.
Variable config : Config.

Lemma placeBuyOrder_noShared b p now tag :
  noSharedBuyPrice (cache b) ->
  noSharedBuyPrice (cache (fst (placeBuyOrder config b p now tag))).
Proof.
  intro ND. unfold placeBuyOrder.
  destruct (canPlaceOrder (cache b) p (priceStep config)) eqn:E; simpl; [|assumption].
  now apply addBuyOrder_noShared with (step := priceStep config).
Qed.

Lemma bulkBuyStep_noShared now acc pt :
  noSharedBuyPrice (cache (fst (fst acc))) ->
  noSharedBuyPrice (cache (fst (fst (bulkBuyStep config now acc pt)))).
Proof.
  destruct acc as [[b orders] n], pt as [p tag]. simpl. intro ND.
  destruct (canPlaceOrder (cache b) p (priceStep config)) eqn:E; simpl; [|assumption].
  now apply addBuyOrder_noShared with (step := priceStep config).
Qed.

Lemma fold_bulkBuyStep_noShared now pricesData acc :
  noSharedBuyPrice (cache (fst (fst acc))) ->
  noSharedBuyPrice (cache (fst (fst (fold_left (bulkBuyStep config now) pricesData acc)))).
Proof.
  revert acc. induction pricesData as [|pt r IH]; simpl; intros acc Hacc; [assumption|].
  apply IH. now apply bulkBuyStep_noShared.
Qed.

Lemma placeBulkBuyOrders_noShared b pricesData now :
  noSharedBuyPrice (cache b) ->
  noSharedBuyPrice (cache (fst (placeBulkBuyOrders config b pricesData now))).
Proof.
  intro ND. unfold placeBulkBuyOrders.
  pose proof (@fold_bulkBuyStep_noShared now pricesData (b, [], 0%nat) ND) as H.
  destruct (fold_left (bulkBuyStep config now) pricesData (b, [], 0%nat)) as [[b1 orders] n].
  simpl in H. destruct orders; simpl; [assumption|].
  destruct (WS.placeBulkOrders (ws b1) (p :: orders)) as [w placed]. exact H.
Qed.

Lemma noShared_ext c c' :
  buyCurrentOrders c = buyCurrentOrders c' -> noSharedBuyPrice c' -> noSharedBuyPrice c.
Proof. unfold noSharedBuyPrice, buyPrices. now intros ->. Qed.

Lemma handleBuyOrderFilled_buys b data now tag :
  buyCurrentOrders (cache (handleBuyOrderFilled config b data now tag)) =
  buyCurrentOrders (cache b).
Proof.
  unfold handleBuyOrderFilled.
  destruct (JS.truthy (d_price data)); [|reflexivity].
  destruct (JS.truthy (d_size data)); reflexivity.
Qed.

Lemma onOrderCancelled_cache b clientOid : cache (onOrderCancelled b clientOid) = cache b.
Proof.
  unfold onOrderCancelled. destruct (recovery b); try reflexivity.
  now destruct (String.eqb clientOid clientOid0).
Qed.

Lemma handleOrderUpdate_noShared b order now tag :
  noSharedBuyPrice (cache b) ->
  noSharedBuyPrice (cache (handleOrderUpdate config b order now tag)).
Proof.
  intro ND. unfold handleOrderUpdate.
  destruct (String.eqb (u_clientOid order) ""); [assumption|].
  destruct (String.prefix "buy_" (u_clientOid order)).
  - destruct (String.eqb (u_status order) STATUS_LIVE).
    { cbn [cache with_cache]. now apply updateOrderStatus_noShared. }
    destruct (String.eqb (u_status order) STATUS_FILLED).
    { eapply noShared_ext; [apply handleBuyOrderFilled_buys|].
      cbn [cache with_cache]. unfold addFilledBuyOrder.
      eapply noShared_ext; [reflexivity|]. cbn [buyCurrentOrders with_filled].
      apply (@noShared_ext _ (fst (removeBuyOrder (cache b) (u_clientOid order))));
        [reflexivity | now apply removeBuyOrder_noShared]. }
    destruct (isCancelled (u_status order)); [|assumption].
    rewrite onOrderCancelled_cache. cbn [cache with_cache].
    now apply removeBuyOrder_noShared.
  - destruct (String.prefix "sell_" (u_clientOid order)); [|assumption].
    destruct (String.eqb (u_status order) STATUS_FILLED).
    { cbn [cache with_cache handleSellOrderFilled].
      eapply noShared_ext; [|exact ND].
      now rewrite removeSellOrder_buys, removeFilledBuyOrder_buys. }
    destruct (isCancelled (u_status order)); [|assumption].
    destruct (findSellByOid (sellCurrentOrders (cache b)) (u_clientOid order)) as [[p i]|];
      [|assumption].
    cbn [cache with_cache]. eapply noShared_ext; [apply removeSellOrder_buys | exact ND].
Qed.

Lemma cancelOrder_cache b clientOid : cache (fst (cancelOrder b clientOid)) = cache b.
Proof.
  unfold cancelOrder. destruct (WS.cancelOrder (ws b) clientOid) as [w [|]]; reflexivity.
Qed.

Lemma handleInsufficientBalance_cache b failedOrderPrice :
  cache (handleInsufficientBalance b failedOrderPrice) = cache b.
Proof.
  unfold handleInsufficientBalance. destruct (recovery b); try reflexivity.
  destruct (getActiveBuyOrdersSortedByDistance (cache b) failedOrderPrice); [reflexivity|].
  destruct (filter _ _); [reflexivity|].
  cbn [cache]. apply cancelOrder_cache.
Qed.

Lemma enforceMaxOrders_cache b : cache (fst (enforceMaxOrders config b)) = cache b.
Proof.
  unfold enforceMaxOrders. destruct (getLastPrice (cache b)); [|reflexivity].
  destruct (z =? 0)%Z; [reflexivity|].
  destruct (map fst _); [reflexivity|].
  destruct (WS.cancelBulkOrders _ _). reflexivity.
Qed.

Lemma step_noShared b e :
  noSharedBuyPrice (cache b) -> noSharedBuyPrice (cache (step config b e)).
Proof.
  intro ND. destruct e; cbn [step].
  - now apply placeBuyOrder_noShared.
  - now apply placeBulkBuyOrders_noShared.
  - now apply handleOrderUpdate_noShared.
  - now rewrite handleInsufficientBalance_cache.
  - unfold onCancelTimeout. now destruct (recovery b).
  - unfold resumeAfterCancel. destruct (recovery b); try assumption.
    cbn [cache]. now apply placeBuyOrder_noShared.
  - now rewrite enforceMaxOrders_cache.
  - cbn [cache with_cache]. now apply cleanPendingOrders_noShared.
  - exact ND.
  - unfold handleTooManyRequests.
    destruct (String.prefix "buy_" clientOid).
    + cbn [cache with_cache]. now apply removeBuyOrder_noShared.
    + destruct (String.prefix "sell_" clientOid); [|assumption].
      destruct (findSellByOid (sellCurrentOrders (cache b)) clientOid) as [[p i]|];
        [|assumption].
      cbn [cache with_cache]. eapply noShared_ext; [apply removeSellOrder_buys | exact ND].
  - unfold handleUnknownOrder. cbn [cache with_cache]. now apply removeBuyOrder_noShared.
  - exact ND.
Qed.

Lemma run_noShared events b :
  noSharedBuyPrice (cache b) -> noSharedBuyPrice (cache (run config b events)).
Proof.
  revert b. induction events as [|e r IH]; intros b ND; [assumption|].
  apply IH. now apply step_noShared.
Qed.

End Steps.

Lemma NoDup_map_inj_In (A B : Type) (f : A -> B) (l : list A) :
  NoDup (map f l) -> forall x y, In x l -> In y l -> f x = f y -> x = y.
Proof.
  induction l as [|a r IH]; simpl; intros ND x y Hx Hy E; [contradiction|].
  inversion ND as [|? ? Hn ND']; subst.
  destruct Hx as [->|Hx], Hy as [->|Hy]; auto.
  - exfalso. apply Hn. rewrite E. now apply in_map.
  - exfalso. apply Hn. rewrite <- E. now apply in_map.
Qed.

(** C1, as it holds.  Whatever the events since start-up, no two active
    buy orders share a price; the guard of every buy placement accepts
    a price [p] exactly when no active buy is at [p], no active sell is
    at [p + step] and no filled buy is recorded at [p], a sell at [p]
    itself is not looked at; and a buy at [p] with a sell at [p + step]
    is a state the bot can be in, as after [traceBuyBelowSell]. *)
Theorem no_two_buy_orders_share_a_price (config : Config) (events : list Event) :
  (forall id1 id2 o1 o2,
      bget (buyCurrentOrders (cache (run config initialBot events))) id1 = Some o1 ->
      bget (buyCurrentOrders (cache (run config initialBot events))) id2 = Some o2 ->
      price o1 = price o2 -> id1 = id2 /\ o1 = o2)
  /\ (forall c p,
        canPlaceOrder c p (priceStep config) = true <->
        (forall clientOid order,
            In (clientOid, order) (buyCurrentOrders c) -> price order <> p)
        /\ nhas (sellCurrentOrders c) (JS.Num (p + priceStep config)) = false
        /\ nhas (buyFilledOrders c) (JS.Num p) = false)
  /\ (option_map price
        (bget (buyCurrentOrders (cache (run sampleConfig initialBot traceBuyBelowSell)))
           "buy_1000_1"%string)
      = Some (usd 10000)
      /\ nhas (sellCurrentOrders (cache (run sampleConfig initialBot traceBuyBelowSell)))
           (JS.Num (usd 10000 + priceStep sampleConfig))
         = true).
Proof.
  split; [|split; [|vm_compute; split; reflexivity]].
  - intros id1 id2 o1 o2 H1 H2 E.
    assert (ND : noSharedBuyPrice (cache (run config initialBot events))).
    { apply run_noShared. constructor. }
    apply (get_In String.eqb String.eqb_eq) in H1, H2.
    pose proof (@NoDup_map_inj_In _ _ (fun e => price (snd e)) _ ND _ _ H1 H2 E) as Q.
    now inversion Q.
  - intros c p. rewrite canPlaceOrder_true. split.
    + intros [Hb Hrest]. split; [|exact Hrest].
      intros clientOid order Hin Hp. apply (buyAtPrice_false _ _ Hb).
      unfold buyPrices. apply in_map_iff. now exists (clientOid, order).
    + intros [Hb Hrest]. split; [|exact Hrest].
      destruct (buyAtPrice c p) eqn:E; [|reflexivity].
      apply buyAtPrice_true in E. destruct E as [k [o [Hin Hp]]].
      exfalso. exact (Hb k o Hin Hp).
Qed.

(** C1 as stated fails: after [traceBuyAtSellPrice] a buy and a sell are
    both active at 10050. *)
Lemma buy_and_sell_at_one_price :
  ~ (forall (config : Config) (events : list Event),
        noSharedBuyPrice (cache (run config initialBot events))
        /\ noBuyAtSellPrice (cache (run config initialBot events))).
Proof.
  intro H. destruct (H sampleConfig traceBuyAtSellPrice) as [_ Hd].
  specialize (Hd "buy_3000_3"%string
                (mkBuyOrder (usd 10050) (JS.Num 995000) "pending" 3000) eq_refl).
  vm_compute in Hd. discriminate Hd.
Qed.

End InvariantFacts.

(* ================================================================== *)
(** * Cancelling the excess *)

Module EnforceFacts.

Lemma cancelBulk_fold clientOids acc :
  fold_left
    (fun (a : WS.t * nat) clientOid =>
       (WS.send (fst a) (CancelOrderMsg clientOid), S (snd a)))
    clientOids acc
  = (WS.mk (WS.privateConnected (fst acc)) (WS.isAuthenticated (fst acc))
       (WS.sent (fst acc) ++ map CancelOrderMsg clientOids)
       (WS.messageQueue (fst acc)),
     (snd acc + length clientOids)%nat).
Proof.
  revert acc. induction clientOids as [|x r IH]; intros [w n]; simpl.
  - rewrite app_nil_r. destruct w. simpl. f_equal. lia.
  - rewrite IH. simpl. rewrite <- app_assoc. simpl. f_equal. lia.
Qed.

Lemma cancelBulkOrders_ready w clientOids :
  WS.ready w = true ->
  WS.cancelBulkOrders w clientOids
  = (WS.mk (WS.privateConnected w) (WS.isAuthenticated w)
       (WS.sent w ++ map CancelOrderMsg clientOids) (WS.messageQueue w),
     length clientOids).
Proof.
  intro R. unfold WS.cancelBulkOrders. rewrite R. simpl.
  now rewrite cancelBulk_fold.
Qed.


(** What [getOrdersToCancel] selects: nothing up to the limit; above it,
    [size - maxOrders] entries that are priced no higher than any entry
    it leaves. *)
Lemma getOrdersToCancel_selects c maxOrders :
  ((JSMap.size (buyCurrentOrders c) <= maxOrders)%nat -> getOrdersToCancel c maxOrders = [])
  /\ ((maxOrders < JSMap.size (buyCurrentOrders c))%nat ->
      exists cancelled kept,
        Permutation (buyCurrentOrders c) (cancelled ++ kept)
        /\ getOrdersToCancel c maxOrders = map fst cancelled
        /\ length cancelled = (JSMap.size (buyCurrentOrders c) - maxOrders)%nat
        /\ forall x y, In x cancelled -> In y kept -> (price (snd x) <= price (snd y))%Z).
Proof.
  unfold getOrdersToCancel, JSMap.size. split; intro H.
  - apply Nat.leb_le in H. now rewrite H.
  - assert (E : (length (buyCurrentOrders c) <=? maxOrders)%nat = false)
      by (apply Nat.leb_gt; lia).
    rewrite E.
    set (sorted := sort byPriceAsc (buyCurrentOrders c)).
    set (k := (length (buyCurrentOrders c) - maxOrders)%nat).
    exists (firstn k sorted), (skipn k sorted). repeat split.
    + rewrite firstn_skipn. symmetry. apply SortFacts.sort_perm.
    + rewrite length_firstn. unfold sorted. rewrite SortFacts.sort_length. lia.
    + intros x y Hx Hy.
      apply (@SortFacts.sorted_app_le _ (fun e => price (snd e)) (firstn k sorted) (skipn k sorted));
        [|assumption|assumption].
      rewrite firstn_skipn. unfold sorted.
      apply SortFacts.sort_sorted. intros a b. reflexivity.
Qed.





End EnforceFacts.

(* ================================================================== *)
(** * The insufficient-balance recovery *)

Module RecoveryFacts.

Lemma active_In c targetPrice e :
  In e (getActiveBuyOrdersSortedByDistance c targetPrice) <->
  In e (buyCurrentOrders c) /\ status (snd e) = STATUS_LIVE.
Proof.
  unfold getActiveBuyOrdersSortedByDistance.
  rewrite SortFacts.sort_In, filter_In. now rewrite String.eqb_eq.
Qed.

Lemma active_sorted c targetPrice :
  StronglySorted (key_le (negDistance targetPrice))
    (getActiveBuyOrdersSortedByDistance c targetPrice).
Proof.
  apply SortFacts.sort_sorted. intros a b.
  unfold byDistanceDesc, negDistance. lia.
Qed.

Lemma filter_nil (A : Type) (f : A -> bool) (l : list A) :
  (forall x, In x l -> f x = false) -> filter f l = [].
Proof.
  induction l as [|a r IH]; simpl; intro H; [reflexivity|].
  rewrite (H a) by now left. apply IH. intros x Hx. apply H. now right.
Qed.

Lemma cancelOrder_ready b clientOid :
  WS.ready (ws b) = true ->
  fst (cancelOrder b clientOid)
  = mkBot (cache b) (WS.queueMessage (ws b) (CancelOrderMsg clientOid))
      (mkStats (ordersPlaced (stats b)) (S (ordersCancelled (stats b)))
         (buyOrdersFilled (stats b)) (sellOrdersFilled (stats b)))
      (recovery b).
Proof.
  intro R. unfold cancelOrder, WS.cancelOrder. now rewrite R.
Qed.

(** The order the recovery picks: the first of the live orders below the
    failed price, farthest first. *)
Lemma furthest_is_lowest c failedOrderPrice furthestOrder rest :
  filter (fun order => (price (snd order) <? failedOrderPrice)%Z)
    (getActiveBuyOrdersSortedByDistance c failedOrderPrice) = furthestOrder :: rest ->
  In furthestOrder (buyCurrentOrders c)
  /\ status (snd furthestOrder) = STATUS_LIVE
  /\ (price (snd furthestOrder) < failedOrderPrice)%Z
  /\ forall e, In e (buyCurrentOrders c) -> status (snd e) = STATUS_LIVE ->
               (price (snd e) < failedOrderPrice)%Z ->
               (price (snd furthestOrder) <= price (snd e))%Z.
Proof.
  intro E.
  assert (Hin : In furthestOrder
                  (filter (fun order => (price (snd order) <? failedOrderPrice)%Z)
                     (getActiveBuyOrdersSortedByDistance c failedOrderPrice)))
    by (rewrite E; now left).
  apply filter_In in Hin. destruct Hin as [Hact Hlt].
  apply active_In in Hact. destruct Hact as [Hb Hl]. apply Z.ltb_lt in Hlt.
  repeat split; try assumption.
  intros e He Hel Hep.
  pose proof (SortFacts.sorted_filter
                (fun order => (price (snd order) <? failedOrderPrice)%Z)
                (active_sorted c failedOrderPrice)) as S.
  rewrite E in S.
  assert (Hine : In e (furthestOrder :: rest)).
  { rewrite <- E. apply filter_In. split; [now apply active_In | now apply Z.ltb_lt]. }
  pose proof (SortFacts.sorted_head_le S Hine) as Hle.
  unfold negDistance in Hle. lia.
Qed.

Lemma resume_accepted config b' failedOrderPrice now tag :
  canPlaceOrder (cache b') failedOrderPrice (priceStep config) = true ->
  resumeAfterCancel config
    (mkBot (cache b') (ws b') (stats b') (CancelConfirmed failedOrderPrice)) now tag
  = mkBot
      (addBuyOrder (cache b') ("buy_" ++ tag) failedOrderPrice
         (calculateOrderSize config (JS.Num failedOrderPrice)) now)
      (fst (WS.placeOrder (ws b') ("buy_" ++ tag) Buy (JS.Num failedOrderPrice)
              (calculateOrderSize config (JS.Num failedOrderPrice))))
      (mkStats (S (ordersPlaced (stats b'))) (ordersCancelled (stats b'))
         (buyOrdersFilled (stats b')) (sellOrdersFilled (stats b')))
      Idle.
Proof.
  intro H. unfold resumeAfterCancel, placeBuyOrder. cbn [recovery cache ws stats].
  now rewrite H.
Qed.

Lemma resume_refused config b' failedOrderPrice now tag :
  canPlaceOrder (cache b') failedOrderPrice (priceStep config) = false ->
  resumeAfterCancel config
    (mkBot (cache b') (ws b') (stats b') (CancelConfirmed failedOrderPrice)) now tag
  = mkBot (cache b') (ws b') (stats b') Idle.
Proof.
  intro H. unfold resumeAfterCancel, placeBuyOrder. cbn [recovery cache ws stats].
  now rewrite H.
Qed.

Lemma buy_prefix_nonempty clientOid :
  String.prefix "buy_" clientOid = true -> String.eqb clientOid "" = false.
Proof. destruct clientOid; [discriminate | reflexivity]. Qed.

(** The report of a cancellation while the recovery waits for it: the
    order leaves the store and the listener notes the confirmation. *)
Lemma cancel_report_confirms config b1 report now tag failedOrderPrice timeoutMs :
  recovery b1 = AwaitingCancel (u_clientOid report) failedOrderPrice timeoutMs ->
  String.prefix "buy_" (u_clientOid report) = true ->
  u_status report = STATUS_CANCELLED \/ u_status report = STATUS_CANCELED ->
  handleOrderUpdate config b1 report now tag
  = mkBot (fst (removeBuyOrder (cache b1) (u_clientOid report))) (ws b1) (stats b1)
      (CancelConfirmed failedOrderPrice).
Proof.
  intros Hr Hpre Hst. unfold handleOrderUpdate.
  rewrite (@buy_prefix_nonempty _ Hpre), Hpre.
  assert (E : String.eqb (u_status report) STATUS_LIVE = false
              /\ String.eqb (u_status report) STATUS_FILLED = false
              /\ isCancelled (u_status report) = true)
    by (destruct Hst as [-> | ->]; repeat split).
  destruct E as [E1 [E2 E3]]. rewrite E1, E2, E3.
  unfold onOrderCancelled, with_cache. cbn [recovery cache ws stats].
  now rewrite Hr, String.eqb_refl.
Qed.

(** C4, as the code runs it.  An insufficient-balance rejection at
    [failedOrderPrice], with no recovery in flight and the trading
    socket ready:
    - when no live buy is priced below the failed price, nothing changes;
    - otherwise one cancel is queued, for a live buy below the failed
      price that no other such buy undercuts, and the recovery waits for
      its confirmation with a timer of 2000 ms; a further rejection is
      ignored meanwhile; a confirmation for another order changes
      nothing; the timeout clears the flag and places nothing;
    - the confirmation followed by the continuation clears the flag and
      calls [placeBuyOrder] at the failed price: when [canPlaceOrder]
      accepts the price, a pending buy is recorded there, counted, and
      written to a socket that is ready; when it does not, nothing is
      recorded, counted or written;
    - and it does not in the state the rejection leaves: the record
      that [placeBuyOrder] wrote for the order that was rejected is
      still at the failed price when the cancellation is confirmed, so
      the retry is refused. *)
Theorem handleInsufficientBalance_recovery (b : Bot) (failedOrderPrice : Z) :
  recovery b = Idle ->
  WS.ready (ws b) = true ->
  ((forall clientOid order,
       In (clientOid, order) (buyCurrentOrders (cache b)) ->
       status order = STATUS_LIVE -> (failedOrderPrice <= price order)%Z) ->
   handleInsufficientBalance b failedOrderPrice = b)
  /\
  ((exists clientOid order,
       In (clientOid, order) (buyCurrentOrders (cache b))
       /\ status order = STATUS_LIVE /\ (price order < failedOrderPrice)%Z) ->
   exists clientOid order,
     In (clientOid, order) (buyCurrentOrders (cache b))
     /\ status order = STATUS_LIVE
     /\ (price order < failedOrderPrice)%Z
     /\ (forall clientOid' order',
            In (clientOid', order') (buyCurrentOrders (cache b)) ->
            status order' = STATUS_LIVE -> (price order' < failedOrderPrice)%Z ->
            (price order <= price order')%Z)
     /\ cache (handleInsufficientBalance b failedOrderPrice) = cache b
     /\ WS.messageQueue (ws (handleInsufficientBalance b failedOrderPrice))
        = WS.messageQueue (ws b) ++ [CancelOrderMsg clientOid]
     /\ WS.sent (ws (handleInsufficientBalance b failedOrderPrice)) = WS.sent (ws b)
     /\ recovery (handleInsufficientBalance b failedOrderPrice)
        = AwaitingCancel clientOid failedOrderPrice 2000
     /\ (forall otherPrice,
            handleInsufficientBalance (handleInsufficientBalance b failedOrderPrice) otherPrice
            = handleInsufficientBalance b failedOrderPrice)
     /\ (forall b',
            recovery b' = AwaitingCancel clientOid failedOrderPrice 2000 ->
            (forall other, other <> clientOid -> onOrderCancelled b' other = b')
            /\ onOrderCancelled b' clientOid
               = mkBot (cache b') (ws b') (stats b') (CancelConfirmed failedOrderPrice)
            /\ onCancelTimeout b' = mkBot (cache b') (ws b') (stats b') Idle
            /\ (forall config now tag,
                   resumeAfterCancel config (onCancelTimeout b') now tag
                   = onCancelTimeout b')
            /\ (forall config now tag,
                   canPlaceOrder (cache b') failedOrderPrice (priceStep config) = true ->
                   let retried :=
                     resumeAfterCancel config (onOrderCancelled b' clientOid) now tag in
                   recovery retried = Idle
                   /\ bget (buyCurrentOrders (cache retried)) ("buy_" ++ tag)%string
                      = Some (mkBuyOrder failedOrderPrice
                                (calculateOrderSize config (JS.Num failedOrderPrice))
                                STATUS_PENDING now)
                   /\ ordersPlaced (stats retried) = S (ordersPlaced (stats b'))
                   /\ (WS.ready (ws b') = true ->
                       ws retried
                       = WS.send (ws b')
                           (PlaceOrderMsg ("buy_" ++ tag) Buy (JS.Num failedOrderPrice)
                              (calculateOrderSize config (JS.Num failedOrderPrice))))
                   /\ (WS.ready (ws b') = false -> ws retried = ws b'))
            /\ (forall config now tag,
                   canPlaceOrder (cache b') failedOrderPrice (priceStep config) = false ->
                   resumeAfterCancel config (onOrderCancelled b' clientOid) now tag
                   = mkBot (cache b') (ws b') (stats b') Idle))
     /\ (forall config b0 now0 tag0 report now1 tag1 now2 tag2,
            distinctb String.eqb (JSMap.keys (buyCurrentOrders (cache b))) = true ->
            canPlaceOrder (cache b0) failedOrderPrice (priceStep config) = true ->
            b = fst (placeBuyOrder config b0 failedOrderPrice now0 tag0) ->
            String.prefix "buy_" clientOid = true ->
            u_clientOid report = clientOid ->
            u_status report = STATUS_CANCELLED \/ u_status report = STATUS_CANCELED ->
            let b1 := handleInsufficientBalance b failedOrderPrice in
            let b2 := handleOrderUpdate config b1 report now1 tag1 in
            let b3 := resumeAfterCancel config b2 now2 tag2 in
            recovery b2 = CancelConfirmed failedOrderPrice
            /\ canPlaceOrder (cache b2) failedOrderPrice (priceStep config) = false
            /\ recovery b3 = Idle
            /\ ws b3 = ws b1
            /\ stats b3 = stats b1
            /\ cache b3 = cache b2
            /\ bget (buyCurrentOrders (cache b3)) ("buy_" ++ tag0)%string
               = Some (mkBuyOrder failedOrderPrice
                         (calculateOrderSize config (JS.Num failedOrderPrice))
                         STATUS_PENDING now0)
            /\ bget (buyCurrentOrders (cache b3)) clientOid = None)).
Proof.
  intros Hidle R. split.
  - intro Hnone. unfold handleInsufficientBalance. rewrite Hidle.
    destruct (getActiveBuyOrdersSortedByDistance (cache b) failedOrderPrice) eqn:Ea;
      [reflexivity|].
    rewrite filter_nil; [reflexivity|].
    intros [k o] Hin. rewrite <- Ea in Hin. apply active_In in Hin.
    destruct Hin as [Hb Hl]. apply Z.ltb_ge. now apply (Hnone k o).
  - intros [k0 [o0 [Hin0 [Hl0 Hp0]]]].
    assert (Hact : In (k0, o0) (getActiveBuyOrdersSortedByDistance (cache b) failedOrderPrice))
      by (apply active_In; now split).
    assert (Hel : In (k0, o0)
                    (filter (fun order => (price (snd order) <? failedOrderPrice)%Z)
                       (getActiveBuyOrdersSortedByDistance (cache b) failedOrderPrice)))
      by (apply filter_In; split; [assumption | now apply Z.ltb_lt]).
    destruct (filter _ (getActiveBuyOrdersSortedByDistance (cache b) failedOrderPrice))
      as [|[k o] rest] eqn:Ee; [contradiction|].
    destruct (furthest_is_lowest _ _ Ee) as [Hb [Hl [Hp Hmin]]]. simpl in Hl, Hp.
    assert (Hres : handleInsufficientBalance b failedOrderPrice
                   = mkBot (cache b) (WS.queueMessage (ws b) (CancelOrderMsg k))
                       (mkStats (ordersPlaced (stats b)) (S (ordersCancelled (stats b)))
                          (buyOrdersFilled (stats b)) (sellOrdersFilled (stats b)))
                       (AwaitingCancel k failedOrderPrice 2000)).
    { unfold handleInsufficientBalance. rewrite Hidle.
      destruct (getActiveBuyOrdersSortedByDistance (cache b) failedOrderPrice) eqn:Ea;
        [contradiction|].
      rewrite Ee. cbn [fst]. now rewrite cancelOrder_ready. }
    exists k, o. rewrite Hres. cbn [cache ws recovery WS.queueMessage WS.messageQueue WS.sent].
    split; [assumption|]. split; [assumption|]. split; [assumption|].
    split; [intros k' o' Hin' Hl' Hp'; exact (Hmin (k', o') Hin' Hl' Hp')|].
    split; [reflexivity|]. split; [reflexivity|]. split; [reflexivity|].
    split; [reflexivity|]. split; [intro otherPrice; reflexivity|].
    split.
    + intros b' H.
      assert (Hconf : onOrderCancelled b' k
                      = mkBot (cache b') (ws b') (stats b')
                          (CancelConfirmed failedOrderPrice))
        by (unfold onOrderCancelled; now rewrite H, String.eqb_refl).
      split.
      { intros other Hne. unfold onOrderCancelled. rewrite H.
        destruct (String.eqb other k) eqn:E; [apply String.eqb_eq in E; contradiction|].
        reflexivity. }
      split; [exact Hconf|].
      split; [unfold onCancelTimeout; now rewrite H|].
      split; [intros config now tag; unfold onCancelTimeout; rewrite H; reflexivity|].
      split.
      * intros config now tag Hcan. cbv zeta.
        rewrite Hconf, (@resume_accepted config b' failedOrderPrice now tag Hcan).
        cbn [recovery cache ws stats ordersPlaced].
        split; [reflexivity|].
        split.
        { unfold addBuyOrder. cbn [buyCurrentOrders with_buys].
          apply (JSMapFacts.get_set_same String.eqb String.eqb_eq). }
        split; [reflexivity|].
        split; intro R'; unfold WS.placeOrder; now rewrite R'.
      * intros config now tag Hcan.
        now rewrite Hconf, (@resume_refused config b' failedOrderPrice now tag Hcan).
    + intros config b0 now0 tag0 report now1 tag1 now2 tag2 Hdist Hcan0 Hb0 Hpre Hid Hst.
      cbv zeta.
      assert (Hrec : bget (buyCurrentOrders (cache b)) ("buy_" ++ tag0)%string
                     = Some (mkBuyOrder failedOrderPrice
                               (calculateOrderSize config (JS.Num failedOrderPrice))
                               STATUS_PENDING now0)).
      { rewrite Hb0. unfold placeBuyOrder. rewrite Hcan0.
        cbn [negb fst cache addBuyOrder buyCurrentOrders with_buys].
        apply (JSMapFacts.get_set_same String.eqb String.eqb_eq). }
      assert (Hne : ("buy_" ++ tag0)%string <> k).
      { intro E.
        assert (G : bget (buyCurrentOrders (cache b)) k = Some o).
        { apply (JSMapFacts.In_get String.eqb String.eqb_eq); [|exact Hb].
          now apply (JSMapFacts.distinctb_NoDup String.eqb String.eqb_eq). }
        rewrite <- E, Hrec in G. injection G as G. rewrite <- G in Hl. discriminate Hl. }
      set (b1 := mkBot (cache b) (WS.queueMessage (ws b) (CancelOrderMsg k))
                   (mkStats (ordersPlaced (stats b)) (S (ordersCancelled (stats b)))
                      (buyOrdersFilled (stats b)) (sellOrdersFilled (stats b)))
                   (AwaitingCancel k failedOrderPrice 2000)).
      assert (Hr1 : recovery b1 = AwaitingCancel (u_clientOid report) failedOrderPrice 2000)
        by (rewrite Hid; reflexivity).
      rewrite <- Hid in Hpre.
      rewrite (@cancel_report_confirms config b1 report now1 tag1 failedOrderPrice 2000 Hr1 Hpre Hst).
      rewrite Hid. cbn [cache ws stats recovery b1].
      set (c2 := fst (removeBuyOrder (cache b) k)).
      assert (Hrec2 : bget (buyCurrentOrders c2) ("buy_" ++ tag0)%string
                      = Some (mkBuyOrder failedOrderPrice
                                (calculateOrderSize config (JS.Num failedOrderPrice))
                                STATUS_PENDING now0)).
      { unfold c2. rewrite InvariantFacts.removeBuyOrder_buys.
        rewrite (JSMapFacts.get_delete_other String.eqb String.eqb_eq) by exact Hne.
        exact Hrec. }
      assert (Hgone : bget (buyCurrentOrders c2) k = None).
      { unfold c2. rewrite InvariantFacts.removeBuyOrder_buys.
        apply (JSMapFacts.get_delete_same String.eqb String.eqb_eq).
        now apply (JSMapFacts.distinctb_NoDup String.eqb String.eqb_eq). }
      assert (Hcan2 : canPlaceOrder c2 failedOrderPrice (priceStep config) = false).
      { unfold canPlaceOrder.
        assert (Hat : buyAtPrice c2 failedOrderPrice = true).
        { unfold buyAtPrice, JSMap.values. apply existsb_exists.
          exists (mkBuyOrder failedOrderPrice
                    (calculateOrderSize config (JS.Num failedOrderPrice))
                    STATUS_PENDING now0).
          split; [|apply Z.eqb_refl].
          apply in_map_iff.
          exists (("buy_" ++ tag0)%string,
                  mkBuyOrder failedOrderPrice
                    (calculateOrderSize config (JS.Num failedOrderPrice))
                    STATUS_PENDING now0).
          split; [reflexivity|].
          now apply (JSMapFacts.get_In String.eqb String.eqb_eq). }
        now rewrite Hat. }
      split; [reflexivity|]. split; [exact Hcan2|].
      pose proof (@resume_refused config
                    (mkBot c2 (WS.queueMessage (ws b) (CancelOrderMsg k))
                       (mkStats (ordersPlaced (stats b)) (S (ordersCancelled (stats b)))
                          (buyOrdersFilled (stats b)) (sellOrdersFilled (stats b)))
                       Idle)
                    failedOrderPrice now2 tag2 Hcan2) as Hres3.
      cbn [cache ws stats] in Hres3. rewrite Hres3.
      cbn [cache ws stats recovery].
      now repeat split.
Qed.

(** The rejection of the buy at 9800 of [botWithRejectedBuy]: the order
    at 9700 is cancelled, and once its cancellation is reported the
    continuation places nothing, the record of the rejected order still
    standing at 9800. *)
Lemma handleInsufficientBalance_recovery_witness :
  recovery botWithRejectedBuy = Idle
  /\ WS.ready (ws botWithRejectedBuy) = true
  /\ recovery (handleInsufficientBalance botWithRejectedBuy (usd 9800))
     = AwaitingCancel "buy_b" (usd 9800) 2000
  /\ WS.messageQueue (ws (handleInsufficientBalance botWithRejectedBuy (usd 9800)))
     = [CancelOrderMsg "buy_b"]
  /\ let after :=
       resumeAfterCancel sampleConfig
         (handleOrderUpdate sampleConfig
            (handleInsufficientBalance botWithRejectedBuy (usd 9800))
            (mkOrderUpdate "buy_b" "cancelled" (JS.Num (usd 9700)) (JS.Num 1030900) None
               "unknown") 3000 "3000_6")
         3100 "3100_7" in
     recovery after = Idle
     /\ ws after = ws (handleInsufficientBalance botWithRejectedBuy (usd 9800))
     /\ stats after = stats (handleInsufficientBalance botWithRejectedBuy (usd 9800))
     /\ bget (buyCurrentOrders (cache after)) "buy_2900_4"%string
        = Some (mkBuyOrder (usd 9800)
                  (calculateOrderSize sampleConfig (JS.Num (usd 9800))) STATUS_PENDING 2900).
Proof.
  split; [reflexivity|]. split; [reflexivity|].
  destruct (@handleInsufficientBalance_recovery botWithRejectedBuy (usd 9800)
              eq_refl eq_refl)
    as [_ H].
  destruct H as (k & o & _ & _ & _ & _ & _ & Hq & _ & Hr & _ & _ & Hrejected).
  - exists "buy_b"%string, (mkBuyOrder (usd 9700) (JS.Num 1030900) "live" 11).
    split; [right; left; reflexivity|]. split; [reflexivity|]. vm_compute. reflexivity.
  - assert (Hk : k = "buy_b"%string).
    { assert (E : recovery (handleInsufficientBalance botWithRejectedBuy (usd 9800))
                  = AwaitingCancel "buy_b" (usd 9800) 2000) by reflexivity.
      rewrite E in Hr. now injection Hr. }
    subst k.
    split; [exact Hr|]. split; [exact Hq|].
    destruct (Hrejected sampleConfig botWithThreeBuys 2900%Z "2900_4"%string
                (mkOrderUpdate "buy_b" "cancelled" (JS.Num (usd 9700)) (JS.Num 1030900)
                   None "unknown") 3000%Z "3000_6"%string 3100%Z "3100_7"%string
                eq_refl eq_refl eq_refl eq_refl eq_refl (or_introl eq_refl))
      as (_ & _ & Hidle & Hws & Hstats & _ & Hrec & _).
    cbv zeta. split; [exact Hidle|]. split; [exact Hws|]. split; [exact Hstats | exact Hrec].
Defined.

(** The example of the recovery: live buys at 9900, 9700 and 9750, a
    rejection at 9800, and no record left at 9800 (the pending record
    of the rejected order has expired).  The order at 9700 is the one
    cancelled; once its cancellation is reported and the continuation
    has run, a buy at 9800 is in the store and the flag is clear. *)
Example recovery_selects_9700 :
  recovery (handleInsufficientBalance botWithThreeBuys (usd 9800))
  = AwaitingCancel "buy_b" (usd 9800) 2000
  /\ WS.messageQueue (ws (handleInsufficientBalance botWithThreeBuys (usd 9800)))
     = [CancelOrderMsg "buy_b"]
  /\ let after :=
       run sampleConfig botWithThreeBuys
         [ EInsufficientBalance (usd 9800);
           EOrderUpdate (mkOrderUpdate "buy_b" "cancelled" (JS.Num (usd 9700))
                           (JS.Num 1030900) None "unknown") 3000 "3000_6";
           EResumeAfterCancel 3000 "3000_7" ] in
     JSMap.keys (buyCurrentOrders (cache after))
     = ["buy_a"; "buy_c"; "buy_3000_7"]%string
     /\ option_map price (bget (buyCurrentOrders (cache after)) "buy_3000_7"%string)
        = Some (usd 9800)
     /\ recovery after = Idle.
Proof. vm_compute. repeat split. Qed.

(** The retry goes through [placeBuyOrder] and its guard: while the
    record of the rejected order is still pending at the failed price,
    the continuation places nothing. *)
Example retry_refused_by_pending_record :
  let after :=
    run sampleConfig botAfterRejectedBuy
      [ EInsufficientBalance (usd 9800);
        EOrderUpdate (mkOrderUpdate "buy_b" "cancelled" (JS.Num (usd 9700))
                        (JS.Num 1030900) None "unknown") 3000 "3000_6";
        EResumeAfterCancel 3000 "3000_7" ] in
  JSMap.keys (buyCurrentOrders (cache after)) = ["buy_a"; "buy_c"; "buy_d"]%string
  /\ WS.sent (ws after) = []
  /\ recovery after = Idle.
Proof. vm_compute. repeat split. Qed.

End RecoveryFacts.

(* ================================================================== *)
(** * Fills *)

Module FillFacts.
Import JSMapFacts.

Lemma wellFormed_NoDup c :
  wellFormed c = true ->
  NoDup (JSMap.keys (buyCurrentOrders c))
  /\ NoDup (JSMap.keys (sellCurrentOrders c))
  /\ NoDup (JSMap.keys (buyFilledOrders c)).
Proof.
  unfold wellFormed. rewrite !andb_true_iff. intros [[H1 H2] H3].
  repeat split.
  - now apply (distinctb_NoDup String.eqb String.eqb_eq).
  - now apply (distinctb_NoDup JS.same JSFacts.same_eq).
  - now apply (distinctb_NoDup JS.same JSFacts.same_eq).
Qed.

Lemma prefix_buy_nonempty s : String.prefix "buy_" s = true -> String.eqb s "" = false.
Proof. destruct s; [discriminate | reflexivity]. Qed.

Lemma prefix_sell_nonempty s : String.prefix "sell_" s = true -> String.eqb s "" = false.
Proof. destruct s; [discriminate | reflexivity]. Qed.

Lemma prefix_sell_not_buy s :
  String.prefix "sell_" s = true -> String.prefix "buy_" s = false.
Proof.
  destruct s as [|a s]; [discriminate|].
  destruct a as [[] [] [] [] [] [] [] []]; vm_compute; intro H;
    try reflexivity; discriminate H.
Qed.

Lemma removeFilledBuyOrder_filled c p :
  buyFilledOrders (fst (removeFilledBuyOrder c p)) = ndelete (buyFilledOrders c) p.
Proof.
  unfold removeFilledBuyOrder.
  destruct (nget (buyFilledOrders c) p) eqn:G; simpl; [reflexivity|].
  symmetry. now apply delete_absent.
Qed.

Lemma removeSellOrder_sells c p :
  sellCurrentOrders (fst (removeSellOrder c p)) = ndelete (sellCurrentOrders c) p.
Proof.
  unfold removeSellOrder.
  destruct (nget (sellCurrentOrders c) p) eqn:G; simpl; [reflexivity|].
  symmetry. now apply delete_absent.
Qed.

Lemma removeFilledBuyOrder_sells c p :
  sellCurrentOrders (fst (removeFilledBuyOrder c p)) = sellCurrentOrders c.
Proof. unfold removeFilledBuyOrder. now destruct (nget (buyFilledOrders c) p). Qed.

Lemma removeSellOrder_filled c p :
  buyFilledOrders (fst (removeSellOrder c p)) = buyFilledOrders c.
Proof. unfold removeSellOrder. now destruct (nget (sellCurrentOrders c) p). Qed.

Lemma removeBuyOrder_sells c k :
  sellCurrentOrders (fst (removeBuyOrder c k)) = sellCurrentOrders c.
Proof. unfold removeBuyOrder. now destruct (bget (buyCurrentOrders c) k). Qed.

Lemma removeBuyOrder_filled c k :
  buyFilledOrders (fst (removeBuyOrder c k)) = buyFilledOrders c.
Proof. unfold removeBuyOrder. now destruct (bget (buyCurrentOrders c) k). Qed.

Section Fill.
Variable config : Config.

(** The state after a well-formed buy fill, field by field. *)
Lemma handleOrderUpdate_buy_filled b order now tag :
  String.prefix "buy_" (u_clientOid order) = true ->
  u_status order = STATUS_FILLED ->
  JS.truthy (u_price order) = true ->
  JS.truthy (filledSizeOf order) = true ->
  WS.ready (ws b) = true ->
  let sellPrice :=
    JS.toFixed (JS.add (u_price order) (JS.Num (priceStep config)))
      (pricePrecision config) in
  let clientOid := ("sell_" ++ tag)%string in
  handleOrderUpdate config b order now tag
  = mkBot
      (mkCache
         (bdelete (buyCurrentOrders (cache b)) (u_clientOid order))
         (nset (sellCurrentOrders (cache b)) sellPrice
            (SellObject (mkSellOrder clientOid (Some sellPrice)
                           (Some (filledSizeOf order)) STATUS_PENDING now)))
         (nset (buyFilledOrders (cache b)) (u_price order)
            (mkFilledBuy (u_orderId order) (u_clientOid order) (u_price order)
               (filledSizeOf order) now))
         (lastPrice (cache b)) (lastPriceTimestamp (cache b)))
      (WS.send (ws b) (PlaceOrderMsg clientOid Sell sellPrice (filledSizeOf order)))
      (mkStats (S (ordersPlaced (stats b))) (ordersCancelled (stats b))
         (S (buyOrdersFilled (stats b))) (sellOrdersFilled (stats b)))
      (recovery b).
Proof.
  intros Hpre Hst Hp Hs R. cbv zeta.
  unfold handleOrderUpdate.
  rewrite (prefix_buy_nonempty _ Hpre), Hpre, Hst.
  change (String.eqb STATUS_FILLED STATUS_LIVE) with false.
  change (String.eqb STATUS_FILLED STATUS_FILLED) with true. cbv iota.
  unfold handleBuyOrderFilled. cbn [d_price d_size d_clientOid d_orderId].
  rewrite Hp, Hs. cbn [negb].
  unfold placeSellOrder, WS.placeOrder.
  cbn [cache ws stats recovery with_cache fst]. rewrite R. cbn [negb fst].
  unfold addSellOrder, addFilledBuyOrder, with_sells, with_filled.
  cbn [buyCurrentOrders sellCurrentOrders buyFilledOrders lastPrice lastPriceTimestamp].
  rewrite InvariantFacts.removeBuyOrder_buys, removeBuyOrder_sells, removeBuyOrder_filled.
  f_equal. f_equal; unfold removeBuyOrder;
    now destruct (bget (buyCurrentOrders (cache b)) (u_clientOid order)).
Qed.

(** The state after a sell fill: the record one step below and the sell
    entry are dropped, the counter of sell fills grows by one. *)
Lemma handleOrderUpdate_sell_filled b order now tag :
  String.prefix "sell_" (u_clientOid order) = true ->
  u_status order = STATUS_FILLED ->
  handleOrderUpdate config b order now tag
  = mkBot
      (mkCache
         (buyCurrentOrders (cache b))
         (ndelete (sellCurrentOrders (cache b)) (u_price order))
         (ndelete (buyFilledOrders (cache b))
            (JS.sub (u_price order) (JS.Num (priceStep config))))
         (lastPrice (cache b)) (lastPriceTimestamp (cache b)))
      (ws b)
      (mkStats (ordersPlaced (stats b)) (ordersCancelled (stats b))
         (buyOrdersFilled (stats b)) (S (sellOrdersFilled (stats b))))
      (recovery b).
Proof.
  intros Hpre Hst. unfold handleOrderUpdate.
  rewrite (prefix_sell_nonempty _ Hpre), (prefix_sell_not_buy _ Hpre), Hpre, Hst.
  change (String.eqb STATUS_FILLED STATUS_FILLED) with true. cbv iota.
  unfold handleSellOrderFilled. cbn [cache ws stats recovery with_cache].
  f_equal.
  set (c1 := fst (removeFilledBuyOrder (cache b)
                    (JS.sub (u_price order) (JS.Num (priceStep config))))).
  assert (E1 : buyCurrentOrders (fst (removeSellOrder c1 (u_price order)))
               = buyCurrentOrders (cache b))
    by (unfold c1; now rewrite InvariantFacts.removeSellOrder_buys,
                               InvariantFacts.removeFilledBuyOrder_buys).
  assert (E2 : sellCurrentOrders (fst (removeSellOrder c1 (u_price order)))
               = ndelete (sellCurrentOrders (cache b)) (u_price order))
    by (unfold c1; now rewrite removeSellOrder_sells, removeFilledBuyOrder_sells).
  assert (E3 : buyFilledOrders (fst (removeSellOrder c1 (u_price order)))
               = ndelete (buyFilledOrders (cache b))
                   (JS.sub (u_price order) (JS.Num (priceStep config))))
    by (unfold c1; now rewrite removeSellOrder_filled, removeFilledBuyOrder_filled).
  assert (E4 : lastPrice (fst (removeSellOrder c1 (u_price order))) = lastPrice (cache b)
               /\ lastPriceTimestamp (fst (removeSellOrder c1 (u_price order)))
                  = lastPriceTimestamp (cache b)).
  { unfold c1, removeSellOrder, removeFilledBuyOrder.
    destruct (nget (buyFilledOrders (cache b)) _); cbn;
      destruct (nget (sellCurrentOrders (cache b)) _); cbn; auto. }
  destruct E4 as [E4 E5].
  destruct (fst (removeSellOrder c1 (u_price order))) as [bu se fi lp lt].
  cbn in E1, E2, E3, E4, E5. now subst.
Qed.

Lemma filledSizeOf_cases (order : OrderUpdate) (sz : JS.num) :
  JS.truthy sz = true ->
  u_newSize order = Some sz
  \/ (u_size order = sz
      /\ (u_newSize order = None
          \/ exists newSizeValue,
               u_newSize order = Some newSizeValue /\ JS.truthy newSizeValue = false)) ->
  filledSizeOf order = sz.
Proof.
  intros Ht [H|[Hs [H|[n [H Hn]]]]]; unfold filledSizeOf, JS.or_else; rewrite H.
  - now rewrite Ht.
  - exact Hs.
  - now rewrite Hn.
Qed.

(** C5.  A buy fill at price [P], on a well-formed store with the
    trading socket ready.  The size [sz] of the fill is the [newSize] of
    the report when it is a number other than zero, else its [size].
    With [P + step] a price of the configured precision: exactly one
    message goes out, the placement of a sell at [P + step] for [sz];
    the sell is recorded at [P + step], the order that filled leaves the
    buy map, a record keyed at [P] is created and the counter of buy
    fills grows by one.  For a price and a step that are whole numbers
    below [2^52], where the code's subtraction of the step from
    [P + step] is exact and gives back [P], a sell fill at [P + step]
    that follows removes the record at [P] and the sell at
    [P + step]. *)
Theorem buy_fill_places_one_sell (b : Bot) (order : OrderUpdate) (now : Z) (tag : string)
    (P : Z) (sz : JS.num) :
  wellFormed (cache b) = true ->
  WS.ready (ws b) = true ->
  String.prefix "buy_" (u_clientOid order) = true ->
  u_status order = STATUS_FILLED ->
  u_price order = JS.Num P ->
  P <> 0%Z ->
  JS.truthy sz = true ->
  u_newSize order = Some sz
  \/ (u_size order = sz
      /\ (u_newSize order = None
          \/ exists newSizeValue,
               u_newSize order = Some newSizeValue /\ JS.truthy newSizeValue = false)) ->
  JS.toFixed (JS.Num (P + priceStep config)) (pricePrecision config)
  = JS.Num (P + priceStep config) ->
  let sellPrice := JS.Num (P + priceStep config) in
  let b1 := handleOrderUpdate config b order now tag in
  WS.sent (ws b1)
  = WS.sent (ws b) ++ [PlaceOrderMsg ("sell_" ++ tag) Sell sellPrice sz]
  /\ WS.messageQueue (ws b1) = WS.messageQueue (ws b)
  /\ nget (sellCurrentOrders (cache b1)) sellPrice
     = Some (SellObject (mkSellOrder ("sell_" ++ tag) (Some sellPrice) (Some sz)
                           STATUS_PENDING now))
  /\ nget (buyFilledOrders (cache b1)) (JS.Num P)
     = Some (mkFilledBuy (u_orderId order) (u_clientOid order) (JS.Num P) sz now)
  /\ bget (buyCurrentOrders (cache b1)) (u_clientOid order) = None
  /\ buyOrdersFilled (stats b1) = S (buyOrdersFilled (stats b))
  /\ ordersPlaced (stats b1) = S (ordersPlaced (stats b))
  /\ forall wholePrice wholeStep sellFill now' tag',
       P = (wholePrice * JS.SCALE)%Z ->
       priceStep config = (wholeStep * JS.SCALE)%Z ->
       (0 <= wholePrice < 2 ^ 52)%Z ->
       (0 <= wholeStep < 2 ^ 52)%Z ->
       String.prefix "sell_" (u_clientOid sellFill) = true ->
       u_status sellFill = STATUS_FILLED ->
       u_price sellFill = sellPrice ->
       let b2 := handleOrderUpdate config b1 sellFill now' tag' in
       nget (buyFilledOrders (cache b2)) (JS.Num P) = None
       /\ nget (sellCurrentOrders (cache b2)) sellPrice = None
       /\ sellOrdersFilled (stats b2) = S (sellOrdersFilled (stats b1))
       /\ WS.sent (ws b2) = WS.sent (ws b1).
Proof.
  intros Hwf R Hpre Hst Hprice HP Htr Hsize Hfix. cbv zeta.
  pose proof (filledSizeOf_cases order Htr Hsize) as Hsz.
  destruct (wellFormed_NoDup _ Hwf) as [NDb [NDs NDf]].
  assert (Htp : JS.truthy (u_price order) = true).
  { rewrite Hprice. simpl. apply negb_true_iff. now apply Z.eqb_neq. }
  assert (Hts : JS.truthy (filledSizeOf order) = true) by now rewrite Hsz.
  rewrite (handleOrderUpdate_buy_filled b order now tag Hpre Hst Htp Hts R).
  rewrite Hprice, Hsz. cbn [JS.add]. rewrite Hfix.
  cbn [cache ws stats WS.send WS.sent WS.messageQueue
       buyCurrentOrders sellCurrentOrders buyFilledOrders buyOrdersFilled ordersPlaced].
  split; [reflexivity|]. split; [reflexivity|].
  split; [apply (get_set_same JS.same JSFacts.same_eq)|].
  split; [apply (get_set_same JS.same JSFacts.same_eq)|].
  split; [now apply (get_delete_same String.eqb String.eqb_eq)|].
  split; [reflexivity|]. split; [reflexivity|].
  intros wholePrice wholeStep sellFill now' tag' HwP HwS HbP HbS Hpre' Hst' Hprice'.
  assert (Hback : JS.sub (JS.Num (P + priceStep config)) (JS.Num (priceStep config))
                  = JS.Num P) by (cbn [JS.sub]; f_equal; lia).
  rewrite (handleOrderUpdate_sell_filled _ sellFill now' tag' Hpre' Hst').
  rewrite Hprice', Hback.
  cbn [cache ws stats buyCurrentOrders sellCurrentOrders buyFilledOrders sellOrdersFilled].
  split; [|split; [|split; reflexivity]].
  - apply (get_delete_same JS.same JSFacts.same_eq).
    now apply (NoDup_keys_set JS.same JSFacts.same_eq).
  - apply (get_delete_same JS.same JSFacts.same_eq).
    now apply (NoDup_keys_set JS.same JSFacts.same_eq).
Qed.

(** C8, as it holds.  A buy fill whose price or size is missing (not a
    number, or zero) changes no counter, sends and queues no message and
    leaves the sell orders and the recovery as they were;
    [handleBuyOrderFilled] itself returns the state it was given. *)
Theorem malformed_buy_fill_places_nothing (b : Bot) (order : OrderUpdate) (now : Z)
    (tag : string) :
  String.prefix "buy_" (u_clientOid order) = true ->
  u_status order = STATUS_FILLED ->
  JS.truthy (u_price order) = false \/ JS.truthy (filledSizeOf order) = false ->
  stats (handleOrderUpdate config b order now tag) = stats b
  /\ ws (handleOrderUpdate config b order now tag) = ws b
  /\ sellCurrentOrders (cache (handleOrderUpdate config b order now tag))
     = sellCurrentOrders (cache b)
  /\ recovery (handleOrderUpdate config b order now tag) = recovery b
  /\ forall b',
       handleBuyOrderFilled config b'
         (mkFillData (u_price order) (u_clientOid order) (filledSizeOf order)
            (u_orderId order)) now tag = b'.
Proof.
  intros Hpre Hst Hmiss.
  assert (Hdrop : forall b',
             handleBuyOrderFilled config b'
               (mkFillData (u_price order) (u_clientOid order) (filledSizeOf order)
                  (u_orderId order)) now tag = b').
  { intro b'. unfold handleBuyOrderFilled. cbn [d_price d_size].
    destruct Hmiss as [H|H]; rewrite H; cbn [negb]; [reflexivity|].
    now destruct (JS.truthy (u_price order)). }
  unfold handleOrderUpdate.
  rewrite (prefix_buy_nonempty _ Hpre), Hpre, Hst.
  change (String.eqb STATUS_FILLED STATUS_LIVE) with false.
  change (String.eqb STATUS_FILLED STATUS_FILLED) with true. cbv iota.
  rewrite Hdrop. cbn [stats ws cache recovery with_cache].
  unfold addFilledBuyOrder. cbn [sellCurrentOrders with_filled].
  rewrite removeBuyOrder_sells. now repeat split.
Qed.

End Fill.

(** The fill at 10000 for 0.01 with step 50 and the fill of its sell,
    and the fill whose [newSize] is 0.0099, through the theorem. *)
Lemma buy_fill_places_one_sell_witness :
  wellFormed (cache botWithPendingBuy) = true
  /\ WS.ready (ws botWithPendingBuy) = true
  /\ JS.truthy (JS.Num 1000000) = true
  /\ usd 10000 = (10000 * JS.SCALE)%Z
  /\ priceStep sampleConfig = (50 * JS.SCALE)%Z
  /\ WS.sent (ws (handleOrderUpdate sampleConfig botWithPendingBuy fillOfBuy1 2000 "2000_2"))
     = [PlaceOrderMsg "sell_2000_2" Sell (JS.Num (usd 10050)) (JS.Num 1000000)]
  /\ nget (buyFilledOrders
             (cache (handleOrderUpdate sampleConfig botWithPendingBuy fillOfBuy1 2000 "2000_2")))
       (JS.Num (usd 10000))
     = Some (mkFilledBuy "unknown" "buy_1" (JS.Num (usd 10000)) (JS.Num 1000000) 2000)
  /\ nget (buyFilledOrders
             (cache (handleOrderUpdate sampleConfig
                       (handleOrderUpdate sampleConfig botWithPendingBuy fillOfBuy1 2000 "2000_2")
                       fillOfSell 3000 "3000_3")))
       (JS.Num (usd 10000))
     = None
  /\ WS.sent (ws (handleOrderUpdate sampleConfig botWithPendingBuy fillOfBuy1WithNewSize
                    2000 "2000_2"))
     = [PlaceOrderMsg "sell_2000_2" Sell (JS.Num (usd 10050)) (JS.Num 990000)].
Proof.
  destruct (@buy_fill_places_one_sell sampleConfig botWithPendingBuy fillOfBuy1 2000
              "2000_2"%string (usd 10000) (JS.Num 1000000)
              eq_refl eq_refl eq_refl eq_refl eq_refl ltac:(discriminate)
              eq_refl (or_intror (conj eq_refl (or_introl eq_refl))) eq_refl)
    as [Hsent [_ [_ [Hrec [_ [_ [_ Hsell]]]]]]].
  destruct (Hsell 10000%Z 50%Z fillOfSell 3000%Z "3000_3"%string eq_refl eq_refl
              ltac:(lia) ltac:(lia) eq_refl eq_refl eq_refl)
    as [Hgone _].
  destruct (@buy_fill_places_one_sell sampleConfig botWithPendingBuy fillOfBuy1WithNewSize
              2000 "2000_2"%string (usd 10000) (JS.Num 990000)
              eq_refl eq_refl eq_refl eq_refl eq_refl ltac:(discriminate)
              eq_refl (or_introl eq_refl) eq_refl)
    as [Hsent' _].
  do 5 (split; [reflexivity|]).
  split; [exact Hsent|]. split; [exact Hrec|]. split; [exact Hgone | exact Hsent'].
Defined.

(** A fill without a price places nothing, through the theorem. *)
Lemma malformed_buy_fill_places_nothing_witness :
  String.prefix "buy_" (u_clientOid fillWithoutPrice) = true
  /\ u_status fillWithoutPrice = STATUS_FILLED
  /\ JS.truthy (u_price fillWithoutPrice) = false
  /\ stats (handleOrderUpdate sampleConfig botWithPendingBuy fillWithoutPrice 2000 "2000_2")
     = stats botWithPendingBuy
  /\ ws (handleOrderUpdate sampleConfig botWithPendingBuy fillWithoutPrice 2000 "2000_2")
     = ws botWithPendingBuy.
Proof.
  destruct (@malformed_buy_fill_places_nothing sampleConfig botWithPendingBuy
              fillWithoutPrice 2000 "2000_2"%string eq_refl eq_refl (or_introl eq_refl))
    as [Hs [Hw _]].
  split; [reflexivity|]. split; [reflexivity|]. split; [reflexivity|].
  split; [exact Hs | exact Hw].
Defined.

(** C8 as stated fails: the fill without a price removes the record of
    [buy_1] and writes a filled-buy record under [NaN]. *)
Lemma malformed_buy_fill_mutates_store :
  ~ (forall (config : Config) (b : Bot) (order : OrderUpdate) (now : Z) (tag : string),
        u_status order = STATUS_FILLED ->
        JS.truthy (u_price order) = false \/ JS.truthy (filledSizeOf order) = false ->
        handleOrderUpdate config b order now tag = b).
Proof.
  intro H.
  specialize (H sampleConfig botWithPendingBuy fillWithoutPrice 2000%Z "2000_2"%string
                eq_refl (or_introl eq_refl)).
  apply (f_equal (fun x => JSMap.size (buyCurrentOrders (cache x)))) in H.
  vm_compute in H. discriminate H.
Qed.

End FillFacts.

(* ================================================================== *)
(** * The state store *)

Module StoreFacts.
Import JSMapFacts.

Section GetFilter.
Variables K V : Type.
Variable eqb : K -> K -> bool.
Hypothesis eqb_eq : forall a b, eqb a b = true <-> a = b.

Lemma get_filter (keep : V -> bool) (m : JSMap.t K V) (k : K) :
  NoDup (JSMap.keys m) ->
  JSMap.get eqb (filter (fun e => keep (snd e)) m) k
  = match JSMap.get eqb m k with
    | Some v => if keep v then Some v else None
    | None => None
    end.
Proof.
  induction m as [|[k0 v0] r IH]; simpl; intro ND; [reflexivity|].
  inversion ND as [|? ? Hn ND']; subst.
  destruct (keep v0) eqn:Ek; simpl.
  - destruct (eqb k0 k); [now rewrite Ek | now apply IH].
  - rewrite (IH ND'). destruct (eqb k0 k) eqn:E; [|reflexivity].
    apply eqb_eq in E. subst k0.
    apply (get_None_keys eqb eqb_eq) in Hn. now rewrite Hn, Ek.
Qed.

Lemma cleanLoop_all (expired : V -> bool) (m : JSMap.t K V) (n : nat) :
  NoDup (JSMap.keys m) ->
  cleanLoop eqb expired m m n
  = (filter (fun e => negb (expired (snd e))) m,
     (n + length (filter (fun e => expired (snd e)) m))%nat).
Proof.
  intro ND. exact (cleanLoop_filter eqb eqb_eq expired [] m n ND).
Qed.

End GetFilter.

(** C7, as it holds.  [addBuyOrder] leaves under the identifier a record
    with the given price and size, status [pending] and the current
    time, whether or not the identifier was present: a record that was
    there is replaced, and the map keeps its size then.  Nothing else
    changes. *)
Theorem addBuyOrder_sets_pending (c : CacheManager) (clientOid : string) (p : Z)
    (sz : JS.num) (now : Z) :
  let c' := addBuyOrder c clientOid p sz now in
  bget (buyCurrentOrders c') clientOid = Some (mkBuyOrder p sz STATUS_PENDING now)
  /\ (forall other, other <> clientOid ->
        bget (buyCurrentOrders c') other = bget (buyCurrentOrders c) other)
  /\ JSMap.size (buyCurrentOrders c')
     = (match bget (buyCurrentOrders c) clientOid with
        | Some _ => JSMap.size (buyCurrentOrders c)
        | None => S (JSMap.size (buyCurrentOrders c))
        end)
  /\ sellCurrentOrders c' = sellCurrentOrders c
  /\ buyFilledOrders c' = buyFilledOrders c
  /\ lastPrice c' = lastPrice c.
Proof.
  cbv zeta. unfold addBuyOrder. cbn [buyCurrentOrders with_buys].
  split; [apply (get_set_same String.eqb String.eqb_eq)|].
  split; [intros other Hne; now apply (get_set_other String.eqb String.eqb_eq)|].
  split; [|now repeat split].
  rewrite size_set. unfold JSMap.has.
  now destruct (bget (buyCurrentOrders c) clientOid).
Qed.

(** C7 as stated fails: no call of [addBuyOrder] is refused.  Under the
    identifier of [botWithPendingBuy] the record at 10000 is replaced by
    the new one at 9950. *)
Lemma addBuyOrder_overwrites :
  ~ (forall (c : CacheManager) (clientOid : string) (p : Z) (sz : JS.num) (now : Z)
            (existing : BuyOrder),
        bget (buyCurrentOrders c) clientOid = Some existing ->
        bget (buyCurrentOrders (addBuyOrder c clientOid p sz now)) clientOid
        = Some existing).
Proof.
  intro H.
  specialize (H (cache botWithPendingBuy) "buy_1"%string (usd 9950) (JS.Num 1005000) 99%Z
                (mkBuyOrder (usd 10000) (JS.Num 1000000) "pending" 10) eq_refl).
  vm_compute in H. discriminate H.
Qed.

Lemma buyExpired_true now maxPendingTimeMs order :
  buyExpired now maxPendingTimeMs order = true <->
  status order = STATUS_PENDING /\ (maxPendingTimeMs < now - timestamp order)%Z.
Proof.
  unfold buyExpired. now rewrite andb_true_iff, String.eqb_eq, Z.ltb_lt.
Qed.

Lemma sellExpired_true now maxPendingTimeMs orderInfo :
  sellExpired now maxPendingTimeMs orderInfo = true <->
  exists o, orderInfo = SellObject o
            /\ s_status o = STATUS_PENDING
            /\ (maxPendingTimeMs < now - s_timestamp o)%Z.
Proof.
  unfold sellExpired. destruct orderInfo as [id|o].
  - split; [discriminate | intros [o [H _]]; discriminate].
  - rewrite andb_true_iff, String.eqb_eq, Z.ltb_lt. split.
    + intros [H1 H2]. now exists o.
    + intros [o' [H [H1 H2]]]. inversion H; subst. now split.
Qed.

(** On a well-formed store [cleanPendingOrders] filters both maps and
    counts what it drops. *)
Lemma cleanPendingOrders_filter c maxPendingTimeMs now :
  wellFormed c = true ->
  cleanPendingOrders c maxPendingTimeMs now
  = (mkCache
       (filter (fun e => negb (buyExpired now maxPendingTimeMs (snd e)))
          (buyCurrentOrders c))
       (filter (fun e => negb (sellExpired now maxPendingTimeMs (snd e)))
          (sellCurrentOrders c))
       (buyFilledOrders c) (lastPrice c) (lastPriceTimestamp c),
     (length (filter (fun e => buyExpired now maxPendingTimeMs (snd e))
                (buyCurrentOrders c))
      + length (filter (fun e => sellExpired now maxPendingTimeMs (snd e))
                  (sellCurrentOrders c)))%nat).
Proof.
  intro Hwf. destruct (FillFacts.wellFormed_NoDup _ Hwf) as [NDb [NDs _]].
  unfold cleanPendingOrders.
  rewrite (cleanLoop_all String.eqb String.eqb_eq _ _ 0 NDb).
  rewrite (cleanLoop_all JS.same JSFacts.same_eq _ _ _ NDs).
  reflexivity.
Qed.

(** C10.  On a well-formed store, [cleanPendingOrders] keeps, under its
    key and with every field as it was, each buy and each sell entry
    that is not both [pending] and older than [maxPendingTimeMs]; it
    removes the others; it adds and alters nothing; the filled-buy
    records and the last price are untouched; and the number it returns
    is the number of entries removed from the two maps. *)
Theorem cleanPendingOrders_removes_expired_pending (c : CacheManager)
    (maxPendingTimeMs now : Z) :
  wellFormed c = true ->
  let c' := fst (cleanPendingOrders c maxPendingTimeMs now) in
  let removedCount := snd (cleanPendingOrders c maxPendingTimeMs now) in
  (forall clientOid order,
      bget (buyCurrentOrders c) clientOid = Some order ->
      status order <> STATUS_PENDING \/ (now - timestamp order <= maxPendingTimeMs)%Z ->
      bget (buyCurrentOrders c') clientOid = Some order)
  /\ (forall clientOid order,
        bget (buyCurrentOrders c) clientOid = Some order ->
        status order = STATUS_PENDING -> (maxPendingTimeMs < now - timestamp order)%Z ->
        bget (buyCurrentOrders c') clientOid = None)
  /\ (forall clientOid order,
        bget (buyCurrentOrders c') clientOid = Some order ->
        bget (buyCurrentOrders c) clientOid = Some order)
  /\ (forall p orderInfo,
        nget (sellCurrentOrders c) p = Some orderInfo ->
        (forall o, orderInfo = SellObject o ->
                   s_status o <> STATUS_PENDING
                   \/ (now - s_timestamp o <= maxPendingTimeMs)%Z) ->
        nget (sellCurrentOrders c') p = Some orderInfo)
  /\ (forall p o,
        nget (sellCurrentOrders c) p = Some (SellObject o) ->
        s_status o = STATUS_PENDING -> (maxPendingTimeMs < now - s_timestamp o)%Z ->
        nget (sellCurrentOrders c') p = None)
  /\ (forall p orderInfo,
        nget (sellCurrentOrders c') p = Some orderInfo ->
        nget (sellCurrentOrders c) p = Some orderInfo)
  /\ buyFilledOrders c' = buyFilledOrders c
  /\ lastPrice c' = lastPrice c
  /\ (removedCount + JSMap.size (buyCurrentOrders c') + JSMap.size (sellCurrentOrders c')
      = JSMap.size (buyCurrentOrders c) + JSMap.size (sellCurrentOrders c))%nat.
Proof.
  intro Hwf. cbv zeta. rewrite (cleanPendingOrders_filter _ _ _ Hwf).
  destruct (FillFacts.wellFormed_NoDup _ Hwf) as [NDb [NDs _]].
  cbn [fst snd buyCurrentOrders sellCurrentOrders buyFilledOrders lastPrice].
  assert (Gb : forall k,
             bget (filter (fun e => negb (buyExpired now maxPendingTimeMs (snd e)))
                     (buyCurrentOrders c)) k
             = match bget (buyCurrentOrders c) k with
               | Some v => if negb (buyExpired now maxPendingTimeMs v) then Some v else None
               | None => None
               end).
  { intro k. exact (get_filter String.eqb String.eqb_eq
                      (fun v => negb (buyExpired now maxPendingTimeMs v)) _ k NDb). }
  assert (Gs : forall k,
             nget (filter (fun e => negb (sellExpired now maxPendingTimeMs (snd e)))
                     (sellCurrentOrders c)) k
             = match nget (sellCurrentOrders c) k with
               | Some v => if negb (sellExpired now maxPendingTimeMs v) then Some v else None
               | None => None
               end).
  { intro k. exact (get_filter JS.same JSFacts.same_eq
                      (fun v => negb (sellExpired now maxPendingTimeMs v)) _ k NDs). }
  split; [|split; [|split; [|split; [|split; [|split; [|split; [|split]]]]]]].
  - intros k o Hg Hkeep. rewrite Gb, Hg.
    destruct (buyExpired now maxPendingTimeMs o) eqn:E; [|reflexivity].
    apply buyExpired_true in E. destruct E as [E1 E2].
    destruct Hkeep as [Hk|Hk]; [contradiction | lia].
  - intros k o Hg Hp Hage. rewrite Gb, Hg.
    assert (E : buyExpired now maxPendingTimeMs o = true)
      by (apply buyExpired_true; now split).
    now rewrite E.
  - intros k o. rewrite Gb.
    destruct (bget (buyCurrentOrders c) k) as [v|]; [|discriminate].
    now destruct (negb (buyExpired now maxPendingTimeMs v)).
  - intros k i Hg Hkeep. rewrite Gs, Hg.
    destruct (sellExpired now maxPendingTimeMs i) eqn:E; [|reflexivity].
    apply sellExpired_true in E. destruct E as [o [Ho [E1 E2]]].
    destruct (Hkeep o Ho) as [Hk|Hk]; [contradiction | lia].
  - intros k o Hg Hp Hage. rewrite Gs, Hg.
    assert (E : sellExpired now maxPendingTimeMs (SellObject o) = true)
      by (apply sellExpired_true; now exists o).
    now rewrite E.
  - intros k i. rewrite Gs.
    destruct (nget (sellCurrentOrders c) k) as [v|]; [|discriminate].
    now destruct (negb (sellExpired now maxPendingTimeMs v)).
  - reflexivity.
  - reflexivity.
  - unfold JSMap.size.
    pose proof (filter_length (fun e => buyExpired now maxPendingTimeMs (snd e))
                  (buyCurrentOrders c)) as Lb.
    pose proof (filter_length (fun e => sellExpired now maxPendingTimeMs (snd e))
                  (sellCurrentOrders c)) as Ls.
    lia.
Qed.

(** The cleaning of [cacheWithStaleOrders] at time 5000 with a limit of
    1500 ms, through the theorem: the two stale pending entries go, the
    four others stay. *)
Lemma cleanPendingOrders_removes_expired_pending_witness :
  wellFormed cacheWithStaleOrders = true
  /\ bget (buyCurrentOrders (fst (cleanPendingOrders cacheWithStaleOrders 1500 5000)))
       "buy_live"%string
     = Some (mkBuyOrder (usd 9900) (JS.Num 1010100) "live" 1000)
  /\ bget (buyCurrentOrders (fst (cleanPendingOrders cacheWithStaleOrders 1500 5000)))
       "buy_old"%string
     = None
  /\ (snd (cleanPendingOrders cacheWithStaleOrders 1500 5000)
      + JSMap.size (buyCurrentOrders (fst (cleanPendingOrders cacheWithStaleOrders 1500 5000)))
      + JSMap.size (sellCurrentOrders (fst (cleanPendingOrders cacheWithStaleOrders 1500 5000)))
      = 6)%nat.
Proof.
  destruct (@cleanPendingOrders_removes_expired_pending cacheWithStaleOrders 1500 5000 eq_refl)
    as [Hkeep [Hdrop [_ [_ [_ [_ [_ [_ Hcount]]]]]]]].
  split; [reflexivity|].
  split; [apply Hkeep; [reflexivity | left; discriminate]|].
  split; [eapply Hdrop; [reflexivity | reflexivity | reflexivity]|].
  exact Hcount.
Defined.

Lemma get_Some_size (m : JSMap.t string BuyOrder) k v :
  bget m k = Some v -> (1 <= JSMap.size m)%nat.
Proof.
  intro H. apply (get_In String.eqb String.eqb_eq) in H.
  unfold JSMap.size. destruct m; [contradiction | simpl; lia].
Qed.

(** C6, as it holds.  The store has no single transition function.
    On a store with distinct keys:
    - for an order that is absent, [updateOrderStatus] answers [false],
      [removeBuyOrder] hands back nothing, and neither changes the store;
    - for an order that is present, [updateOrderStatus] sets the status,
      whatever it is, [filled] and [cancelled] included, keeps the
      price, the size and the timestamp, keeps the order in the map and
      answers [true]; [removeBuyOrder] removes the order and hands back
      the record as it was, leaving the other orders, the sell orders
      and the filled buys alone, and a second [removeBuyOrder] changes
      nothing, the size of the map included;
    - a report on a buy order goes to [updateOrderStatus] when its
      status is [live] and to [removeBuyOrder] when it is [filled],
      [cancelled] or [canceled]. *)
Theorem removeBuyOrder_idempotent (c : CacheManager) (clientOid : string) :
  wellFormed c = true ->
  (bget (buyCurrentOrders c) clientOid = None ->
   (forall st now, updateOrderStatus c clientOid st Buy now = (c, false))
   /\ removeBuyOrder c clientOid = (c, None))
  /\ (forall order,
        bget (buyCurrentOrders c) clientOid = Some order ->
        (forall st now,
            let c' := fst (updateOrderStatus c clientOid st Buy now) in
            snd (updateOrderStatus c clientOid st Buy now) = true
            /\ (exists order',
                   bget (buyCurrentOrders c') clientOid = Some order'
                   /\ status order' = st
                   /\ price order' = price order
                   /\ size order' = size order
                   /\ timestamp order' = timestamp order)
            /\ JSMap.keys (buyCurrentOrders c') = JSMap.keys (buyCurrentOrders c)
            /\ (forall other, other <> clientOid ->
                  bget (buyCurrentOrders c') other = bget (buyCurrentOrders c) other)
            /\ sellCurrentOrders c' = sellCurrentOrders c
            /\ buyFilledOrders c' = buyFilledOrders c)
        /\ (let c' := fst (removeBuyOrder c clientOid) in
            snd (removeBuyOrder c clientOid) = Some order
            /\ bget (buyCurrentOrders c') clientOid = None
            /\ S (JSMap.size (buyCurrentOrders c')) = JSMap.size (buyCurrentOrders c)
            /\ (forall other, other <> clientOid ->
                  bget (buyCurrentOrders c') other = bget (buyCurrentOrders c) other)
            /\ sellCurrentOrders c' = sellCurrentOrders c
            /\ buyFilledOrders c' = buyFilledOrders c
            /\ removeBuyOrder c' clientOid = (c', None)))
  /\ (forall config b report now tag,
        cache b = c ->
        u_clientOid report = clientOid ->
        String.prefix "buy_" clientOid = true ->
        (u_status report = STATUS_LIVE ->
         cache (handleOrderUpdate config b report now tag)
         = fst (updateOrderStatus c clientOid STATUS_LIVE Buy now))
        /\ (u_status report = STATUS_CANCELLED \/ u_status report = STATUS_CANCELED ->
            cache (handleOrderUpdate config b report now tag)
            = fst (removeBuyOrder c clientOid))
        /\ (u_status report = STATUS_FILLED ->
            buyCurrentOrders (cache (handleOrderUpdate config b report now tag))
            = buyCurrentOrders (fst (removeBuyOrder c clientOid)))).
Proof.
  intro Hwf. destruct (FillFacts.wellFormed_NoDup _ Hwf) as [NDb _].
  split; [|split].
  - intro Hnone. unfold updateOrderStatus, removeBuyOrder. rewrite Hnone. now split.
  - intros order Hget. split.
    + intros st now. cbv zeta. unfold updateOrderStatus. rewrite Hget.
      cbn [fst snd buyCurrentOrders sellCurrentOrders buyFilledOrders with_buys].
      split; [reflexivity|].
      split.
      { exists (set_status order st).
        split; [apply (get_set_same String.eqb String.eqb_eq)|]. now repeat split. }
      split.
      { rewrite keys_set. unfold JSMap.has. now rewrite Hget. }
      split; [|now split].
      intros other Hne. now apply (get_set_other String.eqb String.eqb_eq).
    + cbv zeta.
      assert (E : removeBuyOrder c clientOid
                  = (with_buys c (bdelete (buyCurrentOrders c) clientOid), Some order))
        by (unfold removeBuyOrder; now rewrite Hget).
      rewrite E.
      cbn [fst snd buyCurrentOrders sellCurrentOrders buyFilledOrders with_buys].
      assert (Hgone : bget (bdelete (buyCurrentOrders c) clientOid) clientOid = None)
        by now apply (get_delete_same String.eqb String.eqb_eq).
      split; [reflexivity|]. split; [exact Hgone|].
      split.
      { rewrite size_delete. unfold JSMap.has. rewrite Hget.
        pose proof (get_Some_size _ _ Hget). lia. }
      split; [intros other Hne; now apply (get_delete_other String.eqb String.eqb_eq)|].
      split; [reflexivity|]. split; [reflexivity|].
      unfold removeBuyOrder. cbn [buyCurrentOrders with_buys]. now rewrite Hgone.
  - intros config b report now tag Hc Hid Hpre. subst c clientOid.
    unfold handleOrderUpdate.
    rewrite (FillFacts.prefix_buy_nonempty _ Hpre), Hpre.
    split; [|split].
    + intros ->. reflexivity.
    + intros [-> | ->]; cbn [String.eqb Ascii.eqb Bool.eqb STATUS_CANCELLED STATUS_CANCELED
                              STATUS_LIVE STATUS_FILLED isCancelled orb];
        now rewrite InvariantFacts.onOrderCancelled_cache.
    + intros ->.
      change (String.eqb STATUS_FILLED STATUS_LIVE) with false.
      change (String.eqb STATUS_FILLED STATUS_FILLED) with true. cbv iota.
      now rewrite InvariantFacts.handleBuyOrderFilled_buys.
Qed.

(** The pending buy of [botWithPendingBuy]: set to [live], and removed
    twice. *)
Lemma removeBuyOrder_idempotent_witness :
  wellFormed (cache botWithPendingBuy) = true
  /\ bget (buyCurrentOrders
             (fst (updateOrderStatus (cache botWithPendingBuy) "buy_1" STATUS_LIVE Buy 50)))
       "buy_1"%string
     = Some (mkBuyOrder (usd 10000) (JS.Num 1000000) "live" 10)
  /\ snd (removeBuyOrder (cache botWithPendingBuy) "buy_1")
     = Some (mkBuyOrder (usd 10000) (JS.Num 1000000) "pending" 10)
  /\ removeBuyOrder (fst (removeBuyOrder (cache botWithPendingBuy) "buy_1")) "buy_1"
     = (fst (removeBuyOrder (cache botWithPendingBuy) "buy_1"), None)
  /\ cache (handleOrderUpdate sampleConfig botWithPendingBuy
              (mkOrderUpdate "buy_1" "canceled" (JS.Num (usd 10000)) (JS.Num 1000000) None
                 "unknown") 50 "50_1")
     = fst (removeBuyOrder (cache botWithPendingBuy) "buy_1").
Proof.
  destruct (@removeBuyOrder_idempotent (cache botWithPendingBuy) "buy_1"%string eq_refl)
    as [_ [Hpresent Hreport]].
  destruct (Hpresent (mkBuyOrder (usd 10000) (JS.Num 1000000) "pending" 10) eq_refl)
    as [Hupdate Hremove].
  destruct (Hupdate STATUS_LIVE 50%Z) as (_ & (o' & Hget & Hst & Hp & Hs & Ht) & _).
  cbv zeta in Hremove. destruct Hremove as (Hsnap & _ & _ & _ & _ & _ & Hagain).
  destruct (Hreport sampleConfig botWithPendingBuy
              (mkOrderUpdate "buy_1" "canceled" (JS.Num (usd 10000)) (JS.Num 1000000) None
                 "unknown") 50%Z "50_1"%string eq_refl eq_refl eq_refl)
    as (_ & Hcancel & _).
  split; [reflexivity|].
  split.
  { rewrite Hget. destruct o' as [p sz st ts]. cbn in Hst, Hp, Hs, Ht. now subst. }
  split; [exact Hsnap|]. split; [exact Hagain|].
  apply Hcancel. now right.
Defined.

(** C6 as stated fails on [updateOrderStatus]: given a terminal status it
    does not remove the order.  The pending buy of [botWithPendingBuy]
    stays in the map, with the status [filled]. *)
Lemma updateOrderStatus_keeps_terminal_order :
  ~ (forall (c : CacheManager) (clientOid : string) (order : BuyOrder) (now : Z),
        bget (buyCurrentOrders c) clientOid = Some order ->
        bget (buyCurrentOrders (fst (updateOrderStatus c clientOid STATUS_FILLED Buy now)))
          clientOid
        = None).
Proof.
  intro H.
  specialize (H (cache botWithPendingBuy) "buy_1"%string
                (mkBuyOrder (usd 10000) (JS.Num 1000000) "pending" 10) 50%Z eq_refl).
  vm_compute in H. discriminate H.
Qed.

End StoreFacts.

(* ================================================================== *)
(** * Well-formedness of the reachable stores *)

Module WellFormedFacts.
Import JSMapFacts.

Lemma wellFormed_iff c :
  wellFormed c = true <->
  NoDup (JSMap.keys (buyCurrentOrders c))
  /\ NoDup (JSMap.keys (sellCurrentOrders c))
  /\ NoDup (JSMap.keys (buyFilledOrders c)).
Proof.
  unfold wellFormed. rewrite !andb_true_iff.
  rewrite (distinctb_NoDup String.eqb String.eqb_eq).
  rewrite !(distinctb_NoDup JS.same JSFacts.same_eq). tauto.
Qed.

Lemma NoDup_keys_cleanLoop (K V : Type) (eqb : K -> K -> bool) (expired : V -> bool)
    (todo m : JSMap.t K V) (n : nat) :
  NoDup (JSMap.keys m) -> NoDup (JSMap.keys (fst (cleanLoop eqb expired todo m n))).
Proof.
  revert m n. induction todo as [|[k v] r IH]; simpl; intros m n ND; [assumption|].
  destruct (expired v); apply IH; [now apply NoDup_keys_delete | assumption].
Qed.

Ltac wf_maps :=
  cbn [fst buyCurrentOrders sellCurrentOrders buyFilledOrders
       with_buys with_sells with_filled];
  repeat match goal with
         | |- _ /\ _ => split
         | |- NoDup (JSMap.keys (JSMap.set String.eqb _ _ _)) =>
             apply (NoDup_keys_set String.eqb String.eqb_eq)
         | |- NoDup (JSMap.keys (JSMap.set JS.same _ _ _)) =>
             apply (NoDup_keys_set JS.same JSFacts.same_eq)
         | |- NoDup (JSMap.keys (JSMap.delete _ _ _)) => apply NoDup_keys_delete
         | |- NoDup (JSMap.keys (fst (cleanLoop _ _ _ _ _))) => apply NoDup_keys_cleanLoop
         end; try assumption.

Lemma addBuyOrder_wf c clientOid p sz now :
  wellFormed c = true -> wellFormed (addBuyOrder c clientOid p sz now) = true.
Proof.
  rewrite !wellFormed_iff. intros [Hb [Hs Hf]]. unfold addBuyOrder. wf_maps.
Qed.

Lemma removeBuyOrder_wf c clientOid :
  wellFormed c = true -> wellFormed (fst (removeBuyOrder c clientOid)) = true.
Proof.
  rewrite !wellFormed_iff. intros [Hb [Hs Hf]]. unfold removeBuyOrder.
  destruct (bget (buyCurrentOrders c) clientOid); wf_maps.
Qed.

Lemma addSellOrder_wf c p orderInfo now :
  wellFormed c = true -> wellFormed (addSellOrder c p orderInfo now) = true.
Proof.
  rewrite !wellFormed_iff. intros [Hb [Hs Hf]]. unfold addSellOrder. wf_maps.
Qed.

Lemma removeSellOrder_wf c p :
  wellFormed c = true -> wellFormed (fst (removeSellOrder c p)) = true.
Proof.
  rewrite !wellFormed_iff. intros [Hb [Hs Hf]]. unfold removeSellOrder.
  destruct (nget (sellCurrentOrders c) p); wf_maps.
Qed.

Lemma addFilledBuyOrder_wf c p details :
  wellFormed c = true -> wellFormed (addFilledBuyOrder c p details) = true.
Proof.
  rewrite !wellFormed_iff. intros [Hb [Hs Hf]]. unfold addFilledBuyOrder. wf_maps.
Qed.

Lemma removeFilledBuyOrder_wf c p :
  wellFormed c = true -> wellFormed (fst (removeFilledBuyOrder c p)) = true.
Proof.
  rewrite !wellFormed_iff. intros [Hb [Hs Hf]]. unfold removeFilledBuyOrder.
  destruct (nget (buyFilledOrders c) p); wf_maps.
Qed.

Lemma updateOrderStatus_wf c clientOid st side now :
  wellFormed c = true -> wellFormed (fst (updateOrderStatus c clientOid st side now)) = true.
Proof.
  rewrite !wellFormed_iff. intros [Hb [Hs Hf]]. unfold updateOrderStatus.
  destruct side.
  - destruct (bget (buyCurrentOrders c) clientOid); wf_maps.
  - destruct (findSellByOid (sellCurrentOrders c) clientOid) as [[p [id|o]]|]; wf_maps.
  - wf_maps.
Qed.

Lemma cleanPendingOrders_wf c maxPendingTimeMs now :
  wellFormed c = true -> wellFormed (fst (cleanPendingOrders c maxPendingTimeMs now)) = true.
Proof.
  intro Hwf. rewrite (StoreFacts.cleanPendingOrders_filter _ _ _ Hwf).
  apply wellFormed_iff in Hwf. destruct Hwf as [Hb [Hs Hf]].
  apply wellFormed_iff. cbn [fst buyCurrentOrders sellCurrentOrders buyFilledOrders].
  pose proof (StoreFacts.cleanLoop_all String.eqb String.eqb_eq
                (buyExpired now maxPendingTimeMs) _ 0 Hb) as Eb.
  pose proof (StoreFacts.cleanLoop_all JS.same JSFacts.same_eq
                (sellExpired now maxPendingTimeMs) _ 0 Hs) as Es.
  repeat split; [| |assumption].
  - replace (filter _ (buyCurrentOrders c))
      with (fst (cleanLoop String.eqb (buyExpired now maxPendingTimeMs)
                   (buyCurrentOrders c) (buyCurrentOrders c) 0))
      by now rewrite Eb.
    now apply NoDup_keys_cleanLoop.
  - replace (filter _ (sellCurrentOrders c))
      with (fst (cleanLoop JS.same (sellExpired now maxPendingTimeMs)
                   (sellCurrentOrders c) (sellCurrentOrders c) 0))
      by now rewrite Es.
    now apply NoDup_keys_cleanLoop.
Qed.

Section Steps.
Variable config : Config.

Lemma placeBuyOrder_wf b p now tag :
  wellFormed (cache b) = true ->
  wellFormed (cache (fst (placeBuyOrder config b p now tag))) = true.
Proof.
  intro H. unfold placeBuyOrder.
  destruct (canPlaceOrder (cache b) p (priceStep config)); cbn [negb fst cache];
    [now apply addBuyOrder_wf | assumption].
Qed.

Lemma fold_bulkBuyStep_wf now pricesData acc :
  wellFormed (cache (fst (fst acc))) = true ->
  wellFormed (cache (fst (fst (fold_left (bulkBuyStep config now) pricesData acc)))) = true.
Proof.
  revert acc. induction pricesData as [|[p tag] r IH]; simpl; intros [[b orders] n] H;
    [assumption|].
  apply IH. simpl in *.
  destruct (canPlaceOrder (cache b) p (priceStep config)); cbn [negb fst cache];
    [now apply addBuyOrder_wf | assumption].
Qed.

Lemma placeBulkBuyOrders_wf b pricesData now :
  wellFormed (cache b) = true ->
  wellFormed (cache (fst (placeBulkBuyOrders config b pricesData now))) = true.
Proof.
  intro H. unfold placeBulkBuyOrders.
  pose proof (@fold_bulkBuyStep_wf now pricesData (b, [], 0%nat) H) as G.
  destruct (fold_left (bulkBuyStep config now) pricesData (b, [], 0%nat)) as [[b1 orders] n].
  simpl in G. destruct orders; simpl; [assumption|].
  destruct (WS.placeBulkOrders (ws b1) (p :: orders)). exact G.
Qed.

Lemma handleBuyOrderFilled_wf b data now tag :
  wellFormed (cache b) = true ->
  wellFormed (cache (handleBuyOrderFilled config b data now tag)) = true.
Proof.
  intro H. unfold handleBuyOrderFilled.
  destruct (JS.truthy (d_price data)); [|assumption].
  destruct (JS.truthy (d_size data)); [|assumption].
  cbn [negb fst cache placeSellOrder]. now apply addSellOrder_wf.
Qed.

Lemma handleOrderUpdate_wf b order now tag :
  wellFormed (cache b) = true ->
  wellFormed (cache (handleOrderUpdate config b order now tag)) = true.
Proof.
  intro H. unfold handleOrderUpdate.
  destruct (String.eqb (u_clientOid order) ""); [assumption|].
  destruct (String.prefix "buy_" (u_clientOid order)).
  - destruct (String.eqb (u_status order) STATUS_LIVE).
    { cbn [cache with_cache]. now apply updateOrderStatus_wf. }
    destruct (String.eqb (u_status order) STATUS_FILLED).
    { apply handleBuyOrderFilled_wf. cbn [cache with_cache].
      apply addFilledBuyOrder_wf. now apply removeBuyOrder_wf. }
    destruct (isCancelled (u_status order)); [|assumption].
    rewrite InvariantFacts.onOrderCancelled_cache. cbn [cache with_cache].
    now apply removeBuyOrder_wf.
  - destruct (String.prefix "sell_" (u_clientOid order)); [|assumption].
    destruct (String.eqb (u_status order) STATUS_FILLED).
    { cbn [cache with_cache handleSellOrderFilled].
      apply removeSellOrder_wf. now apply removeFilledBuyOrder_wf. }
    destruct (isCancelled (u_status order)); [|assumption].
    destruct (findSellByOid (sellCurrentOrders (cache b)) (u_clientOid order)) as [[p i]|];
      [|assumption].
    cbn [cache with_cache]. now apply removeSellOrder_wf.
Qed.

Lemma step_wf b e :
  wellFormed (cache b) = true -> wellFormed (cache (step config b e)) = true.
Proof.
  intro H. destruct e; cbn [step].
  - now apply placeBuyOrder_wf.
  - now apply placeBulkBuyOrders_wf.
  - now apply handleOrderUpdate_wf.
  - now rewrite InvariantFacts.handleInsufficientBalance_cache.
  - unfold onCancelTimeout. now destruct (recovery b).
  - unfold resumeAfterCancel. destruct (recovery b); try assumption.
    cbn [cache]. now apply placeBuyOrder_wf.
  - now rewrite InvariantFacts.enforceMaxOrders_cache.
  - cbn [cache with_cache]. now apply cleanPendingOrders_wf.
  - exact H.
  - unfold handleTooManyRequests.
    destruct (String.prefix "buy_" clientOid).
    + cbn [cache with_cache]. now apply removeBuyOrder_wf.
    + destruct (String.prefix "sell_" clientOid); [|assumption].
      destruct (findSellByOid (sellCurrentOrders (cache b)) clientOid) as [[p i]|];
        [|assumption].
      cbn [cache with_cache]. now apply removeSellOrder_wf.
  - unfold handleUnknownOrder. cbn [cache with_cache]. now apply removeBuyOrder_wf.
  - exact H.
Qed.

(** Every store the bot reaches is well-formed. *)
Lemma run_wf events b :
  wellFormed (cache b) = true -> wellFormed (cache (run config b events)) = true.
Proof.
  revert b. induction events as [|e r IH]; intros b H; [assumption|].
  apply IH. now apply step_wf.
Qed.

Lemma reachable_wf events : wellFormed (cache (run config initialBot events)) = true.
Proof. now apply run_wf. Qed.

End Steps.

End WellFormedFacts.

(* ================================================================== *)
(** * Reconnection *)

Module ReconnectFacts.

Lemma reconnect_same attempts scheduled :
  reconnectPublic attempts scheduled = reconnectPrivate attempts scheduled.
Proof. reflexivity. Qed.

Lemma backoff_range (a : nat) :
  (1 <= a <= 5)%nat ->
  (2000 <= Z.min (1000 * 2 ^ Z.of_nat a) 30000 <= 30000)%Z.
Proof.
  intros [H1 H5].
  destruct a as [|[|[|[|[|[|a]]]]]]; try lia; vm_compute; split; discriminate.
Qed.

(** A reconnection, on either socket: below five attempts the counter
    grows by one and the wait is [min (1000 * 2^attempts) 30000] ms,
    between 2 s and 30 s; from five attempts on, and only then, the
    counter is kept and a 60 s wait ends with its reset.  A scheduled
    reconnection starts from zero whatever the counter was and waits
    2 s. *)
Theorem reconnect_backoff (attempts : nat) (scheduled : bool) :
  reconnectPublic attempts scheduled = reconnectPrivate attempts scheduled
  /\ (scheduled = true ->
      reconnectPrivate attempts scheduled = (1%nat, ConnectAfter 2000))
  /\ (scheduled = false -> (attempts < maxReconnectAttempts)%nat ->
      reconnectPrivate attempts scheduled
      = (S attempts, ConnectAfter (Z.min (1000 * 2 ^ Z.of_nat (S attempts)) 30000))
      /\ (2000 <= delayOf (snd (reconnectPrivate attempts scheduled)) <= 30000)%Z)
  /\ (scheduled = false -> (maxReconnectAttempts <= attempts)%nat ->
      reconnectPrivate attempts scheduled = (attempts, ResetAndConnectAfter 60000))
  /\ (fst (reconnectPrivate attempts scheduled) <= Nat.max attempts maxReconnectAttempts)%nat.
Proof.
  split; [reflexivity|]. split; [intros ->; reflexivity|].
  split; [|split].
  - intros -> Hlt. unfold reconnectPrivate.
    assert (E : (attempts <? maxReconnectAttempts)%nat = true) by now apply Nat.ltb_lt.
    rewrite E. split; [reflexivity|]. cbn [snd delayOf].
    apply backoff_range. unfold maxReconnectAttempts in Hlt. lia.
  - intros -> Hge. unfold reconnectPrivate.
    assert (E : (attempts <? maxReconnectAttempts)%nat = false) by now apply Nat.ltb_ge.
    now rewrite E.
  - unfold reconnectPrivate. destruct scheduled.
    + cbn. unfold maxReconnectAttempts. lia.
    + destruct (attempts <? maxReconnectAttempts)%nat eqn:E; cbn [fst].
      * apply Nat.ltb_lt in E. lia.
      * lia.
Qed.

Lemma closeDelays_range n : forall attempts,
  Forall (fun d => (2000 <= d <= 60000)%Z) (closeDelays n attempts).
Proof.
  induction n as [|n IH]; intro attempts; simpl; [constructor|].
  unfold reconnectPrivate.
  destruct (attempts <? maxReconnectAttempts)%nat eqn:E.
  - constructor; [|apply IH]. cbn [delayOf].
    apply Nat.ltb_lt in E. unfold maxReconnectAttempts in E.
    pose proof (@backoff_range (S attempts) ltac:(lia)). lia.
  - constructor; [cbn; lia | apply IH].
Qed.

(** A private socket that keeps closing before it opens: the waits are
    2, 4, 8, 16 and 30 s, then 60 s, and so on in that cycle for ever;
    from any counter value every wait is between 2 s and 60 s. *)
Theorem closeDelays_cycle (n : nat) :
  closeDelays (6 + n) 0 = [2000; 4000; 8000; 16000; 30000; 60000]%Z ++ closeDelays n 0
  /\ forall attempts, Forall (fun d => (2000 <= d <= 60000)%Z) (closeDelays n attempts).
Proof.
  split; [reflexivity | apply closeDelays_range].
Qed.

End ReconnectFacts.

(* ================================================================== *)
(** * The throttled queue and the bulk sends *)

Module QueueFacts.

Lemma processMessageQueue_flags w outcome :
  WS.privateConnected (processMessageQueue w outcome) = WS.privateConnected w
  /\ WS.isAuthenticated (processMessageQueue w outcome) = WS.isAuthenticated w.
Proof.
  unfold processMessageQueue. destruct (WS.messageQueue w); [now split|].
  destruct (WS.privateConnected w) eqn:E; cbn [negb]; [|now split].
  destruct outcome as [|code]; [now split|].
  destruct (isTemporaryError code); now split.
Qed.

Lemma processMessageQueue_lossless w outcome :
  lossless outcome = true ->
  WS.sent (processMessageQueue w outcome) ++ WS.messageQueue (processMessageQueue w outcome)
  = WS.sent w ++ WS.messageQueue w
  /\ exists newly, WS.sent (processMessageQueue w outcome) = WS.sent w ++ newly.
Proof.
  intro L. unfold processMessageQueue.
  destruct (WS.messageQueue w) as [|m rest] eqn:Q.
  - rewrite Q. split; [reflexivity|]. exists []. now rewrite app_nil_r.
  - destruct (WS.privateConnected w); cbn [negb].
    + destruct outcome as [|code]; cbn [lossless] in L.
      * cbn [WS.sent WS.messageQueue]. split; [now rewrite <- app_assoc|]. now exists [m].
      * rewrite L. cbn [WS.sent WS.messageQueue]. split; [reflexivity|].
        exists []. now rewrite app_nil_r.
    + rewrite Q. split; [reflexivity|]. exists []. now rewrite app_nil_r.
Qed.

(** The ticker of the queue, over any number of firings.  As long as no
    send fails with [EPIPE] or [ECONNRESET], the messages already sent
    followed by those still queued stay the same list: none is lost,
    none is sent twice, none overtakes another.  While the private
    socket is down, nothing moves.  A send that fails with [EPIPE] or
    [ECONNRESET] drops the message at the head of the queue. *)
Theorem drainQueue_keeps_order (w : WS.t) (outcomes : list SendOutcome) :
  (forallb lossless outcomes = true ->
   WS.sent (drainQueue w outcomes) ++ WS.messageQueue (drainQueue w outcomes)
   = WS.sent w ++ WS.messageQueue w
   /\ exists newly, WS.sent (drainQueue w outcomes) = WS.sent w ++ newly)
  /\ (WS.privateConnected w = false -> drainQueue w outcomes = w)
  /\ (forall code message rest,
         WS.privateConnected w = true ->
         WS.messageQueue w = message :: rest ->
         isTemporaryError code = false ->
         WS.sent (processMessageQueue w (SendThrows code)) = WS.sent w
         /\ WS.messageQueue (processMessageQueue w (SendThrows code)) = rest).
Proof.
  split; [|split].
  - revert w. induction outcomes as [|o r IH]; intros w L; simpl.
    + split; [reflexivity|]. exists []. now rewrite app_nil_r.
    + simpl in L. apply andb_true_iff in L. destruct L as [Lo Lr].
      destruct (IH (processMessageQueue w o) Lr) as [Hc [n1 Hs]].
      destruct (processMessageQueue_lossless w o Lo) as [Hc0 [n0 Hs0]].
      split; [now rewrite Hc|].
      exists (n0 ++ n1). unfold drainQueue in Hs. simpl in Hs.
      unfold drainQueue. rewrite Hs, Hs0. now rewrite app_assoc.
  - intro D. induction outcomes as [|o r IH]; simpl; [reflexivity|].
    assert (E : processMessageQueue w o = w).
    { unfold processMessageQueue. destruct (WS.messageQueue w); [reflexivity|].
      now rewrite D. }
    rewrite E. exact IH.
  - intros code message rest C Q T. unfold processMessageQueue.
    rewrite Q, C, T. cbn. now split.
Qed.

Lemma drain_all w queue :
  WS.privateConnected w = true ->
  WS.messageQueue w = queue ->
  forall extra,
    let w' := drainQueue w (repeat SendReturns (length queue + extra)) in
    WS.sent w' = WS.sent w ++ queue /\ WS.messageQueue w' = []
    /\ WS.privateConnected w' = true /\ WS.isAuthenticated w' = WS.isAuthenticated w.
Proof.
  revert w. induction queue as [|m rest IH]; intros w C Q extra; cbv zeta.
  - simpl. induction extra as [|e IHe]; simpl.
    + rewrite app_nil_r. now repeat split.
    + assert (E : processMessageQueue w SendReturns = w)
        by (unfold processMessageQueue; now rewrite Q).
      unfold drainQueue in *. simpl. now rewrite E.
  - simpl. unfold drainQueue. simpl.
    assert (E : processMessageQueue w SendReturns
                = WS.mk (WS.privateConnected w) (WS.isAuthenticated w)
                    (WS.sent w ++ [m]) rest)
      by (unfold processMessageQueue; now rewrite Q, C).
    rewrite E.
    destruct (IH (WS.mk (WS.privateConnected w) (WS.isAuthenticated w)
                    (WS.sent w ++ [m]) rest) C eq_refl extra)
      as [Hs [Hq [Hc Ha]]].
    unfold drainQueue in Hs, Hq, Hc, Ha. cbn [WS.sent WS.isAuthenticated] in Hs, Ha.
    rewrite Hs, Hq, Hc, Ha. rewrite <- app_assoc. now repeat split.
Qed.

(** A cancellation requested with [cancelOrder] while the socket is
    ready, then the ticker firing more often than the queue was long,
    every send returning: the store is untouched, the counter of
    cancellations grows by one, and what has been written to the socket
    is what was written before, then the messages that were waiting, in
    their order, then the cancellation; the queue is empty. *)
Theorem cancelOrder_is_sent_in_turn (b : Bot) (clientOid : string) (firings : nat) :
  WS.ready (ws b) = true ->
  (length (WS.messageQueue (ws b)) < firings)%nat ->
  cache (fst (cancelOrder b clientOid)) = cache b
  /\ snd (cancelOrder b clientOid) = true
  /\ ordersCancelled (stats (fst (cancelOrder b clientOid)))
     = S (ordersCancelled (stats b))
  /\ WS.sent (ws (fst (cancelOrder b clientOid))) = WS.sent (ws b)
  /\ WS.sent (drainQueue (ws (fst (cancelOrder b clientOid))) (repeat SendReturns firings))
     = WS.sent (ws b) ++ WS.messageQueue (ws b) ++ [CancelOrderMsg clientOid]
  /\ WS.messageQueue
       (drainQueue (ws (fst (cancelOrder b clientOid))) (repeat SendReturns firings))
     = [].
Proof.
  intros R Hn.
  assert (C : WS.privateConnected (ws b) = true).
  { unfold WS.ready in R. apply andb_true_iff in R. tauto. }
  rewrite RecoveryFacts.cancelOrder_ready by assumption.
  unfold cancelOrder, WS.cancelOrder. rewrite R. cbn [negb fst snd cache stats ws
    ordersCancelled WS.sent WS.queueMessage].
  split; [reflexivity|]. split; [reflexivity|]. split; [reflexivity|].
  split; [reflexivity|].
  set (w1 := WS.mk (WS.privateConnected (ws b)) (WS.isAuthenticated (ws b))
               (WS.sent (ws b)) (WS.messageQueue (ws b) ++ [CancelOrderMsg clientOid])).
  assert (Hlen : firings
                 = (length (WS.messageQueue (ws b) ++ [CancelOrderMsg clientOid])
                    + (firings - S (length (WS.messageQueue (ws b)))))%nat)
    by (rewrite length_app; simpl; lia).
  rewrite Hlen.
  destruct (@drain_all w1 _ C eq_refl (firings - S (length (WS.messageQueue (ws b))))%nat)
    as [Hs [Hq _]].
  cbn [WS.messageQueue w1] in Hs, Hq. unfold w1 in Hs, Hq.
  cbn [WS.messageQueue WS.sent] in Hs, Hq. now split.
Qed.

(** A cancellation behind one that is waiting, two firings of the
    ticker. *)
Lemma cancelOrder_is_sent_in_turn_witness :
  WS.ready (ws botWithQueuedCancel) = true
  /\ (length (WS.messageQueue (ws botWithQueuedCancel)) < 2)%nat
  /\ WS.sent (drainQueue (ws (fst (cancelOrder botWithQueuedCancel "buy_1")))
                (repeat SendReturns 2))
     = [CancelOrderMsg "buy_0"; CancelOrderMsg "buy_1"]
  /\ WS.messageQueue
       (drainQueue (ws (fst (cancelOrder botWithQueuedCancel "buy_1")))
          (repeat SendReturns 2))
     = [].
Proof.
  split; [reflexivity|]. split; [cbn; lia|].
  destruct (@cancelOrder_is_sent_in_turn botWithQueuedCancel "buy_1"%string 2%nat
              eq_refl ltac:(cbn; lia))
    as (_ & _ & _ & _ & Hsent & Hqueue).
  split; [exact Hsent | exact Hqueue].
Defined.

Lemma placeBulk_fold orders acc :
  fold_left
    (fun (a : WS.t * nat) (order : string * Side * JS.num * JS.num) =>
       let '(clientOid, side, p, sz) := order in
       (WS.send (fst a) (PlaceOrderMsg clientOid side p sz), S (snd a)))
    orders acc
  = (WS.mk (WS.privateConnected (fst acc)) (WS.isAuthenticated (fst acc))
       (WS.sent (fst acc)
        ++ map (fun order : string * Side * JS.num * JS.num =>
                  let '(clientOid, side, p, sz) := order in
                  PlaceOrderMsg clientOid side p sz) orders)
       (WS.messageQueue (fst acc)),
     (snd acc + length orders)%nat).
Proof.
  revert acc. induction orders as [|[[[k sd] p] sz] r IH]; intros [w n]; simpl.
  - rewrite app_nil_r. destruct w. simpl. f_equal. lia.
  - rewrite IH. simpl. rewrite <- app_assoc. simpl. f_equal. lia.
Qed.

(** The two bulk sends.  On a socket that is ready every order of the
    batch is written, in the order of the batch, and the count returned
    is the length of the batch; the throttled queue is not used.  On a
    socket that is not ready nothing is written and the count is zero. *)
Theorem bulk_sends_write_the_batch (w : WS.t)
    (orders : list (string * Side * JS.num * JS.num)) (clientOids : list string) :
  (WS.ready w = true ->
   snd (WS.placeBulkOrders w orders) = length orders
   /\ WS.sent (fst (WS.placeBulkOrders w orders))
      = WS.sent w
        ++ map (fun order : string * Side * JS.num * JS.num =>
                  let '(clientOid, side, p, sz) := order in
                  PlaceOrderMsg clientOid side p sz) orders
   /\ WS.messageQueue (fst (WS.placeBulkOrders w orders)) = WS.messageQueue w
   /\ snd (WS.cancelBulkOrders w clientOids) = length clientOids
   /\ WS.sent (fst (WS.cancelBulkOrders w clientOids))
      = WS.sent w ++ map CancelOrderMsg clientOids
   /\ WS.messageQueue (fst (WS.cancelBulkOrders w clientOids)) = WS.messageQueue w)
  /\ (WS.ready w = false ->
      WS.placeBulkOrders w orders = (w, 0%nat)
      /\ WS.cancelBulkOrders w clientOids = (w, 0%nat)).
Proof.
  split; intro R.
  - unfold WS.placeBulkOrders. rewrite R. cbn [negb]. rewrite placeBulk_fold.
    rewrite EnforceFacts.cancelBulkOrders_ready by assumption.
    cbn [fst snd WS.sent WS.messageQueue]. now repeat split.
  - unfold WS.placeBulkOrders, WS.cancelBulkOrders. rewrite R. now split.
Qed.

End QueueFacts.

(* ================================================================== *)
(** * More on the state store *)

Module CacheFacts.
Import JSMapFacts.

Section MapRoundTrip.
Variables K V : Type.
Variable eqb : K -> K -> bool.
Hypothesis eqb_eq : forall a b, eqb a b = true <-> a = b.

Lemma set_fresh (m : JSMap.t K V) k v :
  JSMap.get eqb m k = None -> JSMap.set eqb m k v = m ++ [(k, v)].
Proof.
  induction m as [|[k0 v0] r IH]; simpl; [reflexivity|].
  destruct (eqb k0 k); [discriminate|]. intro H. f_equal. auto.
Qed.

Lemma delete_set_fresh (m : JSMap.t K V) k v :
  JSMap.get eqb m k = None -> JSMap.delete eqb (JSMap.set eqb m k v) k = m.
Proof.
  induction m as [|[k0 v0] r IH]; simpl.
  - intros _. now rewrite (eqb_refl eqb eqb_eq).
  - destruct (eqb k0 k) eqn:E; [discriminate|]. intro H. simpl. rewrite E.
    f_equal. auto.
Qed.

Lemma has_false_get (m : JSMap.t K V) k :
  JSMap.has eqb m k = false -> JSMap.get eqb m k = None.
Proof. unfold JSMap.has. now destruct (JSMap.get eqb m k). Qed.

End MapRoundTrip.

(** Adding a record under a key that is free and removing it again gives
    back the store as it was, and the removal hands back the record
    that was added: for a buy order, for a sell order (a bare string is
    handed back as the pending object made of it) and for a filled
    buy. *)
Theorem add_then_remove_restores (c : CacheManager) :
  (forall clientOid p sz now,
      bget (buyCurrentOrders c) clientOid = None ->
      removeBuyOrder (addBuyOrder c clientOid p sz now) clientOid
      = (c, Some (mkBuyOrder p sz STATUS_PENDING now)))
  /\ (forall p o now,
        nhas (sellCurrentOrders c) p = false ->
        removeSellOrder (addSellOrder c p (SellObject o) now) p = (c, Some (SellObject o)))
  /\ (forall p clientOid now,
        nhas (sellCurrentOrders c) p = false ->
        removeSellOrder (addSellOrder c p (SellString clientOid) now) p
        = (c, Some (SellObject (mkSellOrder clientOid None None STATUS_PENDING now))))
  /\ (forall p details,
        nhas (buyFilledOrders c) p = false ->
        removeFilledBuyOrder (addFilledBuyOrder c p details) p = (c, Some details)).
Proof.
  destruct c as [buys sells filled lp lt].
  split; [|split; [|split]].
  - intros k p sz now H. cbn in H.
    unfold removeBuyOrder, addBuyOrder. cbn [buyCurrentOrders with_buys].
    rewrite (get_set_same String.eqb String.eqb_eq).
    unfold with_buys. cbn.
    now rewrite (delete_set_fresh String.eqb String.eqb_eq _ _ _ H).
  - intros p o now H. apply has_false_get in H. cbn in H.
    unfold removeSellOrder, addSellOrder. cbn [sellCurrentOrders with_sells].
    rewrite (get_set_same JS.same JSFacts.same_eq).
    unfold with_sells. cbn.
    now rewrite (delete_set_fresh JS.same JSFacts.same_eq _ _ _ H).
  - intros p k now H. apply has_false_get in H. cbn in H.
    unfold removeSellOrder, addSellOrder. cbn [sellCurrentOrders with_sells].
    rewrite (get_set_same JS.same JSFacts.same_eq).
    unfold with_sells. cbn.
    now rewrite (delete_set_fresh JS.same JSFacts.same_eq _ _ _ H).
  - intros p d H. apply has_false_get in H. cbn in H.
    unfold removeFilledBuyOrder, addFilledBuyOrder. cbn [buyFilledOrders with_filled].
    rewrite (get_set_same JS.same JSFacts.same_eq).
    unfold with_filled. cbn.
    now rewrite (delete_set_fresh JS.same JSFacts.same_eq _ _ _ H).
Qed.

Lemma find_In_key (m : JSMap.t JS.num SellInfo) clientOid p orderInfo :
  findSellByOid m clientOid = Some (p, orderInfo) ->
  In (p, orderInfo) m /\ sellClientOid orderInfo = clientOid.
Proof.
  unfold findSellByOid. intro H. apply find_some in H. destruct H as [Hin He].
  simpl in He. apply String.eqb_eq in He. now split.
Qed.

Lemma find_none_oid (m : JSMap.t JS.num SellInfo) clientOid :
  findSellByOid m clientOid = None <->
  forall p orderInfo, In (p, orderInfo) m -> sellClientOid orderInfo <> clientOid.
Proof.
  unfold findSellByOid. split.
  - intros H p i Hin E. pose proof (find_none _ _ H _ Hin) as F. simpl in F.
    apply String.eqb_neq in F. contradiction.
  - intro H. destruct (find _ m) as [[p i]|] eqn:F; [|reflexivity].
    apply find_some in F. destruct F as [Hin He]. simpl in He.
    apply String.eqb_eq in He. exfalso. exact (H p i Hin He).
Qed.

Lemma In_has (m : JSMap.t JS.num SellInfo) p orderInfo :
  In (p, orderInfo) m -> nhas m p = true.
Proof.
  intro Hin. unfold JSMap.has.
  destruct (nget m p) eqn:G; [reflexivity|].
  apply (get_None_keys JS.same JSFacts.same_eq) in G. exfalso. apply G.
  change p with (fst (p, orderInfo)). now apply in_map.
Qed.

(** [updateOrderStatus] on the sell side.  It answers [true] exactly
    when some sell entry carries the identifier.  Then the entry at the
    price where the identifier is first found becomes an object with
    that identifier and the new status (a bare string is turned into an
    object), every other price keeps its entry, no price is added or
    removed, and the buy orders and filled buys are untouched.  With no
    such entry, and for a side that is neither buy nor sell, nothing
    changes. *)
Theorem updateOrderStatus_sell (c : CacheManager) (clientOid st : string) (now : Z) :
  (snd (updateOrderStatus c clientOid st Sell now) = true <->
   exists p orderInfo,
     In (p, orderInfo) (sellCurrentOrders c) /\ sellClientOid orderInfo = clientOid)
  /\ (snd (updateOrderStatus c clientOid st Sell now) = false ->
      updateOrderStatus c clientOid st Sell now = (c, false))
  /\ updateOrderStatus c clientOid st OtherSide now = (c, false)
  /\ (forall p orderInfo,
         findSellByOid (sellCurrentOrders c) clientOid = Some (p, orderInfo) ->
         let c' := fst (updateOrderStatus c clientOid st Sell now) in
         (exists o, nget (sellCurrentOrders c') p = Some (SellObject o)
                    /\ s_clientOid o = clientOid /\ s_status o = st)
         /\ (forall q, q <> p -> nget (sellCurrentOrders c') q = nget (sellCurrentOrders c) q)
         /\ JSMap.keys (sellCurrentOrders c') = JSMap.keys (sellCurrentOrders c)
         /\ buyCurrentOrders c' = buyCurrentOrders c
         /\ buyFilledOrders c' = buyFilledOrders c).
Proof.
  split; [|split; [|split]].
  - unfold updateOrderStatus.
    destruct (findSellByOid (sellCurrentOrders c) clientOid) as [[p [id|o]]|] eqn:F.
    + cbn [snd]. split; [intros _|reflexivity].
      apply find_In_key in F. exists p, (SellString id). exact F.
    + cbn [snd]. split; [intros _|reflexivity].
      apply find_In_key in F. exists p, (SellObject o). exact F.
    + cbn [snd]. split; [discriminate|]. intros [p [i [Hin He]]].
      exfalso. exact (proj1 (find_none_oid _ _) F p i Hin He).
  - unfold updateOrderStatus.
    destruct (findSellByOid (sellCurrentOrders c) clientOid) as [[p [id|o]]|];
      cbn [snd]; try discriminate. reflexivity.
  - reflexivity.
  - intros p i F. cbv zeta. unfold updateOrderStatus. rewrite F.
    destruct (find_In_key _ _ F) as [Hin He].
    pose proof (In_has _ _ _ Hin) as Hhas.
    destruct i as [id|o]; cbn [fst sellCurrentOrders buyCurrentOrders buyFilledOrders
                                with_sells].
    + split; [|split; [|split; [|now split]]].
      * eexists. split; [apply (get_set_same JS.same JSFacts.same_eq)|].
        cbn. now split.
      * intros q Hq. now apply (get_set_other JS.same JSFacts.same_eq).
      * rewrite keys_set. now rewrite Hhas.
    + split; [|split; [|split; [|now split]]].
      * eexists. split; [apply (get_set_same JS.same JSFacts.same_eq)|].
        cbn. now split.
      * intros q Hq. now apply (get_set_other JS.same JSFacts.same_eq).
      * rewrite keys_set. now rewrite Hhas.
Qed.

Lemma StronglySorted_impl (A : Type) (R R' : A -> A -> Prop) (l : list A) :
  (forall a b, R a b -> R' a b) -> StronglySorted R l -> StronglySorted R' l.
Proof.
  intros H S. induction S as [|a r Sr IH Fa]; constructor; [assumption|].
  eapply Forall_impl; [|exact Fa]. intros b Hb. now apply H.
Qed.

(** [getActiveBuyOrdersSortedByDistance] returns the live buy orders,
    each one once and nothing else, and no order in the array is
    farther from the target price than an order before it. *)
Theorem getActiveBuyOrdersSortedByDistance_sorted (c : CacheManager) (targetPrice : Z) :
  Permutation (getActiveBuyOrdersSortedByDistance c targetPrice)
    (filter (fun e => String.eqb (status (snd e)) STATUS_LIVE) (buyCurrentOrders c))
  /\ StronglySorted
       (fun a b => (Z.abs (price (snd b) - targetPrice)
                    <= Z.abs (price (snd a) - targetPrice))%Z)
       (getActiveBuyOrdersSortedByDistance c targetPrice).
Proof.
  split.
  - apply SortFacts.sort_perm.
  - eapply StronglySorted_impl; [|apply RecoveryFacts.active_sorted].
    intros a b. unfold key_le, negDistance. lia.
Qed.

Lemma filter_filter_same (A : Type) (f : A -> bool) (l : list A) :
  filter f (filter f l) = filter f l.
Proof.
  induction l as [|a r IH]; simpl; [reflexivity|].
  destruct (f a) eqn:E; simpl; [rewrite E; now f_equal | assumption].
Qed.

Lemma filter_neg_nil (A : Type) (f : A -> bool) (l : list A) :
  filter f (filter (fun x => negb (f x)) l) = [].
Proof.
  induction l as [|a r IH]; simpl; [reflexivity|].
  destruct (f a) eqn:E; simpl; [assumption | now rewrite E].
Qed.

(** Cleaning a second time at the same instant with the same limit
    removes nothing: the store is the one the first cleaning left and
    the number returned is zero. *)
Theorem cleanPendingOrders_twice (c : CacheManager) (maxPendingTimeMs now : Z) :
  wellFormed c = true ->
  cleanPendingOrders (fst (cleanPendingOrders c maxPendingTimeMs now)) maxPendingTimeMs now
  = (fst (cleanPendingOrders c maxPendingTimeMs now), 0%nat).
Proof.
  intro Hwf.
  pose proof (WellFormedFacts.cleanPendingOrders_wf c maxPendingTimeMs now Hwf) as Hwf'.
  rewrite (StoreFacts.cleanPendingOrders_filter _ _ _ Hwf').
  rewrite (StoreFacts.cleanPendingOrders_filter _ _ _ Hwf).
  cbn [fst buyCurrentOrders sellCurrentOrders buyFilledOrders lastPrice lastPriceTimestamp].
  rewrite !filter_filter_same.
  rewrite (filter_neg_nil (fun e : string * BuyOrder => buyExpired now maxPendingTimeMs (snd e))).
  rewrite (filter_neg_nil (fun e : JS.num * SellInfo => sellExpired now maxPendingTimeMs (snd e))).
  reflexivity.
Qed.

Lemma cleanPendingOrders_twice_witness :
  wellFormed cacheWithStaleOrders = true
  /\ cleanPendingOrders (fst (cleanPendingOrders cacheWithStaleOrders 1500 5000)) 1500 5000
     = (fst (cleanPendingOrders cacheWithStaleOrders 1500 5000), 0%nat).
Proof.
  split; [reflexivity|].
  apply (@cleanPendingOrders_twice cacheWithStaleOrders 1500 5000). reflexivity.
Defined.

End CacheFacts.

(* ================================================================== *)
(** * More on the order reports *)

Module HandlerFacts.
Import JSMapFacts.

Lemma prefix_buy_tag tag : String.prefix "buy_" ("buy_" ++ tag) = true.
Proof. vm_compute. now destruct tag. Qed.

Lemma prefix_sell_tag tag : String.prefix "sell_" ("sell_" ++ tag) = true.
Proof. vm_compute. now destruct tag. Qed.

Lemma cancelled_not_filled st : isCancelled st = true -> String.eqb st STATUS_FILLED = false.
Proof.
  unfold isCancelled. intro H. apply orb_true_iff in H.
  destruct H as [H|H]; apply String.eqb_eq in H; subst; reflexivity.
Qed.

Section Reports.
Variable config : Config.

(** Reports that [handleOrderUpdate] drops without touching anything:
    one without a client identifier; one whose identifier starts with
    neither [buy_] nor [sell_]; one on a buy order with a status other
    than [live], [filled], [cancelled] and [canceled]; one on a sell
    order with a status other than [filled], [cancelled] and
    [canceled], the status [live] included. *)
Theorem handleOrderUpdate_ignores (b : Bot) (order : OrderUpdate) (now : Z) (tag : string) :
  (u_clientOid order = ""%string -> handleOrderUpdate config b order now tag = b)
  /\ (String.prefix "buy_" (u_clientOid order) = false ->
      String.prefix "sell_" (u_clientOid order) = false ->
      handleOrderUpdate config b order now tag = b)
  /\ (String.prefix "buy_" (u_clientOid order) = true ->
      u_status order <> STATUS_LIVE -> u_status order <> STATUS_FILLED ->
      u_status order <> STATUS_CANCELLED -> u_status order <> STATUS_CANCELED ->
      handleOrderUpdate config b order now tag = b)
  /\ (String.prefix "sell_" (u_clientOid order) = true ->
      u_status order <> STATUS_FILLED ->
      u_status order <> STATUS_CANCELLED -> u_status order <> STATUS_CANCELED ->
      handleOrderUpdate config b order now tag = b).
Proof.
  unfold handleOrderUpdate, isCancelled. split; [|split; [|split]].
  - intros ->. reflexivity.
  - intros Hb Hs. rewrite Hb, Hs. now destruct (String.eqb (u_clientOid order) "").
  - intros Hb Hl Hf Hc Hc'.
    apply String.eqb_neq in Hl, Hf, Hc, Hc'.
    rewrite (FillFacts.prefix_buy_nonempty _ Hb), Hb, Hl, Hf, Hc, Hc'. reflexivity.
  - intros Hs Hf Hc Hc'.
    apply String.eqb_neq in Hf, Hc, Hc'.
    rewrite (FillFacts.prefix_sell_nonempty _ Hs), (FillFacts.prefix_sell_not_buy _ Hs),
      Hs, Hf, Hc, Hc'. reflexivity.
Qed.

(** The same buy-fill report handled twice, the socket ready: two sell
    placements go out at the same price for the same size, the counter
    of buy fills grows by two, and the sell map holds at that price only
    the record of the second placement, with no price added by the
    second report. *)
Theorem repeated_fill_places_two_sells (b : Bot) (order : OrderUpdate)
    (now1 now2 : Z) (tag1 tag2 : string) :
  String.prefix "buy_" (u_clientOid order) = true ->
  u_status order = STATUS_FILLED ->
  JS.truthy (u_price order) = true ->
  JS.truthy (filledSizeOf order) = true ->
  WS.ready (ws b) = true ->
  let sellPrice :=
    JS.toFixed (JS.add (u_price order) (JS.Num (priceStep config)))
      (pricePrecision config) in
  let b1 := handleOrderUpdate config b order now1 tag1 in
  let b2 := handleOrderUpdate config b1 order now2 tag2 in
  WS.sent (ws b2)
  = WS.sent (ws b)
    ++ [ PlaceOrderMsg ("sell_" ++ tag1) Sell sellPrice (filledSizeOf order);
         PlaceOrderMsg ("sell_" ++ tag2) Sell sellPrice (filledSizeOf order) ]
  /\ buyOrdersFilled (stats b2) = S (S (buyOrdersFilled (stats b)))
  /\ nget (sellCurrentOrders (cache b2)) sellPrice
     = Some (SellObject (mkSellOrder ("sell_" ++ tag2) (Some sellPrice)
                           (Some (filledSizeOf order)) STATUS_PENDING now2))
  /\ JSMap.keys (sellCurrentOrders (cache b2)) = JSMap.keys (sellCurrentOrders (cache b1)).
Proof.
  intros Hpre Hst Hp Hs R. cbv zeta.
  rewrite (FillFacts.handleOrderUpdate_buy_filled config b order now1 tag1 Hpre Hst Hp Hs R).
  match goal with
  | |- context [handleOrderUpdate config ?b1 order now2 tag2] =>
      assert (R1 : WS.ready (ws b1) = true) by exact R;
      rewrite (FillFacts.handleOrderUpdate_buy_filled config b1 order now2 tag2
                 Hpre Hst Hp Hs R1)
  end.
  cbn [cache ws stats WS.send WS.sent buyOrdersFilled sellCurrentOrders].
  split; [now rewrite <- app_assoc|]. split; [reflexivity|].
  split; [apply (get_set_same JS.same JSFacts.same_eq)|].
  rewrite keys_set. unfold JSMap.has.
  now rewrite (get_set_same JS.same JSFacts.same_eq).
Qed.

(** A cancellation report on a sell order.  The entry where the
    identifier is first found leaves the sell map; no entry means no
    change.  In both cases the buy orders, the filled buys, the
    statistics and the socket are as before: no sell is placed again,
    and a level whose filled buy is on record still refuses a buy. *)
Theorem sell_cancel_keeps_inventory (b : Bot) (order : OrderUpdate) (now : Z) (tag : string) :
  String.prefix "sell_"%string (u_clientOid order) = true ->
  isCancelled (u_status order) = true ->
  let b' := handleOrderUpdate config b order now tag in
  buyFilledOrders (cache b') = buyFilledOrders (cache b)
  /\ buyCurrentOrders (cache b') = buyCurrentOrders (cache b)
  /\ ws b' = ws b
  /\ stats b' = stats b
  /\ (forall p orderInfo,
         findSellByOid (sellCurrentOrders (cache b)) (u_clientOid order)
         = Some (p, orderInfo) ->
         sellCurrentOrders (cache b') = ndelete (sellCurrentOrders (cache b)) p)
  /\ (findSellByOid (sellCurrentOrders (cache b)) (u_clientOid order) = None -> b' = b)
  /\ (forall P, nhas (buyFilledOrders (cache b)) (JS.Num P) = true ->
                canPlaceOrder (cache b') P (priceStep config) = false).
Proof.
  intros Hpre Hc. cbv zeta.
  assert (E : handleOrderUpdate config b order now tag
              = match findSellByOid (sellCurrentOrders (cache b)) (u_clientOid order) with
                | Some (sellPrice, _) =>
                    with_cache b (fst (removeSellOrder (cache b) sellPrice))
                | None => b
                end).
  { unfold handleOrderUpdate.
    rewrite (FillFacts.prefix_sell_nonempty _ Hpre), (FillFacts.prefix_sell_not_buy _ Hpre),
      Hpre, (cancelled_not_filled _ Hc), Hc. reflexivity. }
  rewrite E.
  assert (Hf : buyFilledOrders
                 (cache match findSellByOid (sellCurrentOrders (cache b)) (u_clientOid order) with
                        | Some (sellPrice, _) =>
                            with_cache b (fst (removeSellOrder (cache b) sellPrice))
                        | None => b
                        end) = buyFilledOrders (cache b)).
  { destruct (findSellByOid _ _) as [[q i]|]; [|reflexivity].
    cbn [cache with_cache]. apply FillFacts.removeSellOrder_filled. }
  split; [exact Hf|].
  split.
  { destruct (findSellByOid _ _) as [[q i]|]; [|reflexivity].
    cbn [cache with_cache]. apply InvariantFacts.removeSellOrder_buys. }
  split; [now destruct (findSellByOid _ _) as [[q i]|]|].
  split; [now destruct (findSellByOid _ _) as [[q i]|]|].
  split.
  { intros p i F. rewrite F. cbn [cache with_cache]. apply FillFacts.removeSellOrder_sells. }
  split; [now intros ->|].
  intros P HP. unfold canPlaceOrder. rewrite Hf, HP.
  destruct (buyAtPrice _ P); [reflexivity|].
  now destruct (nhas _ (JS.Num (P + priceStep config))).
Qed.

Lemma placeBuyOrder_accepted b p now tag :
  canPlaceOrder (cache b) p (priceStep config) = true ->
  placeBuyOrder config b p now tag
  = (mkBot
       (addBuyOrder (cache b) ("buy_" ++ tag)%string p (calculateOrderSize config (JS.Num p)) now)
       (fst (WS.placeOrder (ws b) ("buy_" ++ tag)%string Buy (JS.Num p)
               (calculateOrderSize config (JS.Num p))))
       (mkStats (S (ordersPlaced (stats b))) (ordersCancelled (stats b))
          (buyOrdersFilled (stats b)) (sellOrdersFilled (stats b)))
       (recovery b),
     Some ("buy_" ++ tag)%string).
Proof. intro H. unfold placeBuyOrder. now rewrite H. Qed.

(** A whole cycle, for a price [P] and a step that are whole numbers
    below [2^52], where the code's sum [P + step] and the subtraction
    that gives [P] back are exact.  A buy is placed at a free level [P]
    under a fresh identifier, its fill is reported for a size [sz], and
    the fill of the sell at [P + step] is reported: the store is again
    the store from before the placement; two placements were written to
    the socket, the buy and then the sell for [sz]; and the statistics
    count two orders placed, one buy filled, one sell filled. *)
Theorem buy_sell_cycle_restores_store (b : Bot) (P wholePrice wholeStep : Z) (sz : JS.num)
    (now1 now2 now3 : Z) (tag1 tag2 tag3 orderId1 orderId2 : string) :
  P = (wholePrice * JS.SCALE)%Z ->
  priceStep config = (wholeStep * JS.SCALE)%Z ->
  (0 <= wholePrice < 2 ^ 52)%Z ->
  (0 <= wholeStep < 2 ^ 52)%Z ->
  WS.ready (ws b) = true ->
  canPlaceOrder (cache b) P (priceStep config) = true ->
  bget (buyCurrentOrders (cache b)) ("buy_" ++ tag1)%string = None ->
  P <> 0%Z ->
  JS.truthy sz = true ->
  JS.toFixed (JS.Num (P + priceStep config)) (pricePrecision config)
  = JS.Num (P + priceStep config) ->
  let b1 := fst (placeBuyOrder config b P now1 tag1) in
  let b2 := handleOrderUpdate config b1
              (mkOrderUpdate ("buy_" ++ tag1)%string STATUS_FILLED (JS.Num P) sz None orderId1)
              now2 tag2 in
  let b3 := handleOrderUpdate config b2
              (mkOrderUpdate ("sell_" ++ tag2)%string STATUS_FILLED
                 (JS.Num (P + priceStep config)) sz None orderId2)
              now3 tag3 in
  cache b3 = cache b
  /\ WS.sent (ws b3)
     = WS.sent (ws b)
       ++ [ PlaceOrderMsg ("buy_" ++ tag1)%string Buy (JS.Num P)
              (calculateOrderSize config (JS.Num P));
            PlaceOrderMsg ("sell_" ++ tag2)%string Sell (JS.Num (P + priceStep config)) sz ]
  /\ stats b3
     = mkStats (S (S (ordersPlaced (stats b)))) (ordersCancelled (stats b))
         (S (buyOrdersFilled (stats b))) (S (sellOrdersFilled (stats b)))
  /\ canPlaceOrder (cache b2) P (priceStep config) = false.
Proof.
  intros HwP HwS HbP HbS R Hcan Hfresh HP Hsz Hfix. cbv zeta.
  assert (Hback : JS.sub (JS.Num (P + priceStep config)) (JS.Num (priceStep config))
                  = JS.Num P) by (cbn [JS.sub]; f_equal; lia).
  rewrite (placeBuyOrder_accepted b P now1 tag1 Hcan). cbn [fst].
  apply InvariantFacts.canPlaceOrder_true in Hcan. destruct Hcan as [_ [Hs Hf]].
  apply CacheFacts.has_false_get in Hs, Hf.
  unfold WS.placeOrder. rewrite R. cbn [negb fst].
  set (order1 := mkOrderUpdate ("buy_" ++ tag1)%string STATUS_FILLED (JS.Num P) sz None orderId1).
  set (order2 := mkOrderUpdate ("sell_" ++ tag2)%string STATUS_FILLED
                   (JS.Num (P + priceStep config)) sz None orderId2).
  assert (Htp : JS.truthy (u_price order1) = true).
  { cbn. apply negb_true_iff. now apply Z.eqb_neq. }
  match goal with
  | |- context [handleOrderUpdate config ?b1 order1 now2 tag2] =>
      assert (R1 : WS.ready (ws b1) = true) by exact R;
      rewrite (FillFacts.handleOrderUpdate_buy_filled config b1 order1 now2 tag2
                 (prefix_buy_tag tag1) eq_refl Htp Hsz R1)
  end.
  cbn [u_price u_clientOid u_orderId filledSizeOf u_newSize u_size order1 JS.add].
  rewrite Hfix.
  cbn [cache ws stats recovery addBuyOrder with_buys buyCurrentOrders sellCurrentOrders
       buyFilledOrders lastPrice lastPriceTimestamp].
  split; [|split; [|split]].
  - rewrite (FillFacts.handleOrderUpdate_sell_filled config _ order2 now3 tag3
               (prefix_sell_tag tag2) eq_refl).
    cbn [cache u_price order2 buyCurrentOrders sellCurrentOrders buyFilledOrders
         lastPrice lastPriceTimestamp].
    rewrite Hback.
    rewrite (CacheFacts.delete_set_fresh String.eqb String.eqb_eq _ _ _ Hfresh).
    rewrite (CacheFacts.delete_set_fresh JS.same JSFacts.same_eq _ _ _ Hs).
    rewrite (CacheFacts.delete_set_fresh JS.same JSFacts.same_eq _ _ _ Hf).
    now destruct (cache b).
  - rewrite (FillFacts.handleOrderUpdate_sell_filled config _ order2 now3 tag3
               (prefix_sell_tag tag2) eq_refl).
    cbn [ws WS.send WS.sent]. now rewrite <- app_assoc.
  - rewrite (FillFacts.handleOrderUpdate_sell_filled config _ order2 now3 tag3
               (prefix_sell_tag tag2) eq_refl).
    reflexivity.
  - unfold canPlaceOrder. cbn [buyFilledOrders].
    destruct (buyAtPrice _ P); [reflexivity|].
    destruct (nhas _ (JS.Num (P + priceStep config))); [reflexivity|].
    unfold JSMap.has. now rewrite (get_set_same JS.same JSFacts.same_eq).
Qed.

(** A placement that the venue turns down with code 429.  The record
    that [placeBuyOrder] wrote under a fresh identifier is dropped and
    the store is again the one from before the placement; the
    placement stays counted in [ordersPlaced]. *)
Theorem rate_limited_placement_is_undone (b : Bot) (p now : Z) (tag : string) :
  canPlaceOrder (cache b) p (priceStep config) = true ->
  bget (buyCurrentOrders (cache b)) ("buy_" ++ tag)%string = None ->
  let b1 := fst (placeBuyOrder config b p now tag) in
  cache (handleTooManyRequests b1 ("buy_" ++ tag)%string) = cache b
  /\ canPlaceOrder (cache b1) p (priceStep config) = false
  /\ canPlaceOrder (cache (handleTooManyRequests b1 ("buy_" ++ tag)%string)) p (priceStep config)
     = true
  /\ ordersPlaced (stats (handleTooManyRequests b1 ("buy_" ++ tag)%string))
     = S (ordersPlaced (stats b)).
Proof.
  intros Hcan Hfresh. cbv zeta.
  rewrite (placeBuyOrder_accepted b p now tag Hcan). cbn [fst].
  unfold handleTooManyRequests. rewrite prefix_buy_tag.
  cbn [cache with_cache stats ordersPlaced].
  assert (E : fst (removeBuyOrder
                     (addBuyOrder (cache b) ("buy_" ++ tag)%string p
                        (calculateOrderSize config (JS.Num p)) now) ("buy_" ++ tag)%string)
              = cache b).
  { unfold removeBuyOrder, addBuyOrder. cbn [buyCurrentOrders with_buys].
    rewrite (get_set_same String.eqb String.eqb_eq). cbn [fst with_buys buyCurrentOrders
      sellCurrentOrders buyFilledOrders lastPrice lastPriceTimestamp].
    rewrite (CacheFacts.delete_set_fresh String.eqb String.eqb_eq _ _ _ Hfresh).
    now destruct (cache b). }
  rewrite E. split; [reflexivity|]. split; [|now split].
  unfold canPlaceOrder.
  assert (Hb : buyAtPrice (addBuyOrder (cache b) ("buy_" ++ tag)%string p
                             (calculateOrderSize config (JS.Num p)) now) p = true).
  { unfold buyAtPrice, JSMap.values. apply existsb_exists.
    exists (mkBuyOrder p (calculateOrderSize config (JS.Num p)) STATUS_PENDING now).
    split; [|apply Z.eqb_refl].
    apply in_map_iff. exists (("buy_" ++ tag)%string,
                              mkBuyOrder p (calculateOrderSize config (JS.Num p))
                                STATUS_PENDING now).
    split; [reflexivity|].
    apply (get_In String.eqb String.eqb_eq). unfold addBuyOrder.
    cbn [buyCurrentOrders with_buys]. apply (get_set_same String.eqb String.eqb_eq). }
  now rewrite Hb.
Qed.

End Reports.

(** The fill of [buy_1] reported twice. *)
Lemma repeated_fill_places_two_sells_witness :
  String.prefix "buy_" (u_clientOid fillOfBuy1) = true
  /\ u_status fillOfBuy1 = STATUS_FILLED
  /\ JS.truthy (u_price fillOfBuy1) = true
  /\ JS.truthy (filledSizeOf fillOfBuy1) = true
  /\ WS.ready (ws botWithPendingBuy) = true
  /\ WS.sent (ws (handleOrderUpdate sampleConfig
                    (handleOrderUpdate sampleConfig botWithPendingBuy fillOfBuy1 2000
                       "2000_2")
                    fillOfBuy1 3000 "3000_3"))
     = [ PlaceOrderMsg "sell_2000_2" Sell (JS.Num (usd 10050)) (JS.Num 1000000);
         PlaceOrderMsg "sell_3000_3" Sell (JS.Num (usd 10050)) (JS.Num 1000000) ].
Proof.
  do 5 (split; [reflexivity|]).
  pose proof (@repeated_fill_places_two_sells sampleConfig botWithPendingBuy fillOfBuy1
                2000 3000 "2000_2"%string "3000_3"%string
                eq_refl eq_refl eq_refl eq_refl eq_refl) as H.
  cbv zeta in H. destruct H as [H _]. exact H.
Defined.

(** The sell at 10050 is cancelled: the buy at 10000 stays on record and
    the level stays closed. *)
Lemma sell_cancel_keeps_inventory_witness :
  String.prefix "sell_" (u_clientOid cancelOfSell) = true
  /\ isCancelled (u_status cancelOfSell) = true
  /\ buyFilledOrders
       (cache (handleOrderUpdate sampleConfig botWithOpenSell cancelOfSell 4000 "4000_4"))
     = buyFilledOrders (cache botWithOpenSell)
  /\ canPlaceOrder
       (cache (handleOrderUpdate sampleConfig botWithOpenSell cancelOfSell 4000 "4000_4"))
       (usd 10000) (priceStep sampleConfig)
     = false.
Proof.
  split; [reflexivity|]. split; [reflexivity|].
  pose proof (@sell_cancel_keeps_inventory sampleConfig botWithOpenSell cancelOfSell 4000
                "4000_4"%string eq_refl eq_refl) as H.
  cbv zeta in H. destruct H as (Hf & _ & _ & _ & _ & _ & Hc).
  split; [exact Hf|]. apply Hc. reflexivity.
Defined.

(** A buy at 10000, its fill, and the fill of its sell at 10050. *)
Lemma buy_sell_cycle_restores_store_witness :
  usd 10000 = (10000 * JS.SCALE)%Z
  /\ priceStep sampleConfig = (50 * JS.SCALE)%Z
  /\ WS.ready (ws readyBot) = true
  /\ canPlaceOrder (cache readyBot) (usd 10000) (priceStep sampleConfig) = true
  /\ bget (buyCurrentOrders (cache readyBot)) "buy_1000_1"%string = None
  /\ usd 10000 <> 0%Z
  /\ JS.truthy (JS.Num 1000000) = true
  /\ JS.toFixed (JS.Num (usd 10000 + priceStep sampleConfig)) (pricePrecision sampleConfig)
     = JS.Num (usd 10000 + priceStep sampleConfig)
  /\ cache
       (handleOrderUpdate sampleConfig
          (handleOrderUpdate sampleConfig
             (fst (placeBuyOrder sampleConfig readyBot (usd 10000) 1000 "1000_1"))
             (mkOrderUpdate "buy_1000_1" STATUS_FILLED (JS.Num (usd 10000))
                (JS.Num 1000000) None "unknown")
             2000 "2000_2")
          (mkOrderUpdate "sell_2000_2" STATUS_FILLED
             (JS.Num (usd 10000 + priceStep sampleConfig)) (JS.Num 1000000) None "unknown")
          3000 "3000_3")
     = cache readyBot.
Proof.
  assert (H0 : usd 10000 <> 0%Z) by (vm_compute; discriminate).
  do 5 (split; [reflexivity|]). split; [exact H0|]. do 2 (split; [reflexivity|]).
  pose proof (@buy_sell_cycle_restores_store sampleConfig readyBot (usd 10000)
                10000 50 (JS.Num 1000000) 1000 2000 3000 "1000_1"%string "2000_2"%string
                "3000_3"%string "unknown"%string "unknown"%string
                eq_refl eq_refl ltac:(lia) ltac:(lia)
                eq_refl eq_refl eq_refl H0 eq_refl eq_refl) as H.
  cbv zeta in H. destruct H as [H _]. exact H.
Defined.

(** A buy at 10000 that the venue turns down with code 429. *)
Lemma rate_limited_placement_is_undone_witness :
  canPlaceOrder (cache readyBot) (usd 10000) (priceStep sampleConfig) = true
  /\ bget (buyCurrentOrders (cache readyBot)) "buy_1000_1"%string = None
  /\ cache (handleTooManyRequests
              (fst (placeBuyOrder sampleConfig readyBot (usd 10000) 1000 "1000_1"))
              "buy_1000_1")
     = cache readyBot.
Proof.
  do 2 (split; [reflexivity|]).
  pose proof (@rate_limited_placement_is_undone sampleConfig readyBot (usd 10000) 1000
                "1000_1"%string eq_refl eq_refl) as H.
  cbv zeta in H. destruct H as [H _]. exact H.
Defined.

End HandlerFacts.

(* ================================================================== *)
(** * Placements, one by one and in batches *)

Module PlacementFacts.
Import JSMapFacts.

Lemma get_app_fresh (m m' : JSMap.t string BuyOrder) k :
  bget m k = None -> bget (m ++ m') k = bget m' k.
Proof.
  induction m as [|[k0 v0] r IH]; simpl; [reflexivity|].
  destruct (String.eqb k0 k); [discriminate | auto].
Qed.

Lemma buyAtPrice_app c c' p added :
  buyCurrentOrders c' = buyCurrentOrders c ++ added ->
  buyAtPrice c' p
  = buyAtPrice c p || existsb (fun order => (price order =? p)%Z) (map snd added).
Proof.
  unfold buyAtPrice, JSMap.values. intros ->. now rewrite map_app, existsb_app.
Qed.

Lemma canPlaceOrder_extends c c' p step added :
  buyCurrentOrders c' = buyCurrentOrders c ++ added ->
  sellCurrentOrders c' = sellCurrentOrders c ->
  buyFilledOrders c' = buyFilledOrders c ->
  canPlaceOrder c p step = false -> canPlaceOrder c' p step = false.
Proof.
  intros Hb Hs Hf. unfold canPlaceOrder.
  rewrite (@buyAtPrice_app c c' p added Hb), Hs, Hf.
  destruct (buyAtPrice c p); [reflexivity|]. simpl.
  destruct (existsb _ _); [reflexivity|]. auto.
Qed.

Lemma canPlaceOrder_other_price c c' p p' step k sz now :
  buyCurrentOrders c' = buyCurrentOrders c ++ [(k, mkBuyOrder p sz STATUS_PENDING now)] ->
  sellCurrentOrders c' = sellCurrentOrders c ->
  buyFilledOrders c' = buyFilledOrders c ->
  p' <> p ->
  canPlaceOrder c' p' step = canPlaceOrder c p' step.
Proof.
  intros Hb Hs Hf Hne. unfold canPlaceOrder.
  rewrite (@buyAtPrice_app c c' p' _ Hb), Hs, Hf. simpl.
  assert (E : (p =? p')%Z = false) by (apply Z.eqb_neq; congruence).
  rewrite E. simpl. now rewrite orb_false_r.
Qed.

Lemma canPlaceOrder_covered config c p :
  canPlaceOrder c p (priceStep config) = false <-> covered config c p.
Proof.
  unfold canPlaceOrder, covered.
  destruct (buyAtPrice c p); [split; [now left | reflexivity]|].
  destruct (nhas (sellCurrentOrders c) _); [split; [right; now left | reflexivity]|].
  destruct (nhas (buyFilledOrders c) _); [split; [right; now right | reflexivity]|].
  split; [discriminate|]. intros [H|[H|H]]; discriminate.
Qed.

Section Batches.
Variable config : Config.

(** The store and the statistics after [placed] has been recorded on
    top of [b]. *)
Lemma bulkBuy_fold now pricesData : forall b orders cnt,
  NoDup (buyIdsOf pricesData) ->
  (forall id, In id (buyIdsOf pricesData) -> bget (buyCurrentOrders (cache b)) id = None) ->
  exists placed b1,
    fold_left (bulkBuyStep config now) pricesData (b, orders, cnt)
    = (b1, orders ++ map (buyRequestOf config) placed, (cnt + length placed)%nat)
    /\ buyCurrentOrders (cache b1)
       = buyCurrentOrders (cache b) ++ map (buyRecordOf config now) placed
    /\ sellCurrentOrders (cache b1) = sellCurrentOrders (cache b)
    /\ buyFilledOrders (cache b1) = buyFilledOrders (cache b)
    /\ lastPrice (cache b1) = lastPrice (cache b)
    /\ ws b1 = ws b
    /\ recovery b1 = recovery b
    /\ stats b1
       = mkStats (ordersPlaced (stats b) + length placed) (ordersCancelled (stats b))
           (buyOrdersFilled (stats b)) (sellOrdersFilled (stats b))
    /\ incl placed pricesData
    /\ (forall pt, In pt pricesData ->
                   canPlaceOrder (cache b1) (fst pt) (priceStep config) = false)
    /\ (NoDup (map fst pricesData) ->
        placed = filter (fun pt => canPlaceOrder (cache b) (fst pt) (priceStep config))
                   pricesData).
Proof.
  induction pricesData as [|[p tag] rest IH]; intros b orders cnt ND Hfresh.
  - exists [], b. cbn [fold_left map length]. rewrite !app_nil_r, !Nat.add_0_r.
    repeat split; try reflexivity.
    + now destruct (stats b).
    + apply incl_nil_l.
    + intros pt [].
  - cbn [fold_left].
    assert (ND' : NoDup (buyIdsOf rest)) by (now inversion ND).
    assert (Hhead : ~ In ("buy_" ++ tag)%string (buyIdsOf rest)) by (now inversion ND).
    destruct (canPlaceOrder (cache b) p (priceStep config)) eqn:Hcan.
    + set (b2 := mkBot (addBuyOrder (cache b) ("buy_" ++ tag) p
                          (calculateOrderSize config (JS.Num p)) now)
                   (ws b)
                   (mkStats (S (ordersPlaced (stats b))) (ordersCancelled (stats b))
                      (buyOrdersFilled (stats b)) (sellOrdersFilled (stats b)))
                   (recovery b)).
      assert (E : bulkBuyStep config now (b, orders, cnt) (p, tag)
                  = (b2, orders ++ [buyRequestOf config (p, tag)], S cnt)).
      { unfold bulkBuyStep. now rewrite Hcan. }
      rewrite E.
      assert (Hb2 : buyCurrentOrders (cache b2)
                    = buyCurrentOrders (cache b) ++ [buyRecordOf config now (p, tag)]).
      { unfold b2, addBuyOrder. cbn [cache buyCurrentOrders with_buys].
        apply (CacheFacts.set_fresh String.eqb).
        apply Hfresh. now left. }
      destruct (IH b2 (orders ++ [buyRequestOf config (p, tag)]) (S cnt) ND')
        as [placed [b1 [Hfold [Hbuys [Hsells [Hfilled [Hlp [Hws [Hrec [Hstats
             [Hincl [Hcov Hfilter]]]]]]]]]]]].
      { intros id Hid. rewrite Hb2, get_app_fresh by (apply Hfresh; now right).
        cbn [JSMap.get buyRecordOf fst snd].
        destruct (String.eqb ("buy_" ++ tag) id) eqn:Eid; [|reflexivity].
        apply String.eqb_eq in Eid. subst id. contradiction. }
      exists ((p, tag) :: placed), b1.
      split.
      { rewrite Hfold. cbn [map length]. rewrite <- app_assoc. cbn [app].
        f_equal. lia. }
      split.
      { rewrite Hbuys, Hb2, <- app_assoc. reflexivity. }
      split; [exact Hsells|]. split; [exact Hfilled|]. split; [exact Hlp|].
      split; [exact Hws|]. split; [exact Hrec|].
      split.
      { rewrite Hstats. cbn [b2 stats ordersPlaced ordersCancelled buyOrdersFilled
          sellOrdersFilled length]. f_equal. lia. }
      split.
      { intros x [Hx|Hx]; [now left | right; now apply Hincl]. }
      split.
      { intros pt [Hpt|Hpt]; [|now apply Hcov].
        subst pt. cbn [fst].
        apply (@canPlaceOrder_extends (cache b2) (cache b1) p (priceStep config)
                 (map (buyRecordOf config now) placed) Hbuys Hsells Hfilled).
        unfold canPlaceOrder.
        rewrite (@buyAtPrice_app (cache b) (cache b2) p _ Hb2).
        cbn [map existsb buyRecordOf snd fst price]. rewrite Z.eqb_refl.
        now rewrite orb_true_r. }
      intro NDp. cbn [map fst] in NDp. cbn [filter fst]. rewrite Hcan.
      f_equal. rewrite (Hfilter ltac:(now inversion NDp)).
      apply filter_ext_in. intros [p' tag'] Hin. cbn [fst].
      apply (@canPlaceOrder_other_price (cache b) (cache b2) p p' (priceStep config)
               ("buy_" ++ tag)%string (calculateOrderSize config (JS.Num p)) now Hb2
               eq_refl eq_refl).
      intros ->. inversion NDp as [|? ? Hn _]. apply Hn.
      change p with (fst (p, tag')). now apply in_map.
    + assert (E : bulkBuyStep config now (b, orders, cnt) (p, tag) = (b, orders, cnt)).
      { unfold bulkBuyStep. now rewrite Hcan. }
      rewrite E.
      destruct (IH b orders cnt ND')
        as [placed [b1 [Hfold [Hbuys [Hsells [Hfilled [Hlp [Hws [Hrec [Hstats
             [Hincl [Hcov Hfilter]]]]]]]]]]]].
      { intros id Hid. apply Hfresh. now right. }
      exists placed, b1.
      repeat (split; [assumption|]).
      split.
      { intros x Hx. right. now apply Hincl. }
      split.
      { intros pt [Hpt|Hpt]; [|now apply Hcov].
        subst pt. cbn [fst].
        exact (@canPlaceOrder_extends (cache b) (cache b1) p (priceStep config)
                 (map (buyRecordOf config now) placed) Hbuys Hsells Hfilled Hcan). }
      intro NDp. cbn [map fst] in NDp. cbn [filter fst]. rewrite Hcan.
      apply Hfilter. now inversion NDp.
Qed.

Lemma placeBulkBuyOrders_post (b : Bot) (pricesData : list (Z * string)) (now : Z) :
  NoDup (buyIdsOf pricesData) ->
  (forall id, In id (buyIdsOf pricesData) -> bget (buyCurrentOrders (cache b)) id = None) ->
  exists placed,
    incl placed pricesData
    /\ buyCurrentOrders (cache (fst (placeBulkBuyOrders config b pricesData now)))
       = buyCurrentOrders (cache b) ++ map (buyRecordOf config now) placed
    /\ sellCurrentOrders (cache (fst (placeBulkBuyOrders config b pricesData now)))
       = sellCurrentOrders (cache b)
    /\ buyFilledOrders (cache (fst (placeBulkBuyOrders config b pricesData now)))
       = buyFilledOrders (cache b)
    /\ ordersPlaced (stats (fst (placeBulkBuyOrders config b pricesData now)))
       = (ordersPlaced (stats b) + length placed)%nat
    /\ (forall pt, In pt pricesData ->
                   covered config (cache (fst (placeBulkBuyOrders config b pricesData now)))
                     (fst pt))
    /\ (NoDup (map fst pricesData) ->
        placed = filter (fun pt => canPlaceOrder (cache b) (fst pt) (priceStep config))
                   pricesData)
    /\ (WS.ready (ws b) = true ->
        snd (placeBulkBuyOrders config b pricesData now) = length placed
        /\ ws (fst (placeBulkBuyOrders config b pricesData now))
           = WS.mk (WS.privateConnected (ws b)) (WS.isAuthenticated (ws b))
               (WS.sent (ws b) ++ map (buyMessageOf config) placed)
               (WS.messageQueue (ws b)))
    /\ (WS.ready (ws b) = false ->
        snd (placeBulkBuyOrders config b pricesData now) = 0%nat
        /\ ws (fst (placeBulkBuyOrders config b pricesData now)) = ws b).
Proof.
  intros ND Hfresh.
  destruct (bulkBuy_fold now pricesData b [] 0%nat ND Hfresh)
    as [placed [b1 [Hfold [Hbuys [Hsells [Hfilled [Hlp [Hws [Hrec [Hstats
         [Hincl [Hcov Hfilter]]]]]]]]]]]].
  cbn [app Nat.add] in Hfold.
  assert (E : placeBulkBuyOrders config b pricesData now
              = match map (buyRequestOf config) placed with
                | [] => (b1, 0%nat)
                | _ :: _ =>
                    let '(w, placedCount) :=
                      WS.placeBulkOrders (ws b1) (map (buyRequestOf config) placed) in
                    (mkBot (cache b1) w (stats b1) (recovery b1), placedCount)
                end).
  { unfold placeBulkBuyOrders. now rewrite Hfold. }
  assert (Hcache : cache (fst (placeBulkBuyOrders config b pricesData now)) = cache b1).
  { rewrite E. destruct (map (buyRequestOf config) placed); [reflexivity|].
    now destruct (WS.placeBulkOrders _ _). }
  assert (Hst : stats (fst (placeBulkBuyOrders config b pricesData now)) = stats b1).
  { rewrite E. destruct (map (buyRequestOf config) placed); [reflexivity|].
    now destruct (WS.placeBulkOrders _ _). }
  exists placed. rewrite Hcache, Hst.
  split; [exact Hincl|]. split; [exact Hbuys|]. split; [exact Hsells|].
  split; [exact Hfilled|]. split; [now rewrite Hstats|].
  split; [intros pt Hpt; apply canPlaceOrder_covered; now apply Hcov|].
  split; [exact Hfilter|].
  rewrite E. split; intro R.
  - destruct placed as [|pt placed'].
    + cbn [map fst snd length]. rewrite app_nil_r. split; [reflexivity|].
      rewrite Hws. now destruct (ws b).
    + cbn [map]. change (buyRequestOf config pt :: map (buyRequestOf config) placed')
        with (map (buyRequestOf config) (pt :: placed')).
      unfold WS.placeBulkOrders. rewrite Hws, R. cbn [negb].
      rewrite QueueFacts.placeBulk_fold. cbn [fst snd ws WS.sent WS.privateConnected
        WS.isAuthenticated WS.messageQueue].
      rewrite length_map, map_map. split; reflexivity.
  - destruct placed as [|pt placed'].
    + cbn [map fst snd]. split; [reflexivity | exact Hws].
    + cbn [map]. unfold WS.placeBulkOrders. rewrite Hws, R. cbn [negb fst snd ws].
      now split.
Qed.

(** One batch of [placeBulkBuyOrders] whose identifiers are distinct
    and not yet in the store.  The orders it records, [placed], are
    appended to the buy orders in the order of the batch, one pending
    record each; sell orders and filled buys are untouched; the counter
    of placements grows by their number; and every level of the batch is
    covered afterwards.  When the prices of the batch are distinct,
    [placed] is the part of the batch that was placeable beforehand.  A
    ready socket is written one message per recorded order, in order,
    past the throttled queue, and their number is returned; a socket
    that is not ready is written nothing and [0] is returned, the
    records and the counter staying. *)
Theorem placeBulkBuyOrders_books_the_batch (b : Bot) (pricesData : list (Z * string))
    (now : Z) :
  NoDup (buyIdsOf pricesData) ->
  (forall id, In id (buyIdsOf pricesData) -> bget (buyCurrentOrders (cache b)) id = None) ->
  let b' := fst (placeBulkBuyOrders config b pricesData now) in
  let placedCount := snd (placeBulkBuyOrders config b pricesData now) in
  exists placed,
    incl placed pricesData
    /\ buyCurrentOrders (cache b')
       = buyCurrentOrders (cache b) ++ map (buyRecordOf config now) placed
    /\ sellCurrentOrders (cache b') = sellCurrentOrders (cache b)
    /\ buyFilledOrders (cache b') = buyFilledOrders (cache b)
    /\ ordersPlaced (stats b') = (ordersPlaced (stats b) + length placed)%nat
    /\ (forall pt, In pt pricesData -> covered config (cache b') (fst pt))
    /\ (NoDup (map fst pricesData) ->
        placed = filter (fun pt => canPlaceOrder (cache b) (fst pt) (priceStep config))
                   pricesData)
    /\ (WS.ready (ws b) = true ->
        placedCount = length placed
        /\ ws b' = WS.mk (WS.privateConnected (ws b)) (WS.isAuthenticated (ws b))
                     (WS.sent (ws b) ++ map (buyMessageOf config) placed)
                     (WS.messageQueue (ws b)))
    /\ (WS.ready (ws b) = false -> placedCount = 0%nat /\ ws b' = ws b).
Proof. intros ND Hfresh. cbv zeta. now apply placeBulkBuyOrders_post. Qed.

Lemma num_eq_dec (x y : JS.num) : {x = y} + {x <> y}.
Proof. decide equality. apply Z.eq_dec. Qed.

Lemma bulkSell_fold now pricesData : forall b orders cnt,
  exists b1,
    fold_left (bulkSellStep config now) pricesData (b, orders, cnt)
    = (b1,
       orders ++ map (fun pt => (("sell_" ++ snd pt)%string, Sell, JS.Num (fst pt),
                                 calculateOrderSize config (JS.Num (fst pt)))) pricesData,
       (cnt + length pricesData)%nat)
    /\ buyCurrentOrders (cache b1) = buyCurrentOrders (cache b)
    /\ buyFilledOrders (cache b1) = buyFilledOrders (cache b)
    /\ ws b1 = ws b
    /\ recovery b1 = recovery b
    /\ ordersPlaced (stats b1) = (ordersPlaced (stats b) + length pricesData)%nat
    /\ (forall pt, In pt pricesData ->
                   nhas (sellCurrentOrders (cache b1)) (JS.Num (fst pt)) = true)
    /\ (forall q, ~ In q (map (fun pt => JS.Num (fst pt)) pricesData) ->
                  nget (sellCurrentOrders (cache b1)) q = nget (sellCurrentOrders (cache b)) q)
    /\ (NoDup (map fst pricesData) ->
        forall pt, In pt pricesData ->
                   nget (sellCurrentOrders (cache b1)) (JS.Num (fst pt))
                   = Some (sellRecordOf config now pt)).
Proof.
  induction pricesData as [|[p tag] rest IH]; intros b orders cnt.
  - exists b. cbn [fold_left map length]. rewrite app_nil_r, !Nat.add_0_r.
    do 6 (split; [reflexivity|]).
    split; [intros pt []|]. split; [reflexivity | intros _ pt []].
  - cbn [fold_left].
    set (b2 := mkBot (addSellOrder (cache b) (JS.Num p)
                        (sellRecordOf config now (p, tag)) now)
                 (ws b)
                 (mkStats (S (ordersPlaced (stats b))) (ordersCancelled (stats b))
                    (buyOrdersFilled (stats b)) (sellOrdersFilled (stats b)))
                 (recovery b)).
    assert (E : bulkSellStep config now (b, orders, cnt) (p, tag)
                = (b2, orders ++ [(("sell_" ++ tag)%string, Sell, JS.Num p,
                                   calculateOrderSize config (JS.Num p))], S cnt))
      by reflexivity.
    rewrite E.
    assert (Hhere : nget (sellCurrentOrders (cache b2)) (JS.Num p)
                    = Some (sellRecordOf config now (p, tag)))
      by apply (get_set_same JS.same JSFacts.same_eq).
    assert (Hother : forall q, q <> JS.Num p ->
                               nget (sellCurrentOrders (cache b2)) q
                               = nget (sellCurrentOrders (cache b)) q)
      by (intros q Hq; now apply (get_set_other JS.same JSFacts.same_eq)).
    destruct (IH b2 (orders ++ [(("sell_" ++ tag)%string, Sell, JS.Num p,
                                 calculateOrderSize config (JS.Num p))]) (S cnt))
      as (b1 & Hfold & Hbuys & Hfilled & Hws & Hrec & Hstats & Hhas & Hout & Hget).
    exists b1.
    split.
    { rewrite Hfold. cbn [map length fst snd]. rewrite <- app_assoc. cbn [app].
      f_equal. lia. }
    split; [exact Hbuys|]. split; [exact Hfilled|]. split; [exact Hws|].
    split; [exact Hrec|].
    split; [rewrite Hstats; cbn [b2 stats ordersPlaced length]; lia|].
    assert (Hhead : ~ In (JS.Num p) (map (fun pt => JS.Num (fst pt)) rest) ->
                    nget (sellCurrentOrders (cache b1)) (JS.Num p)
                    = Some (sellRecordOf config now (p, tag)))
      by (intro Hn; now rewrite (Hout _ Hn)).
    split.
    { intros pt [<-|Hpt]; [|now apply Hhas]. cbn [fst].
      destruct (in_dec num_eq_dec (JS.Num p) (map (fun pt => JS.Num (fst pt)) rest))
        as [Hin|Hn].
      - apply in_map_iff in Hin. destruct Hin as [pt' [Ep Hpt']].
        rewrite <- Ep. now apply Hhas.
      - unfold JSMap.has. now rewrite (Hhead Hn). }
    split.
    { intros q Hq. cbn [map fst] in Hq.
      rewrite Hout by (intro H; apply Hq; now right).
      apply Hother. intros ->. apply Hq. now left. }
    intros NDp pt Hpt. cbn [map fst] in NDp.
    inversion NDp as [|? ? Hn NDp']; subst.
    destruct Hpt as [<-|Hpt]; [|now apply Hget].
    cbn [fst]. apply Hhead. intro Hin. apply Hn.
    apply in_map_iff in Hin. destruct Hin as [pt' [Ep Hpt']].
    apply in_map_iff. exists pt'. split; [congruence | assumption].
Qed.

(** One batch of [placeBulkSellOrders].  Nothing is checked: every
    order of the batch is counted and handed to the socket, whatever the
    store holds.  Afterwards a sell is on record at every price of the
    batch, no other price of the sell map has changed, and the buy
    orders and filled buys are as before; when the prices of the batch
    are distinct the record at each is the pending record of its order.
    A ready socket is written one placement per order, in the order of
    the batch, and their number is returned; a socket that is not ready
    is written nothing and [0] is returned, the records and the counter
    staying. *)
Theorem placeBulkSellOrders_places_all (b : Bot) (pricesData : list (Z * string))
    (now : Z) :
  buyCurrentOrders (cache (fst (placeBulkSellOrders config b pricesData now)))
  = buyCurrentOrders (cache b)
  /\ buyFilledOrders (cache (fst (placeBulkSellOrders config b pricesData now)))
     = buyFilledOrders (cache b)
  /\ ordersPlaced (stats (fst (placeBulkSellOrders config b pricesData now)))
     = (ordersPlaced (stats b) + length pricesData)%nat
  /\ (forall pt, In pt pricesData ->
                 nhas (sellCurrentOrders
                         (cache (fst (placeBulkSellOrders config b pricesData now))))
                   (JS.Num (fst pt)) = true)
  /\ (forall q, ~ In q (map (fun pt => JS.Num (fst pt)) pricesData) ->
                nget (sellCurrentOrders
                        (cache (fst (placeBulkSellOrders config b pricesData now)))) q
                = nget (sellCurrentOrders (cache b)) q)
  /\ (NoDup (map fst pricesData) ->
      forall pt, In pt pricesData ->
                 nget (sellCurrentOrders
                         (cache (fst (placeBulkSellOrders config b pricesData now))))
                   (JS.Num (fst pt))
                 = Some (sellRecordOf config now pt))
  /\ (WS.ready (ws b) = true ->
      snd (placeBulkSellOrders config b pricesData now) = length pricesData
      /\ ws (fst (placeBulkSellOrders config b pricesData now))
         = WS.mk (WS.privateConnected (ws b)) (WS.isAuthenticated (ws b))
             (WS.sent (ws b) ++ map (sellMessageOf config) pricesData)
             (WS.messageQueue (ws b)))
  /\ (WS.ready (ws b) = false ->
      snd (placeBulkSellOrders config b pricesData now) = 0%nat
      /\ ws (fst (placeBulkSellOrders config b pricesData now)) = ws b).
Proof.
  destruct (bulkSell_fold now pricesData b [] 0%nat)
    as (b1 & Hfold & Hbuys & Hfilled & Hws & Hrec & Hstats & Hhas & Hout & Hget).
  cbn [app Nat.add] in Hfold.
  set (requests := map (fun pt => (("sell_" ++ snd pt)%string, Sell, JS.Num (fst pt),
                                   calculateOrderSize config (JS.Num (fst pt))))
                     pricesData) in *.
  assert (E : placeBulkSellOrders config b pricesData now
              = match requests with
                | [] => (b1, 0%nat)
                | _ :: _ =>
                    let '(w, placedCount) := WS.placeBulkOrders (ws b1) requests in
                    (mkBot (cache b1) w (stats b1) (recovery b1), placedCount)
                end).
  { unfold placeBulkSellOrders. now rewrite Hfold. }
  assert (Hcache : cache (fst (placeBulkSellOrders config b pricesData now)) = cache b1).
  { rewrite E. destruct requests; [reflexivity|]. now destruct (WS.placeBulkOrders _ _). }
  assert (Hst : stats (fst (placeBulkSellOrders config b pricesData now)) = stats b1).
  { rewrite E. destruct requests; [reflexivity|]. now destruct (WS.placeBulkOrders _ _). }
  rewrite Hcache, Hst.
  split; [exact Hbuys|]. split; [exact Hfilled|]. split; [exact Hstats|].
  split; [exact Hhas|]. split; [exact Hout|]. split; [exact Hget|].
  rewrite E. unfold requests. split; intro R.
  - destruct pricesData as [|pt rest].
    + cbn [map fst snd length]. rewrite app_nil_r. split; [reflexivity|].
      rewrite Hws. now destruct (ws b).
    + cbn [map]. 
      change ((("sell_" ++ snd pt)%string, Sell, JS.Num (fst pt),
               calculateOrderSize config (JS.Num (fst pt)))
              :: map (fun pt0 => (("sell_" ++ snd pt0)%string, Sell, JS.Num (fst pt0),
                                  calculateOrderSize config (JS.Num (fst pt0)))) rest)
        with (map (fun pt0 => (("sell_" ++ snd pt0)%string, Sell, JS.Num (fst pt0),
                               calculateOrderSize config (JS.Num (fst pt0)))) (pt :: rest)).
      unfold WS.placeBulkOrders. rewrite Hws, R. cbn [negb].
      rewrite QueueFacts.placeBulk_fold. cbn [fst snd ws WS.sent WS.privateConnected
        WS.isAuthenticated WS.messageQueue].
      rewrite length_map, map_map. split; reflexivity.
  - destruct pricesData as [|pt rest].
    + cbn [map fst snd]. split; [reflexivity | exact Hws].
    + cbn [map]. unfold WS.placeBulkOrders. rewrite Hws, R. cbn [negb fst snd ws].
      now split.
Qed.

(** A placement with [placeBuyOrder] at a level that is free.  The
    record is stored and counted and the identifier returned whether or
    not the socket takes the order: a ready socket is written the
    placement, a socket that is not ready is written nothing.  Either
    way a further placement at the level is refused and changes
    nothing. *)
Theorem placeBuyOrder_books_the_level (b : Bot) (p now : Z) (tag : string) :
  canPlaceOrder (cache b) p (priceStep config) = true ->
  let b1 := fst (placeBuyOrder config b p now tag) in
  snd (placeBuyOrder config b p now tag) = Some ("buy_" ++ tag)%string
  /\ bget (buyCurrentOrders (cache b1)) ("buy_" ++ tag)%string
     = Some (mkBuyOrder p (calculateOrderSize config (JS.Num p)) STATUS_PENDING now)
  /\ ordersPlaced (stats b1) = S (ordersPlaced (stats b))
  /\ (WS.ready (ws b) = true ->
      ws b1 = WS.send (ws b)
                (PlaceOrderMsg ("buy_" ++ tag) Buy (JS.Num p)
                   (calculateOrderSize config (JS.Num p))))
  /\ (WS.ready (ws b) = false -> ws b1 = ws b)
  /\ (forall now' tag', placeBuyOrder config b1 p now' tag' = (b1, None)).
Proof.
  intro Hcan. cbv zeta.
  rewrite (HandlerFacts.placeBuyOrder_accepted config b p now tag Hcan).
  cbn [fst snd cache ws stats ordersPlaced].
  split; [reflexivity|].
  assert (G : bget (buyCurrentOrders
                      (addBuyOrder (cache b) ("buy_" ++ tag)%string p
                         (calculateOrderSize config (JS.Num p)) now))
                ("buy_" ++ tag)%string
              = Some (mkBuyOrder p (calculateOrderSize config (JS.Num p))
                        STATUS_PENDING now)).
  { unfold addBuyOrder. cbn [buyCurrentOrders with_buys].
    apply (get_set_same String.eqb String.eqb_eq). }
  split; [exact G|]. split; [reflexivity|].
  split; [intro R; unfold WS.placeOrder; now rewrite R|].
  split; [intro R; unfold WS.placeOrder; now rewrite R|].
  intros now' tag'. unfold placeBuyOrder at 1. cbn [cache].
  assert (Hb : buyAtPrice (addBuyOrder (cache b) ("buy_" ++ tag)%string p
                             (calculateOrderSize config (JS.Num p)) now) p = true).
  { unfold buyAtPrice, JSMap.values. apply existsb_exists.
    exists (mkBuyOrder p (calculateOrderSize config (JS.Num p)) STATUS_PENDING now).
    split; [|apply Z.eqb_refl].
    apply in_map_iff.
    exists (("buy_" ++ tag)%string,
            mkBuyOrder p (calculateOrderSize config (JS.Num p)) STATUS_PENDING now).
    split; [reflexivity|]. now apply (get_In String.eqb String.eqb_eq). }
  unfold canPlaceOrder. now rewrite Hb.
Qed.

(** The sell that answers a buy fill is stored pending, and no report
    makes it live: a report on it that is neither a fill nor a
    cancellation changes nothing.  So the first [cleanPendingOrders]
    that runs more than [maxPendingTimeMs] after the fill drops the
    sell record, while the filled buy stays on record and keeps its
    level closed to new buys. *)
Theorem pending_sell_record_expires (b : Bot) (order report : OrderUpdate) (P : Z)
    (now1 now2 now3 maxPendingTimeMs : Z) (tag1 tag2 : string) :
  wellFormed (cache b) = true ->
  String.prefix "buy_" (u_clientOid order) = true ->
  u_status order = STATUS_FILLED ->
  u_price order = JS.Num P ->
  P <> 0%Z ->
  JS.truthy (filledSizeOf order) = true ->
  WS.ready (ws b) = true ->
  u_clientOid report = ("sell_" ++ tag1)%string ->
  u_status report <> STATUS_FILLED ->
  isCancelled (u_status report) = false ->
  (maxPendingTimeMs < now3 - now1)%Z ->
  let sellPrice :=
    JS.toFixed (JS.Num (P + priceStep config)) (pricePrecision config) in
  let b1 := handleOrderUpdate config b order now1 tag1 in
  let b2 := handleOrderUpdate config b1 report now2 tag2 in
  let c3 := fst (cleanPendingOrders (cache b2) maxPendingTimeMs now3) in
  nget (sellCurrentOrders (cache b1)) sellPrice
  = Some (SellObject (mkSellOrder ("sell_" ++ tag1) (Some sellPrice)
                        (Some (filledSizeOf order)) STATUS_PENDING now1))
  /\ b2 = b1
  /\ nget (sellCurrentOrders c3) sellPrice = None
  /\ nget (buyFilledOrders c3) (JS.Num P)
     = Some (mkFilledBuy (u_orderId order) (u_clientOid order) (JS.Num P)
               (filledSizeOf order) now1)
  /\ canPlaceOrder c3 P (priceStep config) = false.
Proof.
  intros Hwf Hpre Hst HP HP0 Hsz R Hid Hnf Hnc Hage. cbv zeta.
  assert (Htp : JS.truthy (u_price order) = true).
  { rewrite HP. cbn. apply negb_true_iff. now apply Z.eqb_neq. }
  assert (Hwf1 : wellFormed (cache (handleOrderUpdate config b order now1 tag1)) = true)
    by now apply WellFormedFacts.handleOrderUpdate_wf.
  assert (E2 : handleOrderUpdate config (handleOrderUpdate config b order now1 tag1)
                 report now2 tag2
               = handleOrderUpdate config b order now1 tag1).
  { unfold handleOrderUpdate at 1.
    assert (Hs : String.prefix "sell_" (u_clientOid report) = true)
      by (rewrite Hid; apply HandlerFacts.prefix_sell_tag).
    apply String.eqb_neq in Hnf.
    rewrite (FillFacts.prefix_sell_nonempty _ Hs), (FillFacts.prefix_sell_not_buy _ Hs),
      Hs, Hnf, Hnc. reflexivity. }
  rewrite E2.
  rewrite (StoreFacts.cleanPendingOrders_filter _ maxPendingTimeMs now3 Hwf1).
  cbn [fst sellCurrentOrders buyFilledOrders].
  apply WellFormedFacts.wellFormed_iff in Hwf1. destruct Hwf1 as [_ [NDs _]].
  rewrite (StoreFacts.get_filter JS.same JSFacts.same_eq
             (fun v => negb (sellExpired now3 maxPendingTimeMs v)) _ _ NDs).
  revert NDs.
  rewrite (FillFacts.handleOrderUpdate_buy_filled config b order now1 tag1
             Hpre Hst Htp Hsz R).
  rewrite HP. cbn [JS.add cache sellCurrentOrders buyFilledOrders]. intros _.
  rewrite !(get_set_same JS.same JSFacts.same_eq).
  split; [reflexivity|]. split; [reflexivity|].
  split.
  { cbn [sellExpired s_status s_timestamp].
    assert (A : (maxPendingTimeMs <? now3 - now1)%Z = true) by now apply Z.ltb_lt.
    rewrite A. reflexivity. }
  split; [reflexivity|].
  unfold canPlaceOrder. cbn [buyFilledOrders sellCurrentOrders].
  destruct (buyAtPrice _ P); [reflexivity|].
  destruct (nhas _ (JS.Num (P + priceStep config))); [reflexivity|].
  unfold JSMap.has. now rewrite (get_set_same JS.same JSFacts.same_eq).
Qed.

End Batches.

Lemma sampleBatch_distinct : NoDup (buyIdsOf sampleBatch).
Proof. apply (distinctb_NoDup String.eqb String.eqb_eq). reflexivity. Defined.

Lemma sampleBatch_fresh (b : Bot) :
  buyCurrentOrders (cache b) = [] ->
  forall id, In id (buyIdsOf sampleBatch) -> bget (buyCurrentOrders (cache b)) id = None.
Proof. intros E id _. rewrite E. reflexivity. Defined.

(** The sample batch on an empty store. *)
Lemma placeBulkBuyOrders_books_the_batch_witness :
  NoDup (buyIdsOf sampleBatch)
  /\ (forall id, In id (buyIdsOf sampleBatch) ->
                 bget (buyCurrentOrders (cache readyBot)) id = None)
  /\ forall pt, In pt sampleBatch ->
                covered sampleConfig
                  (cache (fst (placeBulkBuyOrders sampleConfig readyBot sampleBatch 5000)))
                  (fst pt).
Proof.
  split; [exact sampleBatch_distinct|].
  split; [exact (sampleBatch_fresh readyBot eq_refl)|].
  pose proof (@placeBulkBuyOrders_books_the_batch sampleConfig readyBot sampleBatch 5000
                sampleBatch_distinct (sampleBatch_fresh readyBot eq_refl)) as H.
  cbv zeta in H. destruct H as (placed & _ & _ & _ & _ & _ & Hcov & _).
  exact Hcov.
Defined.

(** A buy at 10000 while the socket is down. *)
Lemma placeBuyOrder_books_the_level_witness :
  canPlaceOrder (cache offlineBot) (usd 10000) (priceStep sampleConfig) = true
  /\ ws (fst (placeBuyOrder sampleConfig offlineBot (usd 10000) 1000 "1000_1"))
     = ws offlineBot
  /\ ordersPlaced (stats (fst (placeBuyOrder sampleConfig offlineBot (usd 10000) 1000
                                 "1000_1")))
     = 1%nat
  /\ forall now' tag',
       placeBuyOrder sampleConfig
         (fst (placeBuyOrder sampleConfig offlineBot (usd 10000) 1000 "1000_1"))
         (usd 10000) now' tag'
       = (fst (placeBuyOrder sampleConfig offlineBot (usd 10000) 1000 "1000_1"), None).
Proof.
  split; [reflexivity|].
  pose proof (@placeBuyOrder_books_the_level sampleConfig offlineBot (usd 10000) 1000
                "1000_1"%string eq_refl) as H.
  cbv zeta in H. destruct H as (_ & _ & Hn & _ & Hdown & Hagain).
  split; [exact (Hdown eq_refl)|]. split; [exact Hn | exact Hagain].
Defined.

(** The sell that answers the fill of [buy_1], reported live at 2500 and
    cleaned at 4000 with a limit of 1500 ms. *)
Lemma pending_sell_record_expires_witness :
  wellFormed (cache botWithPendingBuy) = true
  /\ String.prefix "buy_" (u_clientOid fillOfBuy1) = true
  /\ u_status fillOfBuy1 = STATUS_FILLED
  /\ u_price fillOfBuy1 = JS.Num (usd 10000)
  /\ usd 10000 <> 0%Z
  /\ JS.truthy (filledSizeOf fillOfBuy1) = true
  /\ WS.ready (ws botWithPendingBuy) = true
  /\ STATUS_LIVE <> STATUS_FILLED
  /\ isCancelled STATUS_LIVE = false
  /\ (1500 < 4000 - 2000)%Z
  /\ nget (sellCurrentOrders
             (fst (cleanPendingOrders
                     (cache (handleOrderUpdate sampleConfig
                               (handleOrderUpdate sampleConfig botWithPendingBuy
                                  fillOfBuy1 2000 "2000_2")
                               (mkOrderUpdate "sell_2000_2" STATUS_LIVE
                                  (JS.Num (usd 10050)) (JS.Num 1000000) None "unknown")
                               2500 "2500_5"))
                     1500 4000)))
       (JS.Num (usd 10050))
     = None
  /\ canPlaceOrder
       (fst (cleanPendingOrders
               (cache (handleOrderUpdate sampleConfig
                         (handleOrderUpdate sampleConfig botWithPendingBuy
                            fillOfBuy1 2000 "2000_2")
                         (mkOrderUpdate "sell_2000_2" STATUS_LIVE
                            (JS.Num (usd 10050)) (JS.Num 1000000) None "unknown")
                         2500 "2500_5"))
               1500 4000))
       (usd 10000) (priceStep sampleConfig)
     = false.
Proof.
  assert (H0 : usd 10000 <> 0%Z) by (vm_compute; discriminate).
  assert (H1 : STATUS_LIVE <> STATUS_FILLED) by (vm_compute; discriminate).
  do 4 (split; [reflexivity|]). split; [exact H0|]. do 2 (split; [reflexivity|]).
  split; [exact H1|]. split; [reflexivity|]. split; [reflexivity|].
  pose proof (@pending_sell_record_expires sampleConfig botWithPendingBuy fillOfBuy1
                (mkOrderUpdate "sell_2000_2" STATUS_LIVE (JS.Num (usd 10050))
                   (JS.Num 1000000) None "unknown")
                (usd 10000) 2000 2500 4000 1500 "2000_2"%string "2500_5"%string
                eq_refl eq_refl eq_refl eq_refl H0 eq_refl eq_refl eq_refl H1 eq_refl
                eq_refl) as H.
  cbv zeta in H. destruct H as (_ & _ & Hgone & _ & Hclosed).
  split; [exact Hgone | exact Hclosed].
Defined.

End PlacementFacts.

(* ================================================================== *)
(** * Waves *)

Module WaveFacts.
Import JSMapFacts.

Section Sending.
Variable config : Config.

Lemma sendWave_at b side done cur todo tot now :
  sendWave config b (mkWaveJob side (done ++ cur :: todo) (length done) tot) now
  = (fst (sendWave config b (mkWaveJob side [cur] 0 tot) now),
     mkWaveJob side (done ++ cur :: todo) (length done)
       (totalOrdersPlaced (snd (sendWave config b (mkWaveJob side [cur] 0 tot) now)))).
Proof.
  unfold sendWave. cbn [jobSide waves currentWaveIndex totalOrdersPlaced nth].
  rewrite nth_middle.
  destruct side.
  - now destruct (placeBulkBuyOrders config b cur now).
  - now destruct (placeBulkSellOrders config b cur now).
  - reflexivity.
Qed.

(** A run of the interval from a job that has sent the wave [cur]: with
    more ticks than waves left, the waves left are sent in turn and the
    promise is resolved; with fewer, as many waves as there are ticks
    are sent and the promise is pending. *)
Lemma runWaves_in_turn side : forall todo clock done cur b tot,
  runWaves config b (mkWaveJob side (done ++ cur :: todo) (length done) tot) clock
  = if (length todo <? length clock)%nat then
      (fst (sendInTurn config side b todo clock tot),
       Resolved (snd (sendInTurn config side b todo clock tot)))
    else
      (fst (sendInTurn config side b todo clock tot),
       Pending (mkWaveJob side (done ++ cur :: todo) (length done + length clock)
                  (snd (sendInTurn config side b todo clock tot)))).
Proof.
  induction todo as [|next todo IH]; intros clock done cur b tot.
  - destruct clock as [|t clock].
    + cbn. now rewrite Nat.add_0_r.
    + cbn [runWaves length Nat.ltb Nat.leb sendInTurn fst snd].
      unfold waveTick. cbn [currentWaveIndex waves jobSide totalOrdersPlaced].
      assert (E : (S (length done) <? length (done ++ [cur]))%nat = false).
      { apply Nat.ltb_ge. rewrite length_app. simpl. lia. }
      rewrite E. reflexivity.
  - destruct clock as [|t clock].
    + cbn. now rewrite Nat.add_0_r.
    + cbn [runWaves]. unfold waveTick.
      cbn [currentWaveIndex waves jobSide totalOrdersPlaced].
      assert (E : (S (length done) <? length (done ++ cur :: next :: todo))%nat = true).
      { apply Nat.ltb_lt. rewrite length_app. simpl. lia. }
      rewrite E.
      assert (Hl : S (length done) = length (done ++ [cur]))
        by (rewrite length_app; simpl; lia).
      assert (Ha : done ++ cur :: next :: todo = (done ++ [cur]) ++ next :: todo)
        by (now rewrite <- app_assoc).
      rewrite Hl, Ha, sendWave_at.
      rewrite IH.
      cbn [length sendInTurn].
      change (S (length todo) <? S (length clock))%nat
        with (length todo <? length clock)%nat.
      destruct (sendWave config b (mkWaveJob side [next] 0 tot) t) as [b1 job1].
      cbn [fst snd].
      replace (length (done ++ [cur]) + length clock)%nat
        with (length done + S (length clock))%nat by (rewrite <- Hl; lia).
      reflexivity.
Qed.

Lemma waveSizeOf_pos massOrders : (1 <= waveSizeOf massOrders)%nat.
Proof.
  unfold waveSizeOf. destruct massOrders as [m|]; [|lia].
  destruct (waveSize m =? 0)%nat eqn:E; [lia|]. apply Nat.eqb_neq in E. lia.
Qed.

Lemma placeOrdersInWaves_run (b : Bot) (side : Side)
    (ordersData : list (Z * string)) (massOrders : option MassOrders) (now : Z) :
  ordersData <> [] ->
  exists b1 job,
    placeOrdersInWaves config b side ordersData massOrders now
    = Some (b1, Pending job)
    /\ concat (waves job) = ordersData
    /\ Forall (fun wave => wave <> []
                           /\ (length wave <= waveSizeOf massOrders)%nat) (waves job)
    /\ forall clock,
         runWaves config b1 job clock
         = if (length (waves job) <=? length clock)%nat then
             (fst (sendInTurn config side b (waves job) (now :: clock) 0),
              Resolved (snd (sendInTurn config side b (waves job) (now :: clock) 0)))
           else
             (fst (sendInTurn config side b (waves job) (now :: clock) 0),
              Pending (mkWaveJob side (waves job) (length clock)
                         (snd (sendInTurn config side b (waves job)
                                 (now :: clock) 0)))).
Proof.
  intro Hne.
  destruct (@WavesFacts.sliceLoop_chunks (Z * string) (waveSizeOf massOrders) ordersData
              (waveSizeOf_pos massOrders) (length ordersData) 0%nat ltac:(lia))
    as [theWaves [Hw [Hc Hf]]].
  cbn [skipn] in Hc.
  destruct theWaves as [|cur todo]; [now cbn in Hc; subst|].
  assert (E : placeOrdersInWaves config b side ordersData massOrders now
              = Some (fst (sendWave config b (mkWaveJob side (cur :: todo) 0 0) now),
                      Pending (snd (sendWave config b
                                      (mkWaveJob side (cur :: todo) 0 0) now)))).
  { unfold placeOrdersInWaves. destruct ordersData as [|o r]; [contradiction|].
    rewrite Hw. now destruct (sendWave config b _ now). }
  rewrite E.
  pose proof (sendWave_at b side [] cur todo 0 now) as Hs.
  cbn [app length] in Hs. rewrite Hs. cbn [fst snd].
  eexists _, _. split; [reflexivity|]. cbn [waves].
  split; [exact Hc|]. split; [exact Hf|].
  intro clock.
  pose proof (runWaves_in_turn side todo clock [] cur
                (fst (sendWave config b (mkWaveJob side [cur] 0 0) now))
                (totalOrdersPlaced (snd (sendWave config b (mkWaveJob side [cur] 0 0) now))))
    as Hr.
  cbn [app length Nat.add] in Hr. rewrite Hr.
  cbn [sendInTurn length].
  change (S (length todo) <=? length clock)%nat with (length todo <? length clock)%nat.
  now destruct (sendWave config b (mkWaveJob side [cur] 0 0) now) as [b1 job1].
Qed.

(** [placeOrdersInWaves] and a run of its interval.  Nothing to place
    resolves to [0] at once and changes nothing.  Otherwise the list is
    cut, whatever [massOrders] holds, into waves that are not empty,
    hold [waveSize] orders at most and give the list back when joined;
    the first wave is sent before the function returns; each tick sends
    the next wave, so a run of the interval amounts to sending the
    waves in turn; and the promise is resolved, with the sum of what
    the sends returned, by the tick that finds no wave left. *)
Theorem placeOrdersInWaves_sends_every_wave (b : Bot) (side : Side)
    (ordersData : list (Z * string)) (massOrders : option MassOrders) (now : Z) :
  placeOrdersInWaves config b side [] massOrders now = Some (b, Resolved 0)
  /\ (ordersData <> [] ->
      exists b1 job,
        placeOrdersInWaves config b side ordersData massOrders now
        = Some (b1, Pending job)
        /\ concat (waves job) = ordersData
        /\ Forall (fun wave => wave <> []
                               /\ (length wave <= waveSizeOf massOrders)%nat) (waves job)
        /\ forall clock,
             runWaves config b1 job clock
             = if (length (waves job) <=? length clock)%nat then
                 (fst (sendInTurn config side b (waves job) (now :: clock) 0),
                  Resolved (snd (sendInTurn config side b (waves job) (now :: clock) 0)))
               else
                 (fst (sendInTurn config side b (waves job) (now :: clock) 0),
                  Pending (mkWaveJob side (waves job) (length clock)
                             (snd (sendInTurn config side b (waves job)
                                     (now :: clock) 0))))).
Proof. split; [reflexivity | apply placeOrdersInWaves_run]. Qed.

Lemma NoDup_app_disjoint (A : Type) (l l' : list A) :
  NoDup (l ++ l') -> forall a, In a l -> ~ In a l'.
Proof.
  induction l as [|x l IH]; simpl; intros ND a Ha; [contradiction|].
  inversion ND as [|? ? Hn ND']; subst. destruct Ha as [->|Ha].
  - intro H. apply Hn. apply in_or_app. now right.
  - now apply IH.
Qed.

Lemma buyIdsOf_app l l' : buyIdsOf (l ++ l') = buyIdsOf l ++ buyIdsOf l'.
Proof. apply map_app. Qed.

Lemma buyIdsOf_incl l l' : incl l l' -> incl (buyIdsOf l) (buyIdsOf l').
Proof.
  intros H id Hid. apply in_map_iff in Hid. destruct Hid as [pt [E Hpt]].
  apply in_map_iff. exists pt. split; [assumption | now apply H].
Qed.

Lemma keys_records now placed :
  JSMap.keys (map (buyRecordOf config now) placed) = buyIdsOf placed.
Proof. unfold JSMap.keys, buyIdsOf. rewrite map_map. reflexivity. Qed.

Lemma prices_records now placed :
  map (fun e => price (snd e)) (map (buyRecordOf config now) placed) = map fst placed.
Proof. rewrite map_map. reflexivity. Qed.

Lemma canPlaceOrder_off_prices c c' p step added :
  buyCurrentOrders c' = buyCurrentOrders c ++ added ->
  sellCurrentOrders c' = sellCurrentOrders c ->
  buyFilledOrders c' = buyFilledOrders c ->
  ~ In p (map (fun e => price (snd e)) added) ->
  canPlaceOrder c' p step = canPlaceOrder c p step.
Proof.
  intros Hb Hs Hf Hn. unfold canPlaceOrder.
  rewrite (@PlacementFacts.buyAtPrice_app c c' p added Hb), Hs, Hf.
  assert (E : existsb (fun order => (price order =? p)%Z) (map snd added) = false).
  { destruct (existsb _ _) eqn:Ex; [|reflexivity]. exfalso. apply Hn.
    apply existsb_exists in Ex. destruct Ex as [o [Hin Ho]].
    apply in_map_iff in Hin. destruct Hin as [e [He Hin]].
    apply in_map_iff. exists e. split; [|assumption].
    rewrite He. now apply Z.eqb_eq. }
  rewrite E. now rewrite orb_false_r.
Qed.

Lemma covered_extends c c' p added :
  buyCurrentOrders c' = buyCurrentOrders c ++ added ->
  sellCurrentOrders c' = sellCurrentOrders c ->
  buyFilledOrders c' = buyFilledOrders c ->
  covered config c p -> covered config c' p.
Proof.
  intros Hb Hs Hf H. apply PlacementFacts.canPlaceOrder_covered.
  apply PlacementFacts.canPlaceOrder_covered in H.
  exact (@PlacementFacts.canPlaceOrder_extends c c' p (priceStep config) added Hb Hs Hf H).
Qed.

Lemma sendInTurn_buy_cons b wave todo now clock tot :
  sendInTurn config Buy b (wave :: todo) (now :: clock) tot
  = sendInTurn config Buy (fst (placeBulkBuyOrders config b wave now)) todo clock
      (tot + snd (placeBulkBuyOrders config b wave now))%nat.
Proof.
  cbn [sendInTurn]. unfold sendWave.
  cbn [jobSide waves currentWaveIndex totalOrdersPlaced nth].
  now destruct (placeBulkBuyOrders config b wave now).
Qed.

(** Buy waves sent in turn, their identifiers distinct and not in the
    store. *)
Lemma sendInTurn_buy_post : forall todo clock b tot,
  (length todo <= length clock)%nat ->
  NoDup (buyIdsOf (concat todo)) ->
  (forall id, In id (buyIdsOf (concat todo)) ->
              bget (buyCurrentOrders (cache b)) id = None) ->
  exists placed added,
    incl placed (concat todo)
    /\ buyCurrentOrders (cache (fst (sendInTurn config Buy b todo clock tot)))
       = buyCurrentOrders (cache b) ++ added
    /\ JSMap.keys added = buyIdsOf placed
    /\ map (fun e => price (snd e)) added = map fst placed
    /\ Forall (fun e => status (snd e) = STATUS_PENDING) added
    /\ sellCurrentOrders (cache (fst (sendInTurn config Buy b todo clock tot)))
       = sellCurrentOrders (cache b)
    /\ buyFilledOrders (cache (fst (sendInTurn config Buy b todo clock tot)))
       = buyFilledOrders (cache b)
    /\ ordersPlaced (stats (fst (sendInTurn config Buy b todo clock tot)))
       = (ordersPlaced (stats b) + length placed)%nat
    /\ (forall pt, In pt (concat todo) ->
                   covered config (cache (fst (sendInTurn config Buy b todo clock tot)))
                     (fst pt))
    /\ (NoDup (map fst (concat todo)) ->
        placed = filter (fun pt => canPlaceOrder (cache b) (fst pt) (priceStep config))
                   (concat todo))
    /\ (WS.ready (ws b) = true ->
        snd (sendInTurn config Buy b todo clock tot) = (tot + length placed)%nat
        /\ ws (fst (sendInTurn config Buy b todo clock tot))
           = WS.mk (WS.privateConnected (ws b)) (WS.isAuthenticated (ws b))
               (WS.sent (ws b) ++ map (buyMessageOf config) placed)
               (WS.messageQueue (ws b)))
    /\ (WS.ready (ws b) = false ->
        snd (sendInTurn config Buy b todo clock tot) = tot
        /\ ws (fst (sendInTurn config Buy b todo clock tot)) = ws b).
Proof.
  induction todo as [|wave todo IH]; intros clock b tot Hlen ND Hfresh.
  - exists [], []. cbn [sendInTurn fst snd concat map length filter].
    rewrite !app_nil_r, !Nat.add_0_r.
    split; [apply incl_nil_l|]. do 3 (split; [reflexivity|]).
    split; [constructor|]. do 3 (split; [reflexivity|]).
    split; [intros pt []|]. split; [reflexivity|].
    split; [intros _; split; [reflexivity | now destruct (ws b)] | intros _; now split].
  - destruct clock as [|now clock]; [cbn in Hlen; lia|].
    cbn [length] in Hlen. apply le_S_n in Hlen.
    cbn [concat] in ND, Hfresh |- *. rewrite buyIdsOf_app in ND, Hfresh.
    rewrite sendInTurn_buy_cons.
    destruct (@PlacementFacts.placeBulkBuyOrders_post config b wave now
                (NoDup_app_remove_r _ _ ND)
                (fun id Hid => Hfresh id (in_or_app _ _ _ (or_introl Hid))))
      as [placed1 [Hincl1 [Hbuys1 [Hsells1 [Hfilled1 [Hstats1 [Hcov1 [Hfilter1
           [Hready1 Hdown1]]]]]]]]].
    set (b1 := fst (placeBulkBuyOrders config b wave now)) in *.
    set (n1 := snd (placeBulkBuyOrders config b wave now)) in *.
    destruct (IH clock b1 (tot + n1)%nat Hlen (NoDup_app_remove_l _ _ ND))
      as [placed2 [added2 [Hincl2 [Hbuys2 [Hkeys2 [Hprices2 [Hpend2 [Hsells2 [Hfilled2
           [Hstats2 [Hcov2 [Hfilter2 [Hready2 Hdown2]]]]]]]]]]]]].
    { intros id Hid. rewrite Hbuys1.
      rewrite PlacementFacts.get_app_fresh
        by (apply Hfresh; apply in_or_app; now right).
      apply (get_None_keys String.eqb String.eqb_eq). rewrite keys_records.
      intro Hin. apply (@NoDup_app_disjoint _ _ _ ND id); [|assumption].
      now apply (buyIdsOf_incl Hincl1). }
    set (bf := fst (sendInTurn config Buy b1 todo clock (tot + n1))) in *.
    exists (placed1 ++ placed2), (map (buyRecordOf config now) placed1 ++ added2).
    split; [now apply incl_app_app|].
    split; [now rewrite Hbuys2, Hbuys1, <- app_assoc|].
    split.
    { rewrite buyIdsOf_app, <- Hkeys2, <- (keys_records now placed1).
      unfold JSMap.keys. apply map_app. }
    split; [now rewrite !map_app, Hprices2, prices_records|].
    split.
    { apply Forall_app. split; [|assumption].
      apply Forall_forall. intros e He. apply in_map_iff in He.
      now destruct He as [pt [<- _]]. }
    split; [now rewrite Hsells2|]. split; [now rewrite Hfilled2|].
    split; [rewrite Hstats2, Hstats1, length_app; lia|].
    split.
    { intros pt Hpt. apply in_app_or in Hpt. destruct Hpt as [Hpt|Hpt].
      - exact (@covered_extends (cache b1) (cache bf) (fst pt) added2 Hbuys2 Hsells2
                 Hfilled2 (Hcov1 pt Hpt)).
      - now apply Hcov2. }
    split.
    { intro NDp. rewrite map_app in NDp. rewrite filter_app.
      rewrite <- (Hfilter1 (NoDup_app_remove_r _ _ NDp)).
      f_equal. rewrite (Hfilter2 (NoDup_app_remove_l _ _ NDp)).
      apply filter_ext_in. intros pt Hpt.
      apply (@canPlaceOrder_off_prices (cache b) (cache b1) (fst pt) (priceStep config)
               (map (buyRecordOf config now) placed1) Hbuys1 Hsells1 Hfilled1).
      rewrite prices_records. intro Hin.
      apply (@NoDup_app_disjoint _ _ _ NDp (fst pt)).
      - apply in_map_iff in Hin. destruct Hin as [pt1 [E1 Hpt1]].
        apply in_map_iff. exists pt1. split; [assumption | now apply Hincl1].
      - now apply in_map. }
    split.
    + intro R. destruct (Hready1 R) as [Hn1 Hws1].
      assert (R1 : WS.ready (ws b1) = true) by (rewrite Hws1; exact R).
      destruct (Hready2 R1) as [Hn2 Hws2].
      split; [rewrite Hn2, Hn1, length_app; lia|].
      rewrite Hws2, Hws1. cbn [WS.privateConnected WS.isAuthenticated WS.sent
        WS.messageQueue]. now rewrite map_app, app_assoc.
    + intro R. destruct (Hdown1 R) as [Hn1 Hws1].
      assert (R1 : WS.ready (ws b1) = false) by (rewrite Hws1; exact R).
      destruct (Hdown2 R1) as [Hn2 Hws2].
      split; [rewrite Hn2, Hn1; lia | now rewrite Hws2].
Qed.

Lemma placeOrdersInWaves_buy_post (b : Bot) (ordersData : list (Z * string))
    (massOrders : option MassOrders) (now : Z) :
  ordersData <> [] ->
  NoDup (buyIdsOf ordersData) ->
  (forall id, In id (buyIdsOf ordersData) -> bget (buyCurrentOrders (cache b)) id = None) ->
  exists b1 job,
    placeOrdersInWaves config b Buy ordersData massOrders now = Some (b1, Pending job)
    /\ forall clock,
         (length (waves job) <= length clock)%nat ->
         exists bf total placed added,
           runWaves config b1 job clock = (bf, Resolved total)
           /\ incl placed ordersData
           /\ buyCurrentOrders (cache bf) = buyCurrentOrders (cache b) ++ added
           /\ JSMap.keys added = buyIdsOf placed
           /\ map (fun e => price (snd e)) added = map fst placed
           /\ Forall (fun e => status (snd e) = STATUS_PENDING) added
           /\ sellCurrentOrders (cache bf) = sellCurrentOrders (cache b)
           /\ buyFilledOrders (cache bf) = buyFilledOrders (cache b)
           /\ ordersPlaced (stats bf) = (ordersPlaced (stats b) + length placed)%nat
           /\ (forall pt, In pt ordersData -> covered config (cache bf) (fst pt))
           /\ (NoDup (map fst ordersData) ->
               placed = filter (fun pt => canPlaceOrder (cache b) (fst pt)
                                            (priceStep config)) ordersData)
           /\ (WS.ready (ws b) = true ->
               total = length placed
               /\ ws bf = WS.mk (WS.privateConnected (ws b)) (WS.isAuthenticated (ws b))
                            (WS.sent (ws b) ++ map (buyMessageOf config) placed)
                            (WS.messageQueue (ws b)))
           /\ (WS.ready (ws b) = false -> total = 0%nat /\ ws bf = ws b).
Proof.
  intros Hne ND Hfresh.
  destruct (placeOrdersInWaves_run b Buy massOrders now Hne)
    as [b1 [job [E [Hc [_ Hrun]]]]].
  exists b1, job. split; [exact E|]. intros clock Hlen.
  rewrite Hrun.
  assert (L : (length (waves job) <=? length clock)%nat = true) by now apply Nat.leb_le.
  rewrite L.
  rewrite <- Hc in ND, Hfresh.
  destruct (sendInTurn_buy_post (waves job) (now :: clock) b 0%nat
              ltac:(cbn [length]; lia) ND Hfresh)
    as [placed [added H]].
  rewrite Hc in H. cbn [Nat.add] in H.
  eexists _, _, placed, added. split; [reflexivity|]. exact H.
Qed.

(** Buy orders placed in waves, their identifiers distinct and not in
    the store, the interval left to run until the promise is resolved.
    The records of the orders placed, [placed], stand after the buy
    orders that were there, in the order of the list, all pending; sell
    orders and filled buys are as before; every level of the list is
    covered; the counter of placements has grown by the number of
    records.  On a ready socket the total the promise is resolved with
    is that number and the socket has been written one placement per
    record, in order; on a socket that is not ready the total is [0]
    and nothing has been written, the records staying. *)
Theorem placeOrdersInWaves_books_every_level (b : Bot) (ordersData : list (Z * string))
    (massOrders : option MassOrders) (now : Z) :
  ordersData <> [] ->
  NoDup (buyIdsOf ordersData) ->
  (forall id, In id (buyIdsOf ordersData) -> bget (buyCurrentOrders (cache b)) id = None) ->
  exists b1 job,
    placeOrdersInWaves config b Buy ordersData massOrders now = Some (b1, Pending job)
    /\ forall clock,
         (length (waves job) <= length clock)%nat ->
         exists bf total placed added,
           runWaves config b1 job clock = (bf, Resolved total)
           /\ incl placed ordersData
           /\ buyCurrentOrders (cache bf) = buyCurrentOrders (cache b) ++ added
           /\ JSMap.keys added = buyIdsOf placed
           /\ map (fun e => price (snd e)) added = map fst placed
           /\ Forall (fun e => status (snd e) = STATUS_PENDING) added
           /\ sellCurrentOrders (cache bf) = sellCurrentOrders (cache b)
           /\ buyFilledOrders (cache bf) = buyFilledOrders (cache b)
           /\ ordersPlaced (stats bf) = (ordersPlaced (stats b) + length placed)%nat
           /\ (forall pt, In pt ordersData -> covered config (cache bf) (fst pt))
           /\ (NoDup (map fst ordersData) ->
               placed = filter (fun pt => canPlaceOrder (cache b) (fst pt)
                                            (priceStep config)) ordersData)
           /\ (WS.ready (ws b) = true ->
               total = length placed
               /\ ws bf = WS.mk (WS.privateConnected (ws b)) (WS.isAuthenticated (ws b))
                            (WS.sent (ws b) ++ map (buyMessageOf config) placed)
                            (WS.messageQueue (ws b)))
           /\ (WS.ready (ws b) = false -> total = 0%nat /\ ws bf = ws b).
Proof. apply placeOrdersInWaves_buy_post. Qed.

End Sending.

(** The sample batch placed in waves on an empty store. *)
Lemma placeOrdersInWaves_books_every_level_witness :
  sampleBatch <> []
  /\ NoDup (buyIdsOf sampleBatch)
  /\ (forall id, In id (buyIdsOf sampleBatch) ->
                 bget (buyCurrentOrders (cache readyBot)) id = None)
  /\ exists b1 job,
       placeOrdersInWaves sampleConfig readyBot Buy sampleBatch None 5000
       = Some (b1, Pending job)
       /\ forall clock,
            (length (waves job) <= length clock)%nat ->
            exists bf total,
              runWaves sampleConfig b1 job clock = (bf, Resolved total)
              /\ forall pt, In pt sampleBatch -> covered sampleConfig (cache bf) (fst pt).
Proof.
  assert (H0 : sampleBatch <> []) by discriminate.
  split; [exact H0|].
  split; [exact PlacementFacts.sampleBatch_distinct|].
  split; [exact (PlacementFacts.sampleBatch_fresh readyBot eq_refl)|].
  destruct (@placeOrdersInWaves_books_every_level sampleConfig readyBot sampleBatch None
              5000 H0 PlacementFacts.sampleBatch_distinct
              (PlacementFacts.sampleBatch_fresh readyBot eq_refl))
    as (b1 & job & E & Hrun).
  exists b1, job. split; [exact E|]. intros clock Hlen.
  destruct (Hrun clock Hlen)
    as (bf & total & placed & added & Hr & _ & _ & _ & _ & _ & _ & _ & _ & Hcov & _).
  exists bf, total. split; [exact Hr | exact Hcov].
Defined.

End WaveFacts.

(* ================================================================== *)
(** * The grid strategy *)

Module GridFacts.
Import JSMapFacts.

Lemma StronglySorted_desc_NoDup (l : list Z) :
  StronglySorted (fun p q => (q < p)%Z) l -> NoDup l.
Proof.
  induction 1 as [|a l S IH F]; constructor; [|assumption].
  intro Hin. rewrite Forall_forall in F. specialize (F a Hin). lia.
Qed.

Lemma levels_sorted (base step : Z) : forall n start,
  (0 < step)%Z ->
  StronglySorted (fun p q => (q < p)%Z)
    (map (fun i => (base - Z.of_nat i * step)%Z) (seq start n)).
Proof.
  induction n as [|n IH]; intros start Hstep; cbn [seq map]; constructor.
  - now apply IH.
  - apply Forall_forall. intros q Hq. apply in_map_iff in Hq.
    destruct Hq as [i [<- Hi]]. apply in_seq in Hi. nia.
Qed.

Lemma NoDup_map_filter (A B : Type) (h : A -> B) (f : A -> bool) (l : list A) :
  NoDup (map h l) -> NoDup (map h (filter f l)).
Proof.
  induction l as [|a l IH]; cbn [map filter]; intro ND; [constructor|].
  inversion ND as [|? ? Hn ND']; subst.
  destruct (f a); cbn [map]; [|now apply IH].
  constructor; [|now apply IH].
  intro Hin. apply Hn. apply in_map_iff in Hin. destruct Hin as [x [E Hx]].
  apply in_map_iff. exists x. split; [assumption|]. apply filter_In in Hx. tauto.
Qed.

Section Ladder.
Variable config : Config.

(** The ladder of a price, for a price and a step that are whole
    numbers below [2^52], the steps of the ladder adding up to less
    than that too: there the doubles of the code divide, round down,
    multiply and subtract as the whole numbers do.  The base price is
    the multiple of the step at or next below the price; the levels are
    [maxOrders] in number, start at the base price, go down by one step
    each, so that no two are equal, and are whole numbers and multiples
    of the step, none above the price. *)
Theorem ladder_geometry (currentPrice wholePrice wholeStep : Z) :
  currentPrice = (wholePrice * JS.SCALE)%Z ->
  priceStep config = (wholeStep * JS.SCALE)%Z ->
  (0 < wholeStep < 2 ^ 52)%Z ->
  (0 <= wholePrice < 2 ^ 52)%Z ->
  (Z.of_nat (maxOrders config) * wholeStep < 2 ^ 52)%Z ->
  let basePrice := basePriceOf config currentPrice in
  let levels := desiredPricesOf config basePrice in
  basePrice = (wholePrice / wholeStep * wholeStep * JS.SCALE)%Z
  /\ (basePrice <= currentPrice < basePrice + priceStep config)%Z
  /\ length levels = maxOrders config
  /\ (forall p, In p levels <->
                exists i, (i < maxOrders config)%nat
                          /\ p = ((wholePrice / wholeStep - Z.of_nat i) * wholeStep
                                  * JS.SCALE)%Z)
  /\ StronglySorted (fun p q => (q < p)%Z) levels
  /\ NoDup levels
  /\ Forall (fun p => (p <= currentPrice)%Z /\ (p mod priceStep config = 0)%Z) levels.
Proof.
  intros Hprice Hs [Hpos Hsmall] Hbound Hlevels. cbv zeta.
  assert (Hscale : (0 < JS.SCALE)%Z) by reflexivity.
  assert (Hstep : (0 < priceStep config)%Z) by (rewrite Hs; nia).
  assert (Hbase : basePriceOf config currentPrice
                  = (wholePrice / wholeStep * wholeStep * JS.SCALE)%Z).
  { unfold basePriceOf. rewrite Hs, Hprice.
    rewrite Z.div_mul_cancel_r by lia. ring. }
  split; [exact Hbase|].
  unfold basePriceOf, desiredPricesOf.
  pose proof (Z.mul_div_le currentPrice _ Hstep) as Hle.
  pose proof (Z.mul_succ_div_gt currentPrice _ Hstep) as Hgt.
  split; [lia|].
  split; [now rewrite length_map, length_seq|].
  split.
  { intro p. fold (basePriceOf config currentPrice). rewrite Hbase, Hs, in_map_iff. split.
    - intros [i [<- Hi]]. apply in_seq in Hi. exists i. split; [lia | ring].
    - intros [i [Hi ->]]. exists i. split; [ring | apply in_seq; lia]. }
  split; [now apply levels_sorted|].
  split; [apply StronglySorted_desc_NoDup; now apply levels_sorted|].
  apply Forall_forall. intros p Hp. apply in_map_iff in Hp.
  destruct Hp as [i [<- Hi]]. split; [nia|].
  replace (currentPrice / priceStep config * priceStep config
           - Z.of_nat i * priceStep config)%Z
    with ((currentPrice / priceStep config - Z.of_nat i) * priceStep config)%Z by ring.
  apply Z.mod_mul. lia.
Qed.

Lemma enforceMaxOrders_placed b :
  ordersPlaced (stats (fst (enforceMaxOrders config b))) = ordersPlaced (stats b).
Proof.
  unfold enforceMaxOrders. destruct (getLastPrice (cache b)); [|reflexivity].
  destruct (z =? 0)%Z; [reflexivity|].
  destruct (map fst _); [reflexivity|].
  now destruct (WS.cancelBulkOrders _ _).
Qed.

(** Two calls of [enforceMaxOrders] with no cancellation report in
    between, the socket ready: the second call selects the orders the
    first selected, returns the same count and writes their
    cancellations a second time. *)
Theorem enforceMaxOrders_repeats_cancellations (b : Bot) :
  WS.ready (ws b) = true ->
  let b1 := fst (enforceMaxOrders config b) in
  let b2 := fst (enforceMaxOrders config b1) in
  exists ordersToCancel,
    snd (enforceMaxOrders config b) = length ordersToCancel
    /\ snd (enforceMaxOrders config b1) = length ordersToCancel
    /\ WS.sent (ws b1) = WS.sent (ws b) ++ map CancelOrderMsg ordersToCancel
    /\ WS.sent (ws b2)
       = WS.sent (ws b) ++ map CancelOrderMsg ordersToCancel
         ++ map CancelOrderMsg ordersToCancel
    /\ ordersCancelled (stats b2)
       = (ordersCancelled (stats b) + 2 * length ordersToCancel)%nat
    /\ cache b2 = cache b.
Proof.
  intro R. cbv zeta.
  pose (selected := fun c : CacheManager =>
          match getLastPrice c with
          | None => []
          | Some currentPrice =>
              if (currentPrice =? 0)%Z then []
              else
                map fst
                  (filter
                     (fun e =>
                        liveOrPending (snd e)
                        && negb (inGrid
                                   (desiredPricesOf config
                                      (basePriceOf config currentPrice))
                                   (price (snd e))))
                     (buyCurrentOrders c))
          end).
  assert (Hsame : forall b0 : Bot,
             WS.ready (ws b0) = true ->
             snd (enforceMaxOrders config b0) = length (selected (cache b0))
             /\ ws (fst (enforceMaxOrders config b0))
                = WS.mk (WS.privateConnected (ws b0)) (WS.isAuthenticated (ws b0))
                    (WS.sent (ws b0) ++ map CancelOrderMsg (selected (cache b0)))
                    (WS.messageQueue (ws b0))
             /\ ordersCancelled (stats (fst (enforceMaxOrders config b0)))
                = (ordersCancelled (stats b0) + length (selected (cache b0)))%nat).
  { intros b0 R0. unfold enforceMaxOrders, selected.
    destruct (getLastPrice (cache b0)) as [cp|].
    2:{ cbn. rewrite app_nil_r, Nat.add_0_r. now destruct (ws b0). }
    destruct (cp =? 0)%Z.
    { cbn. rewrite app_nil_r, Nat.add_0_r. now destruct (ws b0). }
    destruct (map fst _) as [|k ks] eqn:Eids.
    { cbn. rewrite app_nil_r, Nat.add_0_r. now destruct (ws b0). }
    rewrite (EnforceFacts.cancelBulkOrders_ready _ (k :: ks) R0).
    cbn [fst snd ws stats ordersCancelled]. now repeat split. }
  destruct (Hsame b R) as [Hn [Hws Hst]].
  assert (R1 : WS.ready (ws (fst (enforceMaxOrders config b))) = true)
    by (rewrite Hws; exact R).
  destruct (Hsame _ R1) as [Hn1 [Hws1 Hst1]].
  rewrite InvariantFacts.enforceMaxOrders_cache in Hn1, Hws1, Hst1.
  exists (selected (cache b)). split; [exact Hn|]. split; [exact Hn1|].
  split; [now rewrite Hws|].
  split; [rewrite Hws1, Hws; cbn [WS.sent]; now rewrite <- app_assoc|].
  split; [rewrite Hst1, Hst; lia|].
  now rewrite !InvariantFacts.enforceMaxOrders_cache.
Qed.

(** [enforceMaxOrders] of the later revision, which goes by the number
    of buy orders, on a ready socket.  The orders it cancels are as
    many as the store holds above [maxOrders], none when it holds no
    more, and none of them is priced above an order it keeps, whatever
    their status.  One cancellation per order is written past the
    throttled queue and counted; the store is not touched. *)
Theorem enforceMaxOrders_by_count_cancels_the_excess (b : Bot) :
  WS.ready (ws b) = true ->
  exists cancelled kept,
    Permutation (buyCurrentOrders (cache b)) (cancelled ++ kept)
    /\ length cancelled
       = (JSMap.size (buyCurrentOrders (cache b)) - maxOrders config)%nat
    /\ (forall x y, In x cancelled -> In y kept -> (price (snd x) <= price (snd y))%Z)
    /\ snd (Waves.enforceMaxOrders config b) = length cancelled
    /\ ws (fst (Waves.enforceMaxOrders config b))
       = WS.mk (WS.privateConnected (ws b)) (WS.isAuthenticated (ws b))
           (WS.sent (ws b) ++ map CancelOrderMsg (map fst cancelled))
           (WS.messageQueue (ws b))
    /\ ordersCancelled (stats (fst (Waves.enforceMaxOrders config b)))
       = (ordersCancelled (stats b) + length cancelled)%nat
    /\ cache (fst (Waves.enforceMaxOrders config b)) = cache b.
Proof.
  intro R.
  destruct (EnforceFacts.getOrdersToCancel_selects (cache b) (maxOrders config))
    as [Hfew Hmany].
  destruct (Nat.le_gt_cases (JSMap.size (buyCurrentOrders (cache b))) (maxOrders config))
    as [Hle|Hgt].
  - exists [], (buyCurrentOrders (cache b)).
    unfold Waves.enforceMaxOrders. rewrite (Hfew Hle).
    cbn [app length map fst snd]. rewrite app_nil_r, Nat.add_0_r.
    split; [apply Permutation_refl|]. split; [lia|]. split; [intros x y []|].
    split; [reflexivity|]. split; [now destruct (ws b)|]. now split.
  - destruct (Hmany Hgt) as (cancelled & kept & Hperm & Hids & Hlen & Hprice).
    exists cancelled, kept.
    split; [exact Hperm|]. split; [exact Hlen|]. split; [exact Hprice|].
    unfold Waves.enforceMaxOrders. rewrite Hids.
    destruct cancelled as [|x rest]; [cbn [length] in Hlen; lia|].
    cbn [map].
    change (fst x :: map fst rest) with (map fst (x :: rest)).
    rewrite (EnforceFacts.cancelBulkOrders_ready _ (map fst (x :: rest)) R).
    cbn [fst snd ws stats cache ordersCancelled]. rewrite !length_map.
    now repeat split.
Qed.

End Ladder.

(** Three buy orders and a limit of two. *)
Lemma enforceMaxOrders_by_count_cancels_the_excess_witness :
  WS.ready (ws botWithThreeBuys) = true
  /\ snd (Waves.enforceMaxOrders (mkConfig (50 * JS.SCALE) 2 0 (100 * JS.SCALE) 6)
            botWithThreeBuys)
     = 1%nat.
Proof.
  split; [reflexivity|].
  destruct (@enforceMaxOrders_by_count_cancels_the_excess
              (mkConfig (50 * JS.SCALE) 2 0 (100 * JS.SCALE) 6) botWithThreeBuys eq_refl)
    as (cancelled & kept & _ & Hlen & _ & Hn & _).
  rewrite Hn, Hlen. reflexivity.
Defined.

(** The ladder of 10020 with a step of 50. *)
Lemma ladder_geometry_witness :
  usd 10020 = (10020 * JS.SCALE)%Z
  /\ priceStep sampleConfig = (50 * JS.SCALE)%Z
  /\ (0 < 50 < 2 ^ 52)%Z
  /\ (0 <= 10020 < 2 ^ 52)%Z
  /\ (Z.of_nat (maxOrders sampleConfig) * 50 < 2 ^ 52)%Z
  /\ desiredPricesOf sampleConfig (basePriceOf sampleConfig (usd 10020))
     = [usd 10000; usd 9950; usd 9900; usd 9850; usd 9800]
  /\ NoDup (desiredPricesOf sampleConfig (basePriceOf sampleConfig (usd 10020)))
  /\ (basePriceOf sampleConfig (usd 10020) <= usd 10020
      < basePriceOf sampleConfig (usd 10020) + priceStep sampleConfig)%Z.
Proof.
  assert (H0 : (0 < 50 < 2 ^ 52)%Z) by (split; reflexivity).
  assert (H1 : (0 <= 10020 < 2 ^ 52)%Z) by (split; [discriminate | reflexivity]).
  split; [reflexivity|]. split; [reflexivity|]. split; [exact H0|].
  split; [exact H1|]. split; [reflexivity|]. split; [reflexivity|].
  pose proof (@ladder_geometry sampleConfig (usd 10020) 10020 50 eq_refl eq_refl H0 H1
                eq_refl) as H.
  cbv zeta in H. destruct H as (_ & Hb & _ & _ & _ & Hnd & _).
  split; [exact Hnd | exact Hb].
Defined.

(** The far order of [botWithFarOrder] is asked to be cancelled twice. *)
Lemma enforceMaxOrders_repeats_cancellations_witness :
  WS.ready (ws botWithFarOrder) = true
  /\ exists ordersToCancel,
       snd (enforceMaxOrders sampleConfig botWithFarOrder) = length ordersToCancel
       /\ WS.sent (ws (fst (enforceMaxOrders sampleConfig
                              (fst (enforceMaxOrders sampleConfig botWithFarOrder)))))
          = WS.sent (ws botWithFarOrder) ++ map CancelOrderMsg ordersToCancel
            ++ map CancelOrderMsg ordersToCancel.
Proof.
  split; [reflexivity|].
  pose proof (@enforceMaxOrders_repeats_cancellations sampleConfig botWithFarOrder eq_refl)
    as H.
  cbv zeta in H. destruct H as (ids & Hn & _ & _ & Hs & _).
  exists ids. split; [exact Hn | exact Hs].
Defined.

Section Updates.
Variable config : Config.
Variable massOrders : option MassOrders.
Variable tagFor : Z -> string.

(** One call of [updateGridOrders] on a store whose keys are distinct,
    the identifiers of the ladder distinct and not in the store.  The
    base price is recorded.  When no placement is started, nothing is
    placed, the store is the cleaned store and the flag is as it was;
    with the flag down this happens only when every level of the ladder
    is covered.  A placement is started only with the flag down: the
    flag goes up, and once the interval has run until the promise is
    resolved every level of the ladder is covered.  The promise is
    never resolved on return. *)
Theorem updateGridOrders_fills_the_ladder (b : Bot) (g : GridStrategy)
    (currentPrice now : Z) :
  wellFormed (cache b) = true ->
  NoDup (map (fun p => ("buy_" ++ tagFor p)%string)
           (desiredPricesOf config (basePriceOf config currentPrice))) ->
  (forall p, In p (desiredPricesOf config (basePriceOf config currentPrice)) ->
             bget (buyCurrentOrders (cache b)) ("buy_" ++ tagFor p)%string = None) ->
  exists b' g' outcome,
    updateGridOrders config massOrders tagFor b g currentPrice now
    = Some (b', g', outcome)
    /\ lastBasePrice g' = Some (basePriceOf config currentPrice)
    /\ match outcome with
       | None =>
           isPlacingOrders g' = isPlacingOrders g
           /\ ordersPlaced (stats b') = ordersPlaced (stats b)
           /\ cache b' = fst (cleanPendingOrders (cache b) 1500 now)
           /\ (isPlacingOrders g = false ->
               forall p, In p (desiredPricesOf config (basePriceOf config currentPrice)) ->
                         covered config (cache b') p)
       | Some (Resolved _) => False
       | Some (Pending job) =>
           isPlacingOrders g = false
           /\ isPlacingOrders g' = true
           /\ forall clock,
                (length (waves job) <= length clock)%nat ->
                exists bf total,
                  runWaves config b' job clock = (bf, Resolved total)
                  /\ forall p,
                       In p (desiredPricesOf config (basePriceOf config currentPrice)) ->
                       covered config (cache bf) p
       end.
Proof.
  intros Hwf ND Hfresh.
  pose (c1 := fst (cleanPendingOrders (cache b) 1500 now)).
  pose (b2 := fst (enforceMaxOrders config (with_cache b c1))).
  pose (levels := desiredPricesOf config (basePriceOf config currentPrice)).
  pose (newPriceLevels :=
          filter (fun p => canPlaceOrder (cache b2) p (priceStep config)) levels).
  pose (g1 := mkGridStrategy (running g) (lastProcessedPrice g) (lastUpdateTime g)
                (Some (basePriceOf config currentPrice)) (isPlacingOrders g)).
  pose (g2 := mkGridStrategy (running g) (lastProcessedPrice g) (lastUpdateTime g)
                (Some (basePriceOf config currentPrice)) true).
  assert (E0 : updateGridOrders config massOrders tagFor b g currentPrice now
               = match newPriceLevels with
                 | [] => Some (b2, g1, None)
                 | _ :: _ =>
                     if isPlacingOrders g then Some (b2, g1, None)
                     else
                       match placeOrdersInWaves config b2 Buy
                               (map (fun p => (p, tagFor p)) newPriceLevels)
                               massOrders now with
                       | Some (b3, outcome) => Some (b3, g2, Some outcome)
                       | None => None
                       end
                 end) by reflexivity.
  assert (Hc2 : cache b2 = c1)
    by (unfold b2; now rewrite InvariantFacts.enforceMaxOrders_cache).
  assert (Hs2 : ordersPlaced (stats b2) = ordersPlaced (stats b))
    by (unfold b2; now rewrite GridFacts.enforceMaxOrders_placed).
  assert (Hold : forall p, In p levels -> ~ In p newPriceLevels ->
                           covered config (cache b2) p).
  { intros p Hp Hn. apply PlacementFacts.canPlaceOrder_covered.
    destruct (canPlaceOrder (cache b2) p (priceStep config)) eqn:Ec; [|reflexivity].
    exfalso. apply Hn. apply filter_In. now split. }
  rewrite E0.
  destruct newPriceLevels as [|p0 rest] eqn:Enew.
  - exists b2, g1, None. split; [reflexivity|]. split; [reflexivity|].
    split; [reflexivity|]. split; [exact Hs2|]. split; [exact Hc2|].
    intros _ p Hp. apply Hold; [assumption | intros []].
  - destruct (isPlacingOrders g) eqn:Eflag.
    + exists b2, g1, None. split; [reflexivity|]. split; [reflexivity|].
      split; [reflexivity|]. split; [exact Hs2|]. split; [exact Hc2|]. discriminate.
    + rewrite <- Enew.
      assert (Hsub : forall p, In p newPriceLevels -> In p levels)
        by (intros p Hp; unfold newPriceLevels in Hp; apply filter_In in Hp; tauto).
      assert (Hids : buyIdsOf (map (fun p => (p, tagFor p)) newPriceLevels)
                     = map (fun p => ("buy_" ++ tagFor p)%string) newPriceLevels)
        by (unfold buyIdsOf; now rewrite map_map).
      destruct (@WaveFacts.placeOrdersInWaves_buy_post config b2
                  (map (fun p => (p, tagFor p)) newPriceLevels) massOrders now)
        as [b3 [job [E Hrun]]].
      { rewrite Enew. discriminate. }
      { rewrite Hids. unfold newPriceLevels. now apply NoDup_map_filter. }
      { intros id Hid. rewrite Hids in Hid. apply in_map_iff in Hid.
        destruct Hid as [p [<- Hp]]. rewrite Hc2. unfold c1.
        rewrite (StoreFacts.cleanPendingOrders_filter _ 1500 now Hwf).
        cbn [fst buyCurrentOrders].
        apply WellFormedFacts.wellFormed_iff in Hwf. destruct Hwf as [NDb _].
        rewrite (StoreFacts.get_filter String.eqb String.eqb_eq
                   (fun v => negb (buyExpired now 1500 v)) _ _ NDb).
        now rewrite (Hfresh p (Hsub p Hp)). }
      rewrite E. exists b3, g2, (Some (Pending job)).
      split; [reflexivity|]. split; [reflexivity|].
      split; [reflexivity|]. split; [reflexivity|].
      intros clock Hlen.
      destruct (Hrun clock Hlen)
        as (bf & total & placed & added & Hr & _ & Hbuys & _ & _ & _ & Hsells & Hfilled
            & _ & Hcov & _).
      exists bf, total. split; [exact Hr|].
      intros p Hp.
      destruct (in_dec Z.eq_dec p newPriceLevels) as [Hin|Hout].
      * apply (Hcov (p, tagFor p)). apply in_map_iff. exists p. now split.
      * rewrite Enew in Hout.
        exact (@WaveFacts.covered_extends config (cache b2) (cache bf) p added
                 Hbuys Hsells Hfilled (Hold p Hp Hout)).
Qed.

Lemma fold_bulkBuyStep_lastPrice now pricesData : forall acc,
  lastPrice (cache (fst (fst (fold_left (bulkBuyStep config now) pricesData acc))))
  = lastPrice (cache (fst (fst acc))).
Proof.
  induction pricesData as [|[p tag] rest IH]; intros [[b orders] cnt]; [reflexivity|].
  cbn [fold_left]. rewrite IH. unfold bulkBuyStep.
  now destruct (canPlaceOrder (cache b) p (priceStep config)).
Qed.

Lemma placeBulkBuyOrders_lastPrice b pricesData now :
  lastPrice (cache (fst (placeBulkBuyOrders config b pricesData now)))
  = lastPrice (cache b).
Proof.
  unfold placeBulkBuyOrders.
  pose proof (fold_bulkBuyStep_lastPrice now pricesData (b, [], 0%nat)) as H.
  destruct (fold_left (bulkBuyStep config now) pricesData (b, [], 0%nat))
    as [[b1 orders] cnt].
  cbn [fst] in H. destruct orders; [exact H|].
  now destruct (WS.placeBulkOrders (ws b1) _).
Qed.

Lemma cleanPendingOrders_lastPrice c maxPendingTimeMs now :
  lastPrice (fst (cleanPendingOrders c maxPendingTimeMs now)) = lastPrice c.
Proof.
  unfold cleanPendingOrders.
  destruct (cleanLoop String.eqb _ _ _ _) as [buys n1].
  now destruct (cleanLoop JS.same _ _ _ _) as [sells n2].
Qed.

Lemma placeOrdersInWaves_buy_lastPrice b ordersData now b1 outcome :
  placeOrdersInWaves config b Buy ordersData massOrders now = Some (b1, outcome) ->
  lastPrice (cache b1) = lastPrice (cache b).
Proof.
  unfold placeOrdersInWaves. destruct ordersData as [|o r].
  - intro E. now injection E as <- _.
  - destruct (Waves.sliceLoop _ _ _ _ _) as [theWaves|]; [|discriminate].
    unfold sendWave. cbn [jobSide currentWaveIndex waves].
    pose proof (placeBulkBuyOrders_lastPrice b (nth 0 theWaves []) now) as Hl.
    destruct (placeBulkBuyOrders config b (nth 0 theWaves []) now) as [b4 n].
    intro E. injection E as <- _. exact Hl.
Qed.

Lemma updateGridOrders_returns b g currentPrice now :
  exists b' g' outcome,
    updateGridOrders config massOrders tagFor b g currentPrice now
    = Some (b', g', outcome)
    /\ lastPrice (cache b') = lastPrice (cache b)
    /\ lastBasePrice g' = Some (basePriceOf config currentPrice).
Proof.
  pose (c1 := fst (cleanPendingOrders (cache b) 1500 now)).
  pose (b2 := fst (enforceMaxOrders config (with_cache b c1))).
  pose (newPriceLevels :=
          filter (fun p => canPlaceOrder (cache b2) p (priceStep config))
            (desiredPricesOf config (basePriceOf config currentPrice))).
  pose (g1 := mkGridStrategy (running g) (lastProcessedPrice g) (lastUpdateTime g)
                (Some (basePriceOf config currentPrice)) (isPlacingOrders g)).
  pose (g2 := mkGridStrategy (running g) (lastProcessedPrice g) (lastUpdateTime g)
                (Some (basePriceOf config currentPrice)) true).
  assert (E0 : updateGridOrders config massOrders tagFor b g currentPrice now
               = match newPriceLevels with
                 | [] => Some (b2, g1, None)
                 | _ :: _ =>
                     if isPlacingOrders g then Some (b2, g1, None)
                     else
                       match placeOrdersInWaves config b2 Buy
                               (map (fun p => (p, tagFor p)) newPriceLevels)
                               massOrders now with
                       | Some (b3, outcome) => Some (b3, g2, Some outcome)
                       | None => None
                       end
                 end) by reflexivity.
  assert (Hlp : lastPrice (cache b2) = lastPrice (cache b)).
  { unfold b2. rewrite InvariantFacts.enforceMaxOrders_cache.
    cbn [cache with_cache]. apply cleanPendingOrders_lastPrice. }
  rewrite E0.
  destruct newPriceLevels as [|p0 rest] eqn:Enew.
  - exists b2, g1, None. now repeat split.
  - destruct (isPlacingOrders g) eqn:Eflag.
    + exists b2, g1, None. now repeat split.
    + destruct (@WaveFacts.placeOrdersInWaves_run config b2 Buy
                  (map (fun p => (p, tagFor p)) (p0 :: rest)) massOrders now
                  ltac:(discriminate))
        as (b3 & job & E & _).
      rewrite E. exists b3, g2, (Some (Pending job)).
      split; [reflexivity|]. split; [|reflexivity].
      rewrite <- Hlp. exact (placeOrdersInWaves_buy_lastPrice _ _ _ E).
Qed.

(** [updateOrders] twice, the first call at a time that is not [0] by a
    strategy that has not updated before, the second less than 1000 ms
    later.  The first call updates the grid and notes the price and the
    time; the second, finding the price it noted, returns at once and
    changes nothing. *)
Theorem updateOrders_is_throttled (b : Bot) (g : GridStrategy) (p now now' : Z) :
  getLastPrice (cache b) = Some p ->
  p <> 0%Z ->
  lastUpdateTime g = None ->
  now <> 0%Z ->
  (now' - now < 1000)%Z ->
  exists b1 g1 outcome,
    updateOrders config massOrders tagFor b g now = Some (b1, g1, outcome)
    /\ lastProcessedPrice g1 = Some p
    /\ lastUpdateTime g1 = Some now
    /\ lastBasePrice g1 = Some (basePriceOf config p)
    /\ updateOrders config massOrders tagFor b1 g1 now' = Some (b1, g1, None).
Proof.
  intros Hp Hp0 Hnever Hnow Hsoon.
  destruct (updateGridOrders_returns b g p now)
    as (b1 & g1 & outcome & E & Hlp & Hbase).
  assert (E1 : updateOrders config massOrders tagFor b g now
               = Some (b1,
                       mkGridStrategy (running g1) (Some p) (Some now) (lastBasePrice g1)
                         (isPlacingOrders g1),
                       outcome)).
  { unfold updateOrders. rewrite Hp.
    assert (Z0 : (p =? 0)%Z = false) by now apply Z.eqb_neq.
    rewrite Z0, Hnever.
    destruct (lastProcessedPrice g); now rewrite E. }
  rewrite E1. eexists _, _, _. split; [reflexivity|].
  cbn [lastProcessedPrice lastUpdateTime lastBasePrice].
  split; [reflexivity|]. split; [reflexivity|]. split; [exact Hbase|].
  unfold updateOrders. unfold getLastPrice in *. rewrite Hlp, Hp.
  assert (Z0 : (p =? 0)%Z = false) by now apply Z.eqb_neq.
  assert (Z1 : (now =? 0)%Z = false) by now apply Z.eqb_neq.
  assert (Z2 : (now' - now <? 1000)%Z = true) by now apply Z.ltb_lt.
  rewrite Z0. cbn [lastProcessedPrice lastUpdateTime].
  now rewrite Z.eqb_refl, Z1, Z2.
Qed.

End Updates.

(** Two updates half a second apart, the price at 10020. *)
Lemma updateOrders_is_throttled_witness :
  getLastPrice (cache readyBot) = Some (usd 10020)
  /\ usd 10020 <> 0%Z
  /\ lastUpdateTime sampleGrid = None
  /\ 5000%Z <> 0%Z
  /\ (5500 - 5000 < 1000)%Z
  /\ exists b1 g1 outcome,
       updateOrders sampleConfig None sampleTagFor readyBot sampleGrid 5000
       = Some (b1, g1, outcome)
       /\ updateOrders sampleConfig None sampleTagFor b1 g1 5500 = Some (b1, g1, None).
Proof.
  assert (H0 : usd 10020 <> 0%Z) by (vm_compute; discriminate).
  assert (H1 : 5000%Z <> 0%Z) by discriminate.
  split; [reflexivity|]. split; [exact H0|]. split; [reflexivity|].
  split; [exact H1|]. split; [reflexivity|].
  destruct (@updateOrders_is_throttled sampleConfig None sampleTagFor readyBot sampleGrid
              (usd 10020) 5000 5500 eq_refl H0 eq_refl H1 eq_refl)
    as (b1 & g1 & outcome & E & _ & _ & _ & E').
  exists b1, g1, outcome. split; [exact E | exact E'].
Defined.

(** The first update of the grid on an empty store at 10020. *)
Lemma updateGridOrders_fills_the_ladder_witness :
  wellFormed (cache readyBot) = true
  /\ NoDup (map (fun p => ("buy_" ++ sampleTagFor p)%string)
              (desiredPricesOf sampleConfig (basePriceOf sampleConfig (usd 10020))))
  /\ (forall p,
         In p (desiredPricesOf sampleConfig (basePriceOf sampleConfig (usd 10020))) ->
         bget (buyCurrentOrders (cache readyBot)) ("buy_" ++ sampleTagFor p)%string = None)
  /\ exists b' g' outcome,
       updateGridOrders sampleConfig None sampleTagFor readyBot sampleGrid (usd 10020) 5000
       = Some (b', g', outcome)
       /\ lastBasePrice g' = Some (usd 10000).
Proof.
  assert (H1 : NoDup (map (fun p => ("buy_" ++ sampleTagFor p)%string)
                        (desiredPricesOf sampleConfig
                           (basePriceOf sampleConfig (usd 10020)))))
    by (apply (distinctb_NoDup String.eqb String.eqb_eq); reflexivity).
  assert (H2 : forall p,
             In p (desiredPricesOf sampleConfig (basePriceOf sampleConfig (usd 10020))) ->
             bget (buyCurrentOrders (cache readyBot)) ("buy_" ++ sampleTagFor p)%string
             = None)
    by (intros p _; reflexivity).
  split; [reflexivity|]. split; [exact H1|]. split; [exact H2|].
  destruct (@updateGridOrders_fills_the_ladder sampleConfig None sampleTagFor readyBot
              sampleGrid (usd 10020) 5000 eq_refl H1 H2)
    as (b' & g' & outcome & E & Hbase & _).
  exists b', g', outcome. split; [exact E | exact Hbase].
Defined.

End GridFacts.
